(** * Multi-chain transaction dispatch and reconciliation: a shallow embedding

    The TypeScript services [transactionManager.ts], [tronTransactionManager.ts],
    [utxoTransactionManager.ts] and the webhook router [webhooks.ts] are
    embedded as Rocq functions.  Process-wide [Map]s become explicit stores
    threaded through a small state-and-exception monad; every call that
    leaves the process (RPC provider, TronWeb, CryptoAPIs) is answered by an
    oracle record and logged in a trace. *)

From stdpp Require Import gmap strings list fin_maps pretty.
From Stdlib Require Import ZArith Lia Ascii.

Local Open Scope Z_scope.

(** ** JavaScript values and string primitives *)

Module Js.

(** A thrown value.  [message] is [error.message] ([None] when the thrown
    value has no such property, e.g. a thrown string), [to_string] is
    [String(error)], and the two response fields are
    [error.response?.data?.error?.message] and [error.response?.status]
    of an axios error. *)
Record Thrown := mkThrown {
  message : option string;
  to_string : string;
  response_message : option string;
  response_status : option Z
}.

(** [new Error(msg)] *)
Definition Error (msg : string) : Thrown :=
  {| message := Some msg; to_string := "Error: " +:+ msg;
     response_message := None; response_status := None |}.

(** Truthiness of a string and of an optional string. *)
Definition truthy (s : string) : bool := negb (String.eqb s "").

Definition truthy_opt (o : option string) : bool :=
  match o with Some s => truthy s | None => false end.

(** [a || b] where [a] may be undefined or empty and [b] may be undefined. *)
Definition or_opt (a b : option string) : option string :=
  if truthy_opt a then a else b.

(** [a || d] with a string default. *)
Definition or_str (a : option string) (d : string) : string :=
  match a with Some s => if truthy s then s else d | None => d end.

(** [n || d] on numbers: [undefined] and [0] are falsy. *)
Definition or_num (n : option Z) (d : Z) : Z :=
  match n with Some v => if v =? 0 then d else v | None => d end.

(** Template-literal rendering of a possibly undefined string. *)
Definition show_opt (o : option string) : string := default "undefined" o.

Definition lower_ascii (c : ascii) : ascii :=
  let n := nat_of_ascii c in
  if ((65 <=? n) && (n <=? 90))%nat then ascii_of_nat (n + 32) else c.

Definition upper_ascii (c : ascii) : ascii :=
  let n := nat_of_ascii c in
  if ((97 <=? n) && (n <=? 122))%nat then ascii_of_nat (n - 32) else c.

(** [s.toLowerCase()] and [s.toUpperCase()] on the ASCII range. *)
Fixpoint toLowerCase (s : string) : string :=
  match s with
  | EmptyString => EmptyString
  | String c r => String (lower_ascii c) (toLowerCase r)
  end.

Fixpoint toUpperCase (s : string) : string :=
  match s with
  | EmptyString => EmptyString
  | String c r => String (upper_ascii c) (toUpperCase r)
  end.

(** [s.includes(sub)] *)
Fixpoint includes (s sub : string) : bool :=
  String.prefix sub s ||
  match s with
  | EmptyString => false
  | String _ r => includes r sub
  end.

(** A JavaScript number that is an integer, or [NaN] (also used for an
    Invalid Date). *)
Inductive Number := NaN | Num (n : Z).

(** The value of a hexadecimal digit. *)
Definition hex_value (c : ascii) : option nat :=
  let n := nat_of_ascii c in
  if ((48 <=? n) && (n <=? 57))%nat then Some (n - 48)%nat
  else if ((65 <=? n) && (n <=? 70))%nat then Some (n - 55)%nat
  else if ((97 <=? n) && (n <=? 102))%nat then Some (n - 87)%nat
  else None.

Definition is_space (c : ascii) : bool :=
  let n := nat_of_ascii c in
  ((9 <=? n) && (n <=? 13))%nat || (n =? 32)%nat.

Fixpoint skip_spaces (s : string) : string :=
  match s with
  | String c r => if is_space c then skip_spaces r else s
  | EmptyString => EmptyString
  end.

(** The longest prefix of hexadecimal digits, read as a number. *)
Fixpoint hex_prefix (s : string) (acc : option Z) : option Z :=
  match s with
  | String c r =>
      match hex_value c with
      | Some d => hex_prefix r (Some (16 * default 0 acc + Z.of_nat d))
      | None => acc
      end
  | EmptyString => acc
  end.

Definition strip_0x (s : string) : string :=
  match s with
  | String "0" (String c r) =>
      if Ascii.eqb c "x" || Ascii.eqb c "X" then r else s
  | _ => s
  end.

(** [parseInt(v, 16)] of a string or [undefined]: leading white space,
    an optional sign, an optional [0x], then the hexadecimal digits;
    [NaN] when there is none. *)
Definition parseInt16 (v : option string) : Number :=
  match v with
  | None => NaN
  | Some s =>
      let s := skip_spaces s in
      let '(neg, s) :=
        match s with
        | String "-" r => (true, r)
        | String "+" r => (false, r)
        | _ => (false, s)
        end in
      match hex_prefix (strip_0x s) None with
      | Some n => Num (if neg then - n else n)
      | None => NaN
      end
  end.

End Js.

(** ** Outcomes and the state-and-exception monad *)

Inductive outcome (A : Type) : Type :=
| Ok (a : A)
| Throw (e : Js.Thrown).
Arguments Ok {A} a.
Arguments Throw {A} e.

(** A computation over a store [S]: it returns or throws, and in both cases
    hands back the store as mutated so far. *)
Definition M (S A : Type) : Type := S -> outcome A * S.

Definition ret {S A} (a : A) : M S A := fun s => (Ok a, s).

Definition throw {S A} (e : Js.Thrown) : M S A := fun s => (Throw e, s).

Definition bind {S A B} (m : M S A) (k : A -> M S B) : M S B :=
  fun s => match m s with
           | (Ok a, s') => k a s'
           | (Throw e, s') => (Throw e, s')
           end.

(** [try { m } catch (error) { h error }] *)
Definition try_catch {S A} (m : M S A) (h : Js.Thrown -> M S A) : M S A :=
  fun s => match m s with
           | (Ok a, s') => (Ok a, s')
           | (Throw e, s') => h e s'
           end.

Definition get {S} : M S S := fun s => (Ok s, s).

Definition modify {S} (f : S -> S) : M S unit := fun s => (Ok tt, f s).

(** A value computed outside the store (a library call that may throw). *)
Definition lift {S A} (o : outcome A) : M S A := fun s => (o, s).

Notation "x <- m ;; k" := (bind m (fun x => k))
  (at level 100, m at next level, right associativity).
Notation "m ;;; k" := (bind m (fun _ => k))
  (at level 100, right associativity).

(** ** transactionManager.ts *)

Module TM.

(** *** Configuration *)

Record ChainConfig := {
  rpc : list string;
  chainId : Z;
  nativeCurrency : string;
  explorer : string;
  (** [Math.floor(gasMultiplier * 100)]: 1.2, 1.1 and 1.3 give 120, 110
      and 130 in IEEE double arithmetic. *)
  gasMultiplierPct : Z
}.

Record TokenConfig := { token_address : string; decimals : Z }.

(** Calls that leave the process, and signing. *)
Inductive Event :=
| EvGetBlockNumber (rpc : string)
| EvGetTransactionCount (rpc address : string)
| EvGetBalance (rpc address : string)
| EvBalanceOf (rpc token owner : string)
| EvEstimateGas (rpc : string)
| EvGetFeeData (rpc : string)
| EvSign (from : string)
| EvBroadcast (rpc signed : string).

Record TransactionRequest := {
  tx_to : option string;
  tx_from : option string;
  tx_value : option Z;
  tx_data : option string;
  tx_nonce : option Z;
  tx_gasLimit : option Z;
  tx_maxFeePerGas : option Z;
  tx_maxPriorityFeePerGas : option Z;
  tx_chainId : option Z;
  tx_type : option Z
}.

Record FeeData := {
  fd_maxFeePerGas : option Z;
  fd_maxPriorityFeePerGas : option Z
}.

(** The environment of the service: [process.env], the ethers library
    and the JSON-RPC endpoints.  A provider object is identified by the
    URL it was built from.  [getBalance] takes the index of the balance
    query within one dispatch (0: balance check, 1: gas check), so the
    two reads may observe different balances. *)
Record World := {
  env : string -> option string;
  decrypt : string -> outcome string;
  getBlockNumber : string -> outcome Z;
  network_chainId : string -> option Z;
  wallet_address : string -> outcome string;
  (** [!(isNaN(parseFloat(amount)) || parseFloat(amount) <= 0)] *)
  amount_positive : string -> bool;
  parseEther : string -> outcome Z;
  parseUnits : string -> Z -> outcome Z;
  formatEther : Z -> string;
  formatUnits : Z -> Z -> string;
  balanceOf : string -> string -> string -> outcome Z;
  populateTransfer : string -> string -> Z -> outcome string;
  encodeTransfer : string -> Z -> outcome string;
  getBalance : nat -> string -> string -> outcome Z;
  getTransactionCount : string -> string -> outcome Z;
  estimateGas_rpc : string -> TransactionRequest -> outcome Z;
  getFeeData : string -> outcome FeeData;
  signTransaction : string -> TransactionRequest -> outcome string;
  broadcastTransaction : string -> string -> outcome string
}.

Definition env_or (w : World) (var dflt : string) : string :=
  Js.or_str (env w var) dflt.

Definition CHAIN_CONFIG (w : World) (chain : string) : option ChainConfig :=
  if String.eqb chain "ETHEREUM" then
    Some {| rpc := [env_or w "ALCHEMY_ETH_RPC" "https://eth.llamarpc.com";
                    "https://rpc.ankr.com/eth";
                    "https://cloudflare-eth.com"];
            chainId := 1; nativeCurrency := "ETH";
            explorer := "https://etherscan.io/tx/";
            gasMultiplierPct := 120 |}
  else if String.eqb chain "BSC" then
    Some {| rpc := [env_or w "ALCHEMY_BSC_RPC" "https://bsc-dataseed.binance.org";
                    "https://bsc-dataseed1.defibit.io";
                    "https://rpc.ankr.com/bsc"];
            chainId := 56; nativeCurrency := "BNB";
            explorer := "https://bscscan.com/tx/";
            gasMultiplierPct := 110 |}
  else if String.eqb chain "POLYGON" then
    Some {| rpc := [env_or w "ALCHEMY_POLYGON_RPC" "https://polygon-rpc.com";
                    "https://rpc.ankr.com/polygon";
                    "https://polygon.llamarpc.com"];
            chainId := 137; nativeCurrency := "MATIC";
            explorer := "https://polygonscan.com/tx/";
            gasMultiplierPct := 130 |}
  else None.

Definition ERC20_TOKENS (chain symbol : string) : option TokenConfig :=
  if String.eqb chain "ETHEREUM" then
    if String.eqb symbol "USDT" then
      Some {| token_address := "0xdAC17F958D2ee523a2206206994597C13D831ec7"; decimals := 6 |}
    else if String.eqb symbol "USDC" then
      Some {| token_address := "0xA0b86991c6218b36c1d19D4a2e9Eb0cE3606eB48"; decimals := 6 |}
    else None
  else if String.eqb chain "BSC" then
    if String.eqb symbol "USDT" then
      Some {| token_address := "0x55d398326f99059fF775485246999027B3197955"; decimals := 18 |}
    else if String.eqb symbol "USDC" then
      Some {| token_address := "0x8AC76a51cc950d9822D68b83fE1Ad97B32Cd580d"; decimals := 18 |}
    else None
  else if String.eqb chain "POLYGON" then
    if String.eqb symbol "USDT" then
      Some {| token_address := "0xc2132D05D31c914a87C6611C10748AEb04B58e8F"; decimals := 6 |}
    else if String.eqb symbol "USDC" then
      Some {| token_address := "0x2791Bca1f2de4661ED88A30C99A7a9449Aa84174"; decimals := 6 |}
    else None
  else None.

(** *** Stores *)

Record NonceEntry := { nonce : Z; timestamp : Z }.

Definition NONCE_CACHE_TTL : Z := 30000.

(** [nonceCache] and the log of outgoing calls. *)
Record Store := {
  nonceCache : gmap string NonceEntry;
  trace : list Event
}.

Definition log (e : Event) : M Store unit :=
  modify (fun s => {| nonceCache := nonceCache s; trace := trace s ++ [e] |}).

(** An outgoing call: logged, then answered by the world. *)
Definition call {A} (e : Event) (answer : outcome A) : M Store A :=
  log e ;;; lift answer.

Definition cache_set (k : string) (v : NonceEntry) : M Store unit :=
  modify (fun s => {| nonceCache := <[k := v]> (nonceCache s); trace := trace s |}).

Definition cache_delete (k : string) : M Store unit :=
  modify (fun s => {| nonceCache := delete k (nonceCache s); trace := trace s |}).

(** *** Provider management *)

Fixpoint try_endpoints (w : World) (chain : string) (rpcs : list string)
  : M Store string :=
  match rpcs with
  | [] => throw (Js.Error ("All RPC endpoints failed for " +:+ chain))
  | r :: rest =>
      try_catch (call (EvGetBlockNumber r) (getBlockNumber w r) ;;; ret r)
                (fun _ => try_endpoints w chain rest)
  end.

Definition getProvider (w : World) (chain : string) : M Store string :=
  match CHAIN_CONFIG w chain with
  | None => throw (Js.Error ("Unsupported chain: " +:+ chain))
  | Some config => try_endpoints w chain (rpc config)
  end.

(** *** Nonce management *)

(** [`${provider._network?.chainId || 'unknown'}`] *)
Definition network_tag (w : World) (provider : string) : string :=
  match network_chainId w provider with
  | Some c => if c =? 0 then "unknown" else pretty c
  | None => "unknown"
  end.

Definition cacheKey (w : World) (provider address : string) : string :=
  network_tag w provider +:+ "-" +:+ Js.toLowerCase address.

Definition getNextNonce (w : World) (now : Z) (provider address : string)
  : M Store Z :=
  let cacheKey := cacheKey w provider address in
  s <- get ;;
  let cached := nonceCache s !! cacheKey in
  onChainNonce <- call (EvGetTransactionCount provider address)
                       (getTransactionCount w provider address) ;;
  match cached with
  | Some c =>
      if now - timestamp c <? NONCE_CACHE_TTL then
        let nextNonce := Z.max (nonce c) onChainNonce in
        cache_set cacheKey {| nonce := nextNonce + 1; timestamp := now |} ;;;
        ret nextNonce
      else
        cache_set cacheKey {| nonce := onChainNonce + 1; timestamp := now |} ;;;
        ret onChainNonce
  | None =>
      cache_set cacheKey {| nonce := onChainNonce + 1; timestamp := now |} ;;;
      ret onChainNonce
  end.

Definition invalidateNonceCache (chainId : Z) (address : string)
  : M Store unit :=
  cache_delete (pretty chainId +:+ "-" +:+ Js.toLowerCase address).

(** *** Gas estimation *)

Record GasEstimate := {
  gasLimit : Z;
  maxFeePerGas : Z;
  maxPriorityFeePerGas : Z;
  estimatedCost : string
}.

(** [ethers.parseUnits(n, 'gwei')] *)
Definition gwei (n : Z) : Z := n * 10 ^ 9.

(** [fee ? (fee * 120n) / 100n : dflt]: [null] and [0n] are falsy;
    BigInt division truncates. *)
Definition buffered_fee (fee : option Z) (dflt : Z) : Z :=
  match fee with
  | Some v => if v =? 0 then dflt else Z.quot (v * 120) 100
  | None => dflt
  end.

Definition estimateGas (w : World) (provider chain : string)
    (tx : TransactionRequest) : M Store GasEstimate :=
  let config := CHAIN_CONFIG w chain in
  gasLimit <-
    try_catch
      (g <- call (EvEstimateGas provider) (estimateGas_rpc w provider tx) ;;
       match config with
       | Some c => ret (Z.quot (g * gasMultiplierPct c) 100)
       | None => throw (Js.Error "Cannot read properties of undefined (reading 'gasMultiplier')")
       end)
      (fun _ => ret (if Js.truthy_opt (tx_data tx) then 100000 else 21000)) ;;
  feeData <- call (EvGetFeeData provider) (getFeeData w provider) ;;
  let maxFeePerGas := buffered_fee (fd_maxFeePerGas feeData) (gwei 50) in
  let maxPriorityFeePerGas :=
    buffered_fee (fd_maxPriorityFeePerGas feeData) (gwei 2) in
  let estimatedCost := formatEther w (gasLimit * maxFeePerGas) in
  ret {| gasLimit := gasLimit;
         maxFeePerGas := maxFeePerGas;
         maxPriorityFeePerGas := maxPriorityFeePerGas;
         estimatedCost := estimatedCost |}.

(** *** Transaction sending *)

Record SendResult := {
  success : bool;
  txHash : option string;
  explorerUrl : option string;
  error : option string;
  retryable : option bool;
  queueId : option string
}.

Inductive FeeLevel := economy | standard | fast.

(** [{ success: false, error, retryable }] *)
Definition failure (msg : string) (r : bool) : SendResult :=
  {| success := false; txHash := None; explorerUrl := None;
     error := Some msg; retryable := Some r; queueId := None |}.

Definition isRetryable (message : string) : bool :=
  Js.includes message "nonce" ||
  Js.includes message "replacement" ||
  Js.includes message "timeout" ||
  Js.includes message "network" ||
  Js.includes message "ETIMEDOUT" ||
  Js.includes message "rate limit".

Definition feeMultiplier (feeLevel : FeeLevel) : Z :=
  match feeLevel with fast => 150 | economy => 80 | standard => 100 end.

(** The part of the [try] block that builds the transfer: either an early
    [return] or the populated request. *)
Definition build_transfer (w : World) (provider address chain toAddress
    amount symbol : string) : M Store (SendResult + TransactionRequest) :=
  match ERC20_TOKENS chain symbol with
  | Some tokenConfig =>
      tokenAmount <- lift (parseUnits w amount (decimals tokenConfig)) ;;
      balance <- call (EvBalanceOf provider (token_address tokenConfig) address)
                      (balanceOf w provider (token_address tokenConfig) address) ;;
      if balance <? tokenAmount then
        ret (inl (failure
          ("Insufficient " +:+ symbol +:+ " balance. Have: " +:+
           formatUnits w balance (decimals tokenConfig) +:+ ", Need: " +:+ amount)
          false))
      else
        data <- lift (populateTransfer w (token_address tokenConfig)
                                       toAddress tokenAmount) ;;
        ret (inr {| tx_to := Some (token_address tokenConfig);
                    tx_from := Some address;
                    tx_value := None; tx_data := Some data;
                    tx_nonce := None; tx_gasLimit := None;
                    tx_maxFeePerGas := None; tx_maxPriorityFeePerGas := None;
                    tx_chainId := None; tx_type := None |})
  | None =>
      amountWei <- lift (parseEther w amount) ;;
      balance <- call (EvGetBalance provider address)
                      (getBalance w 0%nat provider address) ;;
      if balance <? amountWei then
        ret (inl (failure
          ("Insufficient " +:+ symbol +:+ " balance. Have: " +:+
           formatEther w balance +:+ ", Need: " +:+ amount)
          false))
      else
        ret (inr {| tx_to := Some toAddress;
                    tx_from := Some address;
                    tx_value := Some amountWei; tx_data := None;
                    tx_nonce := None; tx_gasLimit := None;
                    tx_maxFeePerGas := None; tx_maxPriorityFeePerGas := None;
                    tx_chainId := None; tx_type := None |})
  end.

(** The body of the [try] block of [sendEVMTransaction]. *)
Definition sendEVMTransaction_try (w : World) (now : Z) (config : ChainConfig)
    (chain encryptedPrivateKey toAddress amount symbol : string)
    (feeLevel : FeeLevel) : M Store SendResult :=
  privateKey <- lift (decrypt w encryptedPrivateKey) ;;
  if negb (Js.truthy privateKey) || (String.length privateKey <? 64)%nat then
    ret (failure "Invalid or corrupted private key" false)
  else
  provider <- getProvider w chain ;;
  address <- lift (wallet_address w privateKey) ;;
  if negb (amount_positive w amount) then
    ret (failure "Invalid amount" false)
  else
  let isToken := bool_decide (is_Some (ERC20_TOKENS chain symbol)) in
  built <- build_transfer w provider address chain toAddress amount symbol ;;
  match built with
  | inl early => ret early
  | inr tx0 =>
      nonce <- getNextNonce w now provider address ;;
      let tx1 := {| tx_to := tx_to tx0; tx_from := tx_from tx0;
                    tx_value := tx_value tx0; tx_data := tx_data tx0;
                    tx_nonce := Some nonce; tx_gasLimit := None;
                    tx_maxFeePerGas := None; tx_maxPriorityFeePerGas := None;
                    tx_chainId := None; tx_type := None |} in
      gasEstimate <- estimateGas w provider chain tx1 ;;
      let m := feeMultiplier feeLevel in
      let tx := {| tx_to := tx_to tx0; tx_from := tx_from tx0;
                   tx_value := tx_value tx0; tx_data := tx_data tx0;
                   tx_nonce := Some nonce;
                   tx_gasLimit := Some (gasLimit gasEstimate);
                   tx_maxFeePerGas :=
                     Some (Z.quot (maxFeePerGas gasEstimate * m) 100);
                   tx_maxPriorityFeePerGas :=
                     Some (Z.quot (maxPriorityFeePerGas gasEstimate * m) 100);
                   tx_chainId := Some (chainId config);
                   tx_type := Some 2 |} in
      let totalCost :=
        default 0 (tx_value tx) +
        gasLimit gasEstimate * Z.quot (maxFeePerGas gasEstimate * m) 100 in
      short <-
        (if isToken then ret false
         else
           balance <- call (EvGetBalance provider address)
                           (getBalance w 1%nat provider address) ;;
           ret (balance <? totalCost)) ;;
      if (short : bool) then
        ret (failure
          ("Insufficient balance for amount + gas. Need: " +:+
           formatEther w totalCost +:+ " " +:+ symbol)
          false)
      else
        signedTx <- call (EvSign address) (signTransaction w privateKey tx) ;;
        hash <- call (EvBroadcast provider signedTx)
                     (broadcastTransaction w provider signedTx) ;;
        ret {| success := true; txHash := Some hash;
               explorerUrl := Some (explorer config +:+ hash);
               error := None; retryable := None; queueId := None |}
  end.

(** The [catch] block of [sendEVMTransaction]. *)
Definition sendEVMTransaction_catch (config : ChainConfig) (error : Js.Thrown)
  : M Store SendResult :=
  let message := Js.or_str (Js.message error) "Unknown error" in
  (if Js.includes message "nonce"
   then invalidateNonceCache (chainId config) "unknown"
   else ret tt) ;;;
  ret (failure message (isRetryable message)).

Definition sendEVMTransaction (w : World) (now : Z)
    (chain encryptedPrivateKey toAddress amount symbol : string)
    (feeLevel : FeeLevel) : M Store SendResult :=
  match CHAIN_CONFIG w chain with
  | None => ret (failure ("Unsupported chain: " +:+ chain) false)
  | Some config =>
      try_catch
        (sendEVMTransaction_try w now config chain encryptedPrivateKey
                                toAddress amount symbol feeLevel)
        (sendEVMTransaction_catch config)
  end.

(** *** Transaction queue *)

Record QueuedTransaction := {
  q_id : string;
  q_chain : string;
  q_from : string;
  q_to : string;
  q_amount : string;
  q_symbol : string;
  q_encryptedPrivateKey : string;
  retryCount : Z;
  maxRetries : Z;
  lastError : option string;
  createdAt : Z;
  nextRetryAt : option Z
}.

(** [transactionQueue] beside the dispatcher's store.  [dispatched] is
    ghost state: the queue ids handed to [sendEVMTransaction], in order. *)
Record QStore := {
  transactionQueue : gmap string QueuedTransaction;
  dispatched : list string;
  inner : Store
}.

(** Run a dispatcher computation inside the queue-level store. *)
Definition with_inner {A} (m : M Store A) : M QStore A :=
  fun qs =>
    let (r, s') := m (inner qs) in
    (r, {| transactionQueue := transactionQueue qs;
           dispatched := dispatched qs;
           inner := s' |}).

Definition queue_set (k : string) (v : QueuedTransaction) : M QStore unit :=
  modify (fun qs => {| transactionQueue := <[k := v]> (transactionQueue qs);
                       dispatched := dispatched qs;
                       inner := inner qs |}).

Definition queue_delete (k : string) : M QStore unit :=
  modify (fun qs => {| transactionQueue := delete k (transactionQueue qs);
                       dispatched := dispatched qs;
                       inner := inner qs |}).

Definition note_dispatch (k : string) : M QStore unit :=
  modify (fun qs => {| transactionQueue := transactionQueue qs;
                       dispatched := dispatched qs ++ [k];
                       inner := inner qs |}).

Definition queueTransaction (now : Z)
    (id chain from to amount symbol encryptedPrivateKey : string)
    (maxRetries : Z) : M QStore string :=
  let queuedTx := {| q_id := id; q_chain := chain; q_from := from;
                     q_to := to; q_amount := amount; q_symbol := symbol;
                     q_encryptedPrivateKey := encryptedPrivateKey;
                     retryCount := 0; maxRetries := maxRetries;
                     lastError := None; createdAt := now;
                     nextRetryAt := None |} in
  queue_set id queuedTx ;;; ret id.

(** [nonce_now] is the clock read by [getNextNonce] during the dispatch,
    [now] the clock read when the retry is scheduled.  [Math.pow(2, k) *
    1000] is exact in double arithmetic for the retry counts that occur. *)
Definition processQueuedTransaction (w : World) (nonce_now now : Z)
    (id : string) : M QStore SendResult :=
  qs <- get ;;
  match transactionQueue qs !! id with
  | None => ret (failure "Transaction not found in queue" false)
  | Some queuedTx =>
      note_dispatch id ;;;
      result <- with_inner
        (sendEVMTransaction w nonce_now (q_chain queuedTx)
           (q_encryptedPrivateKey queuedTx) (q_to queuedTx)
           (q_amount queuedTx) (q_symbol queuedTx) standard) ;;
      if success result then
        queue_delete id ;;; ret result
      else if bool_decide (retryable result = Some true)
              && (retryCount queuedTx <? maxRetries queuedTx) then
        let retryCount' := retryCount queuedTx + 1 in
        let queuedTx' :=
          {| q_id := q_id queuedTx; q_chain := q_chain queuedTx;
             q_from := q_from queuedTx; q_to := q_to queuedTx;
             q_amount := q_amount queuedTx; q_symbol := q_symbol queuedTx;
             q_encryptedPrivateKey := q_encryptedPrivateKey queuedTx;
             retryCount := retryCount';
             maxRetries := maxRetries queuedTx;
             lastError := error result;
             createdAt := createdAt queuedTx;
             nextRetryAt := Some (now + 2 ^ retryCount' * 1000) |} in
        queue_set id queuedTx' ;;;
        ret {| success := success result; txHash := txHash result;
               explorerUrl := explorerUrl result;
               error := Some (Js.show_opt (error result) +:+ " (retry " +:+
                              pretty retryCount' +:+ "/" +:+
                              pretty (maxRetries queuedTx) +:+ " scheduled)");
               retryable := retryable result;
               queueId := Some id |}
      else
        queue_delete id ;;; ret result
  end.

Definition getQueuedTransaction (id : string) (qs : QStore)
  : option QueuedTransaction :=
  transactionQueue qs !! id.

(** [{ pending, retrying }] as a pair. *)
Definition getQueueStats (qs : QStore) : nat * nat :=
  map_fold
    (fun _ tx '(pending, retrying) =>
       if 0 <? retryCount tx then (pending, S retrying)
       else (S pending, retrying))
    (0%nat, 0%nat) (transactionQueue qs).

(** *** Balance fetching *)

Record BalanceResult := {
  balance : string;
  balance_error : option string
}.

(** The [try] block of [getEVMBalanceRobust]. *)
Definition getEVMBalanceRobust_try (w : World) (chain address symbol : string)
  : M Store BalanceResult :=
  provider <- getProvider w chain ;;
  match ERC20_TOKENS chain symbol with
  | Some tokenConfig =>
      b <- call (EvBalanceOf provider (token_address tokenConfig) address)
                (balanceOf w provider (token_address tokenConfig) address) ;;
      ret {| balance := formatUnits w b (decimals tokenConfig);
             balance_error := None |}
  | None =>
      b <- call (EvGetBalance provider address)
                (getBalance w 0%nat provider address) ;;
      ret {| balance := formatEther w b; balance_error := None |}
  end.

Definition getEVMBalanceRobust (w : World) (chain address symbol : string)
  : M Store BalanceResult :=
  match CHAIN_CONFIG w chain with
  | None => ret {| balance := "0";
                   balance_error := Some ("Unsupported chain: " +:+ chain) |}
  | Some config =>
      try_catch
        (getEVMBalanceRobust_try w chain address symbol)
        (fun error => ret {| balance := "0";
                             balance_error := Js.message error |})
  end.

(** *** Gas estimation endpoint *)

Record FeeEstimate := {
  fe_success : bool;
  fe_estimatedFee : option string;
  fe_gasLimit : option string;
  fe_error : option string
}.

(** The request whose gas is estimated: a token [transfer] call or a
    plain value transfer.  Encoding and parsing may throw. *)
Definition estimate_request (w : World) (chain from to amount symbol : string)
  : outcome TransactionRequest :=
  match ERC20_TOKENS chain symbol with
  | Some tokenConfig =>
      match parseUnits w amount (decimals tokenConfig) with
      | Ok tokenAmount =>
          match encodeTransfer w to tokenAmount with
          | Ok data =>
              Ok {| tx_to := Some (token_address tokenConfig);
                    tx_from := Some from;
                    tx_value := None; tx_data := Some data;
                    tx_nonce := None; tx_gasLimit := None;
                    tx_maxFeePerGas := None;
                    tx_maxPriorityFeePerGas := None;
                    tx_chainId := None; tx_type := None |}
          | Throw e => Throw e
          end
      | Throw e => Throw e
      end
  | None =>
      match parseEther w amount with
      | Ok v =>
          Ok {| tx_to := Some to; tx_from := Some from;
                tx_value := Some v; tx_data := None;
                tx_nonce := None; tx_gasLimit := None;
                tx_maxFeePerGas := None;
                tx_maxPriorityFeePerGas := None;
                tx_chainId := None; tx_type := None |}
      | Throw e => Throw e
      end
  end.

Definition estimateTransactionFee (w : World)
    (chain from to amount symbol : string) : M Store FeeEstimate :=
  match CHAIN_CONFIG w chain with
  | None => ret {| fe_success := false; fe_estimatedFee := None;
                   fe_gasLimit := None;
                   fe_error := Some ("Unsupported chain: " +:+ chain) |}
  | Some config =>
      try_catch
        (provider <- getProvider w chain ;;
         tx <- lift (estimate_request w chain from to amount symbol) ;;
         gasEstimate <- estimateGas w provider chain tx ;;
         ret {| fe_success := true;
                fe_estimatedFee := Some (estimatedCost gasEstimate);
                fe_gasLimit := Some (pretty (gasLimit gasEstimate));
                fe_error := None |})
        (fun error => ret {| fe_success := false; fe_estimatedFee := None;
                             fe_gasLimit := None;
                             fe_error := Js.message error |})
  end.

End TM.

(** ** tronTransactionManager.ts *)

Module Tron.

Record TokenConfig := { token_address : string; decimals : Z }.

Definition TRC20_TOKENS (symbol : string) : option TokenConfig :=
  if String.eqb symbol "USDT" then
    Some {| token_address := "TR7NHqjeKQxGTCi8q8ZY4pL8otSzgjLj6t"; decimals := 6 |}
  else if String.eqb symbol "USDC" then
    Some {| token_address := "TEkxiTehnzSmSe2XqrBj4w32RUN966rdz8"; decimals := 6 |}
  else None.

Inductive Event :=
| EvGetBalance (address : string)
| EvSendTrx (to : string) (amountSun : Z) (from : string)
| EvSign (tx : string)
| EvSendRawTransaction (signed : string)
| EvContractAt (token : string)
| EvBalanceOf (token owner : string)
| EvTransfer (token to : string) (amount : Z)
| EvGetBandwidth (address : string).

(** [{ result, txid, message }] as answered by [sendRawTransaction]. *)
Record RawResult := {
  raw_result : bool;
  raw_txid : string;
  raw_message : option string
}.

(** TronWeb, the key store and JavaScript's floating-point renderings.
    [amountSun a] is [Math.floor(parseFloat(a) * 1e6)], [tokenUnits a d]
    is [Math.floor(parseFloat(a) * Math.pow(10, d))], [show_div n d] is
    [(n / d).toString()], [show_amount a] is [`${parseFloat(a)}`] and
    [show_burn b] is [((265 - b) * 0.001).toString()]. *)
Record World := {
  decrypt : string -> outcome string;
  newTronWeb : outcome unit;
  fromPrivateKey : string -> outcome string;
  amount_positive : string -> bool;
  isAddress : string -> bool;
  amountSun : string -> Z;
  tokenUnits : string -> Z -> Z;
  show_div : Z -> Z -> string;
  show_amount : string -> string;
  show_burn : Z -> string;
  getBalance : string -> outcome Z;
  sendTrx : string -> Z -> string -> outcome string;
  sign : string -> string -> outcome string;
  sendRawTransaction : string -> outcome RawResult;
  contractAt : string -> outcome unit;
  balanceOf : string -> string -> outcome Z;
  transfer : string -> string -> Z -> outcome string;
  getBandwidth : string -> outcome Z
}.

Definition call {A} (e : Event) (answer : outcome A) : M (list Event) A :=
  modify (fun t => t ++ [e]) ;;; lift answer.

Record TronSendResult := {
  success : bool;
  txHash : option string;
  explorerUrl : option string;
  error : option string;
  retryable : option bool
}.

Definition failure (msg : string) (r : bool) : TronSendResult :=
  {| success := false; txHash := None; explorerUrl := None;
     error := Some msg; retryable := Some r |}.

(** *** Decoding of hexadecimal error messages *)

(** [/^[0-9a-fA-F]+$/.test(message)] *)
Fixpoint all_hex (s : string) : bool :=
  match s with
  | EmptyString => true
  | String c r => bool_decide (is_Some (Js.hex_value c)) && all_hex r
  end.

Definition is_hex (s : string) : bool :=
  negb (String.eqb s "") && all_hex s.

(** [String.fromCharCode(parseInt(message.slice(i, i + 2), 16))] for each
    pair, joined. *)
Fixpoint decode_pairs (s : string) : string :=
  match s with
  | String a (String b r) =>
      match Js.hex_value a, Js.hex_value b with
      | Some h, Some l => String (ascii_of_nat (16 * h + l)) (decode_pairs r)
      | _, _ => decode_pairs r
      end
  | _ => EmptyString
  end.

(** [.replace(/[^\x20-\x7E]/g, '')] *)
Fixpoint printable (s : string) : string :=
  match s with
  | EmptyString => EmptyString
  | String c r =>
      let n := nat_of_ascii c in
      if ((32 <=? n) && (n <=? 126))%nat then String c (printable r)
      else printable r
  end.

Fixpoint trim_start (s : string) : string :=
  match s with
  | String c r => if Ascii.eqb c " " then trim_start r else s
  | EmptyString => EmptyString
  end.

Fixpoint trim_end (s : string) : string :=
  match s with
  | EmptyString => EmptyString
  | String c r =>
      match trim_end r with
      | EmptyString => if Ascii.eqb c " " then EmptyString else String c EmptyString
      | r' => String c r'
      end
  end.

(** [.trim()] on a string whose only whitespace is the space character. *)
Definition trim (s : string) : string := trim_end (trim_start s).

Definition decodeMessage (message : string) : string :=
  if is_hex message && Nat.even (String.length message)
  then trim (printable (decode_pairs message))
  else message.

Definition isRetryable (decodedMessage : string) : bool :=
  Js.includes decodedMessage "timeout" ||
  Js.includes decodedMessage "network" ||
  Js.includes decodedMessage "bandwidth".

(** *** Transaction sending *)

Definition sendTronTransaction_try (w : World)
    (encryptedPrivateKey toAddress amount symbol : string)
  : M (list Event) TronSendResult :=
  privateKey <- lift (decrypt w encryptedPrivateKey) ;;
  if negb (Js.truthy privateKey) || (String.length privateKey <? 64)%nat then
    ret (failure "Invalid or corrupted private key" false)
  else
  lift (newTronWeb w) ;;;
  fromAddress <- lift (fromPrivateKey w privateKey) ;;
  if negb (amount_positive w amount) then
    ret (failure "Invalid amount" false)
  else if negb (isAddress w fromAddress) || negb (isAddress w toAddress) then
    ret (failure "Invalid TRON address" false)
  else
  sent <-
    (if String.eqb symbol "TRX" then
       let amountSun := amountSun w amount in
       balance <- call (EvGetBalance fromAddress) (getBalance w fromAddress) ;;
       if balance <? amountSun then
         ret (inl (failure
           ("Insufficient TRX balance. Have: " +:+ show_div w balance 1000000 +:+
            ", Need: " +:+ show_amount w amount) false))
       else
         tx <- call (EvSendTrx toAddress amountSun fromAddress)
                    (sendTrx w toAddress amountSun fromAddress) ;;
         signedTx <- call (EvSign tx) (sign w tx privateKey) ;;
         result <- call (EvSendRawTransaction signedTx)
                        (sendRawTransaction w signedTx) ;;
         if raw_result result then ret (inr (raw_txid result))
         else ret (inl (failure (Js.or_str (raw_message result) "Transaction failed")
                                true))
     else
       match TRC20_TOKENS symbol with
       | Some tokenConfig =>
           let tokenAmount := tokenUnits w amount (decimals tokenConfig) in
           trxBalance <- call (EvGetBalance fromAddress) (getBalance w fromAddress) ;;
           if trxBalance <? 15 * 1000000 then
             ret (inl (failure
               ("Insufficient TRX for network fees. Need at least 15 TRX, have: " +:+
                show_div w trxBalance 1000000) false))
           else
             call (EvContractAt (token_address tokenConfig))
                  (contractAt w (token_address tokenConfig)) ;;;
             tokenBalance <- call (EvBalanceOf (token_address tokenConfig) fromAddress)
                                  (balanceOf w (token_address tokenConfig) fromAddress) ;;
             if tokenBalance <? tokenAmount then
               ret (inl (failure ("Insufficient " +:+ symbol +:+ " balance") false))
             else
               result <- call (EvTransfer (token_address tokenConfig) toAddress tokenAmount)
                              (transfer w (token_address tokenConfig) toAddress tokenAmount) ;;
               ret (inr result)
       | None => ret (inl (failure ("Unsupported token: " +:+ symbol) false))
       end) ;;
  match sent with
  | inl early => ret early
  | inr txHash =>
      ret {| success := true; txHash := Some txHash;
             explorerUrl := Some ("https://tronscan.org/#/transaction/" +:+ txHash);
             error := None; retryable := None |}
  end.

Definition sendTronTransaction_catch (error : Js.Thrown)
  : M (list Event) TronSendResult :=
  let message := Js.or_str (Js.message error) (Js.to_string error) in
  let decodedMessage := decodeMessage message in
  ret (failure decodedMessage (isRetryable decodedMessage)).

Definition sendTronTransaction (w : World)
    (encryptedPrivateKey toAddress amount symbol : string)
  : M (list Event) TronSendResult :=
  try_catch
    (sendTronTransaction_try w encryptedPrivateKey toAddress amount symbol)
    sendTronTransaction_catch.

(** *** Balance fetching *)

(** The [try] block of [getTronBalance]. *)
Definition getTronBalance_try (w : World) (address symbol : string)
  : M (list Event) TM.BalanceResult :=
  lift (newTronWeb w) ;;;
  if String.eqb symbol "TRX" then
    b <- call (EvGetBalance address) (getBalance w address) ;;
    ret {| TM.balance := show_div w b 1000000; TM.balance_error := None |}
  else
    match TRC20_TOKENS symbol with
    | Some tokenConfig =>
        call (EvContractAt (token_address tokenConfig))
             (contractAt w (token_address tokenConfig)) ;;;
        b <- call (EvBalanceOf (token_address tokenConfig) address)
                  (balanceOf w (token_address tokenConfig) address) ;;
        ret {| TM.balance := show_div w b (10 ^ decimals tokenConfig);
               TM.balance_error := None |}
    | None =>
        ret {| TM.balance := "0";
               TM.balance_error := Some ("Unknown token: " +:+ symbol) |}
    end.

Definition getTronBalance (w : World) (address symbol : string)
  : M (list Event) TM.BalanceResult :=
  try_catch
    (getTronBalance_try w address symbol)
    (fun error => ret {| TM.balance := "0";
                         TM.balance_error := Js.message error |}).

(** *** Energy and bandwidth estimation *)

Record TronFee := {
  estimatedFee : string;
  energyNeeded : option Z;
  bandwidthNeeded : option Z
}.

(** [(65000 * 420 / 1e6).toString()] is ["27.3"]. *)
Definition estimateTronFee (w : World) (fromAddress toAddress amount symbol : string)
  : M (list Event) TronFee :=
  try_catch
    (lift (newTronWeb w) ;;;
     if String.eqb symbol "TRX" then
       bandwidth <- call (EvGetBandwidth fromAddress) (getBandwidth w fromAddress) ;;
       let bandwidthNeeded := 265 in
       if bandwidthNeeded <=? bandwidth then
         ret {| estimatedFee := "0"; energyNeeded := None;
                bandwidthNeeded := Some bandwidthNeeded |}
       else
         ret {| estimatedFee := show_burn w bandwidth; energyNeeded := None;
                bandwidthNeeded := Some bandwidthNeeded |}
     else
       ret {| estimatedFee := "27.3"; energyNeeded := Some 65000;
              bandwidthNeeded := None |})
    (fun _ => ret {| estimatedFee := if String.eqb symbol "TRX" then "0.1" else "20";
                     energyNeeded := None; bandwidthNeeded := None |}).

End Tron.

(** ** utxoTransactionManager.ts *)

Module UTXO.

Record ChainConfig := {
  blockchain : string;
  network : string;
  explorer : string;
  minConfirmations : Z
}.

Inductive Event :=
| EvCreateAndSign (blockchain network xpub to amount feeLevel : string)
| EvBroadcast (blockchain network : string) (hex : option string)
| EvBalance (blockchain network address : string)
| EvEstimateFee (blockchain network from to amount : string)
| EvRegister (blockchain network address callbackUrl : string) (confirmations : Z).

(** [response.data?.data?.item] of the create-and-sign call. *)
Record TxData := {
  transactionId : option string;
  signedTransactionHex : option string
}.

Record FeeItem := {
  item_estimatedFee : option string;
  item_feeRate : option string
}.

(** [process.env], the key store and the CryptoAPIs REST endpoints; each
    endpoint answers with the part of the response body the code reads. *)
Record World := {
  env : string -> option string;
  decrypt : string -> outcome string;
  createAndSign : string -> string -> string -> string -> string -> string
                  -> outcome (option TxData);
  broadcast : string -> string -> option string -> outcome (option string);
  fetchBalance : string -> string -> string -> outcome (option string);
  fetchFee : string -> string -> string -> string -> string
             -> outcome (option FeeItem);
  registerEvent : string -> string -> string -> string -> Z
                  -> outcome (option string)
}.

Definition CRYPTOAPIS_API_KEY (w : World) : string :=
  Js.or_str (env w "CRYPTOAPIS_API_KEY") "".

Definition env_network (w : World) : string :=
  if bool_decide (env w "NETWORK" = Some "testnet") then "testnet" else "mainnet".

Definition CHAIN_CONFIG (w : World) (chain : string) : option ChainConfig :=
  if String.eqb chain "BITCOIN" then
    Some {| blockchain := "bitcoin"; network := env_network w;
            explorer := "https://blockstream.info/tx/"; minConfirmations := 2 |}
  else if String.eqb chain "LITECOIN" then
    Some {| blockchain := "litecoin"; network := env_network w;
            explorer := "https://blockchair.com/litecoin/transaction/";
            minConfirmations := 6 |}
  else if String.eqb chain "DOGECOIN" then
    Some {| blockchain := "dogecoin"; network := env_network w;
            explorer := "https://dogechain.info/tx/"; minConfirmations := 6 |}
  else None.

(** [getHeaders()]: throws when no API key is configured. *)
Definition getHeaders (w : World) : M (list Event) unit :=
  if Js.truthy (CRYPTOAPIS_API_KEY w) then ret tt
  else throw (Js.Error "CRYPTOAPIS_API_KEY not configured").

(** An axios request: the headers are computed first, then the request
    is sent. *)
Definition request {A} (w : World) (e : Event) (answer : outcome A)
  : M (list Event) A :=
  getHeaders w ;;; modify (fun t => t ++ [e]) ;;; lift answer.

Record UTXOSendResult := {
  success : bool;
  txHash : option string;
  explorerUrl : option string;
  error : option string;
  retryable : option bool
}.

Definition failure (msg : string) (r : bool) : UTXOSendResult :=
  {| success := false; txHash := None; explorerUrl := None;
     error := Some msg; retryable := Some r |}.

Definition isRetryable (message : string) : bool :=
  negb (Js.includes message "insufficient") &&
  negb (Js.includes message "invalid").

Definition sendUTXOTransaction_try (w : World) (config : ChainConfig)
    (chain encryptedXpub encryptedWif toAddress amount feeLevel : string)
  : M (list Event) UTXOSendResult :=
  xpub <- lift (decrypt w encryptedXpub) ;;
  wif <- lift (decrypt w encryptedWif) ;;
  if negb (Js.truthy xpub) || negb (Js.truthy wif) then
    ret (failure "Invalid or corrupted wallet keys" false)
  else
  txData <- request w
    (EvCreateAndSign (blockchain config) (network config) xpub toAddress
                     amount feeLevel)
    (createAndSign w (blockchain config) (network config) xpub toAddress
                   amount feeLevel) ;;
  if negb (Js.truthy_opt (txData ≫= transactionId)) then
    ret (failure "Failed to create transaction" true)
  else
  let hex := txData ≫= signedTransactionHex in
  txHash <- request w
    (EvBroadcast (blockchain config) (network config) hex)
    (broadcast w (blockchain config) (network config) hex) ;;
  match txHash with
  | Some h =>
      if Js.truthy h then
        ret {| success := true; txHash := Some h;
               explorerUrl := Some (explorer config +:+ h);
               error := None; retryable := None |}
      else ret (failure "Failed to broadcast transaction" true)
  | None => ret (failure "Failed to broadcast transaction" true)
  end.

Definition sendUTXOTransaction_catch (error : Js.Thrown)
  : M (list Event) UTXOSendResult :=
  let message :=
    Js.or_str (Js.or_opt (Js.response_message error) (Js.message error))
              "Unknown error" in
  ret (failure message (isRetryable message)).

Definition sendUTXOTransaction (w : World)
    (chain encryptedXpub encryptedWif toAddress amount feeLevel : string)
  : M (list Event) UTXOSendResult :=
  match CHAIN_CONFIG w chain with
  | None => ret (failure ("Unsupported chain: " +:+ chain) false)
  | Some config =>
      try_catch
        (sendUTXOTransaction_try w config chain encryptedXpub encryptedWif
                                 toAddress amount feeLevel)
        sendUTXOTransaction_catch
  end.

(** *** Balance fetching *)

(** The [try] block of [getUTXOBalance]. *)
Definition getUTXOBalance_try (w : World) (config : ChainConfig) (address : string)
  : M (list Event) TM.BalanceResult :=
  amount <- request w
    (EvBalance (blockchain config) (network config) address)
    (fetchBalance w (blockchain config) (network config) address) ;;
  ret {| TM.balance := Js.or_str amount "0"; TM.balance_error := None |}.

Definition getUTXOBalance (w : World) (chain address : string)
  : M (list Event) TM.BalanceResult :=
  match CHAIN_CONFIG w chain with
  | None => ret {| TM.balance := "0";
                   TM.balance_error := Some ("Unsupported chain: " +:+ chain) |}
  | Some config =>
      try_catch
        (getUTXOBalance_try w config address)
        (fun error => ret {| TM.balance := "0";
                             TM.balance_error := Js.message error |})
  end.

(** *** Fee estimation *)

Record UTXOFee := {
  estimatedFee : string;
  feeRate : string;
  fee_error : option string
}.

Definition default_fee (chain : string) : string :=
  if String.eqb chain "BITCOIN" then "0.00005"
  else if String.eqb chain "LITECOIN" then "0.001"
  else if String.eqb chain "DOGECOIN" then "1"
  else "0.001".

Definition estimateUTXOFee (w : World) (chain fromAddress toAddress amount : string)
  : M (list Event) UTXOFee :=
  match CHAIN_CONFIG w chain with
  | None => ret {| estimatedFee := "0"; feeRate := "0";
                   fee_error := Some ("Unsupported chain: " +:+ chain) |}
  | Some config =>
      try_catch
        (item <- request w
           (EvEstimateFee (blockchain config) (network config)
                          fromAddress toAddress amount)
           (fetchFee w (blockchain config) (network config)
                     fromAddress toAddress amount) ;;
         ret {| estimatedFee := Js.or_str (item ≫= item_estimatedFee) "0";
                feeRate := Js.or_str (item ≫= item_feeRate) "0";
                fee_error := None |})
        (fun _ => ret {| estimatedFee := default_fee chain;
                         feeRate := "0";
                         fee_error := Some "Using default fee estimate" |})
  end.

(** *** Webhook registration *)

Record WebhookRegistration := {
  webhookId : option string;
  reg_error : option string
}.

Inductive EventType := confirmed | unconfirmed.

Definition registerUTXOWebhook (w : World) (chain address callbackUrl : string)
    (eventType : EventType) : M (list Event) WebhookRegistration :=
  match CHAIN_CONFIG w chain with
  | None => ret {| webhookId := None;
                   reg_error := Some ("Unsupported chain: " +:+ chain) |}
  | Some config =>
      let confirmationsCount :=
        match eventType with confirmed => minConfirmations config | unconfirmed => 0 end in
      try_catch
        (ref <- request w
           (EvRegister (blockchain config) (network config) address
                       callbackUrl confirmationsCount)
           (registerEvent w (blockchain config) (network config) address
                          callbackUrl confirmationsCount) ;;
         ret {| webhookId := ref; reg_error := None |})
        (fun error =>
           if bool_decide (Js.response_status error = Some 409) then
             ret {| webhookId := Some "already-exists"; reg_error := None |}
           else
             ret {| webhookId := None;
                    reg_error := Js.or_opt (Js.response_message error)
                                          (Js.message error) |})
  end.

End UTXO.

(** ** webhooks.ts *)

Module Webhooks.

Inductive Status := pending | confirmed | failed.

Record TransactionStatus := {
  txHash : option string;
  status : Status;
  confirmations : Z;
  chain : string;
  timestamp : Js.Number;
  fromAddress : option string;
  toAddress : option string;
  amount : option string;
  blockNumber : option Js.Number;
  blockHash : option string
}.

Definition key := option string.

(** [Map.prototype.set] on a map kept in insertion order: an existing key
    keeps its position and gets the new value, a new key goes last. *)
Fixpoint map_set {V} (k : key) (v : V) (m : list (key * V)) : list (key * V) :=
  match m with
  | [] => [(k, v)]
  | (k', v') :: r =>
      if decide (k = k') then (k, v) :: r else (k', v') :: map_set k v r
  end.

(** [Map.prototype.get] *)
Fixpoint map_get {V} (k : key) (m : list (key * V)) : option V :=
  match m with
  | [] => None
  | (k', v') :: r => if decide (k = k') then Some v' else map_get k r
  end.

(** [transactionStatuses] and the statuses passed to [notifyListeners]. *)
Record Store := {
  transactionStatuses : list (key * TransactionStatus);
  notified : list TransactionStatus
}.

(** [transactionStatuses.set(k, txStatus); notifyListeners(txStatus)] *)
Definition upsert (k : key) (txStatus : TransactionStatus) : M Store unit :=
  modify (fun s =>
    {| transactionStatuses := map_set k txStatus (transactionStatuses s);
       notified := notified s ++ [txStatus] |}).

Inductive Response :=
| Json200
| Unauthorized401
| Error500 (message : option string)
| Data200 (data : TransactionStatus)
| NotFound404.

(** [process.env], HMAC, the clock and [Date] parsing. *)
Record World := {
  env : string -> option string;
  hmac_hex : string -> string -> string -> string;
  parseDate : string -> Js.Number
}.

Record Request (B : Type) := {
  signature : option string;
  rawBody : string;
  body : B
}.
Arguments signature {B} _.
Arguments rawBody {B} _.
Arguments body {B} _.

Definition TypeError (what : string) : Js.Thrown :=
  {| Js.message := Some what; Js.to_string := "TypeError: " +:+ what;
     Js.response_message := None; Js.response_status := None |}.

Definition production (w : World) : bool :=
  bool_decide (env w "NODE_ENV" = Some "production").

(** *** Signature verification *)

Definition verifyAlchemySignature (w : World) (body : string)
    (signature : option string) : outcome bool :=
  match env w "ALCHEMY_WEBHOOK_SIGNING_KEY" with
  | Some signingKey =>
      if Js.truthy signingKey then
        let expectedSignature := hmac_hex w "sha256" signingKey body in
        match signature with
        | None => Throw (TypeError "The first argument must be of type string")
        | Some sg =>
            if (String.length sg =? String.length expectedSignature)%nat
            then Ok (String.eqb sg expectedSignature)
            else Throw (TypeError "Input buffers must have the same byte length")
        end
      else Ok true
  | None => Ok true
  end.

Definition verifyCryptoApisSignature (w : World) (body : string)
    (signature : option string) : bool :=
  match env w "CRYPTOAPIS_WEBHOOK_SECRET" with
  | Some signingKey =>
      if Js.truthy signingKey then
        bool_decide (signature = Some (hmac_hex w "sha512" signingKey body))
      else true
  | None => true
  end.

Definition verifyQuidaxSignature (w : World) (body : string)
    (signature : option string) : bool :=
  match env w "QUIDAX_WEBHOOK_SECRET" with
  | Some signingKey =>
      if Js.truthy signingKey then
        bool_decide (signature = Some (hmac_hex w "sha256" signingKey body))
      else true
  | None => true
  end.

(** *** Alchemy *)

Record Activity := {
  a_hash : option string;
  a_blockNum : option string;
  a_fromAddress : option string;
  a_toAddress : option string;
  (** [tx.value?.toString()] *)
  a_value : option string;
  a_blockHash : option string
}.

Record AlchemyTransaction := {
  t_hash : option string;
  t_from : option string;
  t_to : option string;
  t_value : option string;
  t_blockNumber : option string;
  t_blockHash : option string
}.

(** An entry of [activity] may be [null]. *)
Record AlchemyEvent := {
  e_network : option string;
  e_activity : option (list (option Activity));
  e_transaction : option AlchemyTransaction
}.

Record AlchemyBody := {
  alchemy_type : option string;
  alchemy_event : option AlchemyEvent
}.

(** [event.network?.toUpperCase() || 'ETHEREUM'] *)
Definition network_or_ethereum (e : AlchemyEvent) : string :=
  Js.or_str (Js.toUpperCase <$> e_network e) "ETHEREUM".

Definition activity_status (now : Z) (network : string) (tx : Activity)
  : TransactionStatus :=
  {| txHash := a_hash tx;
     status := if Js.truthy_opt (a_blockNum tx) then confirmed else pending;
     confirmations := if Js.truthy_opt (a_blockNum tx) then 1 else 0;
     chain := Js.toUpperCase network;
     timestamp := Js.Num now;
     fromAddress := a_fromAddress tx;
     toAddress := a_toAddress tx;
     amount := a_value tx;
     blockNumber := Some (Js.parseInt16 (a_blockNum tx));
     blockHash := a_blockHash tx |}.

(** The [for (const tx of activity || [])] loop.  The record of an entry is
    built, stored and announced before the next entry is looked at, so an
    entry on which [tx.hash] throws leaves the entries before it written. *)
Fixpoint address_activity (now : Z) (network : option string)
    (activity : list (option Activity)) : M Store unit :=
  match activity with
  | [] => ret tt
  | None :: _ => throw (TypeError "Cannot read properties of null (reading 'hash')")
  | Some tx :: rest =>
      match network with
      | None => throw (TypeError "Cannot read properties of undefined (reading 'toUpperCase')")
      | Some n =>
          upsert (a_hash tx) (activity_status now n tx) ;;;
          address_activity now network rest
      end
  end.

Definition alchemy_switch (now : Z) (b : AlchemyBody) : M Store unit :=
  match alchemy_type b with
  | Some type =>
      if String.eqb type "ADDRESS_ACTIVITY" then
        match alchemy_event b with
        | None => throw (TypeError "Cannot destructure property 'network' of 'event'")
        | Some event =>
            address_activity now (e_network event) (default [] (e_activity event))
        end
      else if String.eqb type "MINED_TRANSACTION" then
        match alchemy_event b with
        | None => throw (TypeError "Cannot destructure property 'transaction' of 'event'")
        | Some event =>
            match e_transaction event with
            | None => throw (TypeError "Cannot read properties of undefined (reading 'hash')")
            | Some transaction =>
                upsert (t_hash transaction)
                  {| txHash := t_hash transaction;
                     status := confirmed;
                     confirmations := 1;
                     chain := network_or_ethereum event;
                     timestamp := Js.Num now;
                     fromAddress := t_from transaction;
                     toAddress := t_to transaction;
                     amount := t_value transaction;
                     blockNumber := Some (Js.parseInt16 (t_blockNumber transaction));
                     blockHash := t_blockHash transaction |}
            end
        end
      else if String.eqb type "DROPPED_TRANSACTION" then
        match alchemy_event b with
        | None => throw (TypeError "Cannot destructure property 'transaction' of 'event'")
        | Some event =>
            match e_transaction event with
            | None => throw (TypeError "Cannot read properties of undefined (reading 'hash')")
            | Some transaction =>
                upsert (t_hash transaction)
                  {| txHash := t_hash transaction;
                     status := failed;
                     confirmations := 0;
                     chain := network_or_ethereum event;
                     timestamp := Js.Num now;
                     fromAddress := t_from transaction;
                     toAddress := t_to transaction;
                     amount := None;
                     blockNumber := None;
                     blockHash := None |}
            end
        end
      else ret tt
  | None => ret tt
  end.

(** The common shape of a handler: [try { ... res.json(...) } catch
    (error) { res.status(500)... }]. *)
Definition respond (m : M Store Response) : Store -> Response * Store :=
  fun s => match m s with
           | (Ok r, s') => (r, s')
           | (Throw e, s') => (Error500 (Js.message e), s')
           end.

Definition post_alchemy (w : World) (now : Z) (req : Request AlchemyBody)
  : Store -> Response * Store :=
  respond
    (rejected <-
       (if production w then
          ok <- lift (verifyAlchemySignature w (rawBody req) (signature req)) ;;
          ret (negb ok)
        else ret false) ;;
     if (rejected : bool) then ret Unauthorized401
     else alchemy_switch now (body req) ;;; ret Json200).

(** *** CryptoAPIs *)

Record CryptoItem := {
  i_transactionId : option string;
  i_transactionHash : option string;
  i_confirmations : option Z;
  i_blockchain : option string;
  i_timestamp : option Z;
  (** [item.senders?.[0]?.address] and [item.recipients?.[0]?.address] *)
  i_sender0 : option string;
  i_recipient0 : option string;
  i_sender : option string;
  i_recipient : option string;
  i_amount : option string;
  i_minedInBlockHeight : option Z;
  i_minedInBlockHash : option string;
  i_blockHeight : option Z;
  i_blockHash : option string
}.

Record CryptoData := {
  d_event : option string;
  d_item : option CryptoItem
}.

Record CryptoBody := { crypto_data : option CryptoData }.

Definition chainMap (blockchain : string) : option string :=
  if String.eqb blockchain "bitcoin" then Some "BITCOIN"
  else if String.eqb blockchain "litecoin" then Some "LITECOIN"
  else if String.eqb blockchain "dogecoin" then Some "DOGECOIN"
  else if String.eqb blockchain "ethereum" then Some "ETHEREUM"
  else if String.eqb blockchain "binance-smart-chain" then Some "BSC"
  else if String.eqb blockchain "polygon" then Some "POLYGON"
  else None.

(** [chainMap[item.blockchain] || item.blockchain.toUpperCase()] *)
Definition item_chain (item : CryptoItem) : outcome string :=
  match i_blockchain item with
  | Some b => Ok (default (Js.toUpperCase b) (chainMap b))
  | None => Throw (TypeError "Cannot read properties of undefined (reading 'toUpperCase')")
  end.

(** [new Date(item.timestamp * 1000)] *)
Definition item_date (item : CryptoItem) : Js.Number :=
  match i_timestamp item with
  | Some t => Js.Num (t * 1000)
  | None => Js.NaN
  end.

Definition need_item (d : option CryptoData) : outcome CryptoItem :=
  match d ≫= d_item with
  | Some item => Ok item
  | None => Throw (TypeError "Cannot read properties of undefined (reading 'transactionId')")
  end.

Definition cryptoapis_switch (now : Z) (b : CryptoBody) : M Store unit :=
  let data := crypto_data b in
  match data ≫= d_event with
  | Some event =>
      if String.eqb event "CONFIRMED_TX" then
        item <- lift (need_item data) ;;
        chain <- lift (item_chain item) ;;
        upsert (i_transactionId item)
          {| txHash := i_transactionId item;
             status := confirmed;
             confirmations := Js.or_num (i_confirmations item) 1;
             chain := chain;
             timestamp := item_date item;
             fromAddress := i_sender0 item;
             toAddress := i_recipient0 item;
             amount := i_amount item;
             blockNumber := Js.Num <$> i_minedInBlockHeight item;
             blockHash := i_minedInBlockHash item |}
      else if String.eqb event "UNCONFIRMED_TX" then
        item <- lift (need_item data) ;;
        chain <- lift (item_chain item) ;;
        upsert (i_transactionId item)
          {| txHash := i_transactionId item;
             status := pending;
             confirmations := 0;
             chain := chain;
             timestamp := Js.Num now;
             fromAddress := i_sender0 item;
             toAddress := i_recipient0 item;
             amount := i_amount item;
             blockNumber := None;
             blockHash := None |}
      else if String.eqb event "ADDRESS_COINS_TRANSACTION_CONFIRMED"
              || String.eqb event "ADDRESS_TOKENS_TRANSACTION_CONFIRMED" then
        item <- lift (need_item data) ;;
        chain <- lift (item_chain item) ;;
        let hash := Js.or_opt (i_transactionHash item) (i_transactionId item) in
        upsert hash
          {| txHash := hash;
             status := confirmed;
             confirmations := Js.or_num (i_confirmations item) 6;
             chain := chain;
             timestamp := item_date item;
             fromAddress := i_sender item;
             toAddress := i_recipient item;
             amount := i_amount item;
             blockNumber := Js.Num <$> i_blockHeight item;
             blockHash := i_blockHash item |}
      else ret tt
  | None => ret tt
  end.

Definition post_cryptoapis (w : World) (now : Z) (req : Request CryptoBody)
  : Store -> Response * Store :=
  respond
    (if production w
        && negb (verifyCryptoApisSignature w (rawBody req) (signature req))
     then ret Unauthorized401
     else cryptoapis_switch now (body req) ;;; ret Json200).

(** *** Quidax *)

Record QuidaxData := {
  qd_txid : option string;
  qd_id : option string;
  qd_confirmations : option Z;
  qd_currency : option string;
  qd_created_at : option string;
  qd_done_at : option string;
  qd_address : option string;
  qd_fund_uid : option string;
  qd_amount : option string
}.

Record QuidaxBody := {
  quidax_event : option string;
  quidax_data : option QuidaxData
}.

(** [new Date(stamp || Date.now())] *)
Definition date_or_now (w : World) (now : Z) (stamp : option string) : Js.Number :=
  if Js.truthy_opt stamp then parseDate w (default "" stamp) else Js.Num now.

(** [data.currency?.toUpperCase() || 'UNKNOWN'] *)
Definition currency_chain (d : QuidaxData) : string :=
  Js.or_str (Js.toUpperCase <$> qd_currency d) "UNKNOWN".

Definition need_data (d : option QuidaxData) : outcome QuidaxData :=
  match d with
  | Some data => Ok data
  | None => Throw (TypeError "Cannot read properties of undefined")
  end.

Definition quidax_switch (w : World) (now : Z) (b : QuidaxBody) : M Store unit :=
  match quidax_event b with
  | Some event =>
      if String.eqb event "deposit.successful" then
        data <- lift (need_data (quidax_data b)) ;;
        let hash := Js.or_opt (qd_txid data) (qd_id data) in
        upsert hash
          {| txHash := hash;
             status := confirmed;
             confirmations := Js.or_num (qd_confirmations data) 1;
             chain := currency_chain data;
             timestamp := date_or_now w now (qd_created_at data);
             fromAddress := None;
             toAddress := qd_address data;
             amount := qd_amount data;
             blockNumber := None;
             blockHash := None |}
      else if String.eqb event "withdraw.successful" then
        data <- lift (need_data (quidax_data b)) ;;
        let hash := Js.or_opt (qd_txid data) (qd_id data) in
        upsert hash
          {| txHash := hash;
             status := confirmed;
             confirmations := 1;
             chain := currency_chain data;
             timestamp := date_or_now w now (qd_done_at data);
             fromAddress := None;
             toAddress := qd_fund_uid data;
             amount := qd_amount data;
             blockNumber := None;
             blockHash := None |}
      else if String.eqb event "withdraw.failed" then
        data <- lift (need_data (quidax_data b)) ;;
        upsert (qd_id data)
          {| txHash := qd_id data;
             status := failed;
             confirmations := 0;
             chain := currency_chain data;
             timestamp := Js.Num now;
             fromAddress := None;
             toAddress := qd_fund_uid data;
             amount := qd_amount data;
             blockNumber := None;
             blockHash := None |}
      else if String.eqb event "trade.successful" then
        lift (need_data (quidax_data b)) ;;; ret tt
      else ret tt
  | None => ret tt
  end.

Definition post_quidax (w : World) (now : Z) (req : Request QuidaxBody)
  : Store -> Response * Store :=
  respond
    (if production w
        && negb (verifyQuidaxSignature w (rawBody req) (signature req))
     then ret Unauthorized401
     else quidax_switch w now (body req) ;;; ret Json200).

(** *** TronGrid *)

Record TronTransaction := {
  tt_txID : option string;
  tt_hash : option string;
  (** [transaction.ret?.[0]?.contractRet] *)
  tt_contractRet : option string;
  (** [transaction.raw_data?.timestamp] *)
  tt_timestamp : option Z;
  (** [transaction.raw_data?.contract?.[0]?.parameter?.value] fields *)
  tt_owner_address : option string;
  tt_to_address : option string;
  tt_amount : option string
}.

Record TronBody := {
  tron_event : option string;
  tron_transaction : option TronTransaction
}.

Definition post_trongrid (now : Z) (req : Request TronBody)
  : Store -> Response * Store :=
  respond
    (match tron_transaction (body req) with
     | Some transaction =>
         let hash := Js.or_opt (tt_txID transaction) (tt_hash transaction) in
         let ok := bool_decide (tt_contractRet transaction = Some "SUCCESS") in
         upsert hash
           {| txHash := hash;
              status := if ok then confirmed else pending;
              confirmations := if ok then 1 else 0;
              chain := "TRON";
              timestamp := Js.Num (Js.or_num (tt_timestamp transaction) now);
              fromAddress := tt_owner_address transaction;
              toAddress := tt_to_address transaction;
              amount := tt_amount transaction;
              blockNumber := None;
              blockHash := None |}
     | None => ret tt
     end ;;;
     ret Json200).

(** *** The four ingestion endpoints as one type *)

Inductive Webhook :=
| Alchemy (req : Request AlchemyBody)
| CryptoApis (req : Request CryptoBody)
| Quidax (req : Request QuidaxBody)
| TronGrid (req : Request TronBody).

Definition ingest (w : World) (now : Z) (hook : Webhook)
  : Store -> Response * Store :=
  match hook with
  | Alchemy req => post_alchemy w now req
  | CryptoApis req => post_cryptoapis w now req
  | Quidax req => post_quidax w now req
  | TronGrid req => post_trongrid now req
  end.

(** *** Status query *)

(** [GET /status/:txHash] *)
Definition get_status (txHash : string) (s : Store) : Response :=
  match map_get (Some txHash) (transactionStatuses s) with
  | Some status => Data200 status
  | None => NotFound404
  end.

End Webhooks.

(** ** routes/transactions.ts *)

Module Routes.

Inductive ChainType := evm | tron | utxo.

Definition getChainType (chain : string) : outcome ChainType :=
  let c := Js.toUpperCase chain in
  if String.eqb c "ETHEREUM" || String.eqb c "BSC" || String.eqb c "POLYGON"
  then Ok evm
  else if String.eqb c "TRON" then Ok tron
  else if String.eqb c "BITCOIN" || String.eqb c "LITECOIN" || String.eqb c "DOGECOIN"
  then Ok utxo
  else Throw (Js.Error ("Unsupported chain: " +:+ chain)).

(** The three services' environments and [uuidv4()]. *)
Record World := {
  evm_world : TM.World;
  tron_world : Tron.World;
  utxo_world : UTXO.World;
  uuidv4 : string
}.

Record Store := {
  tm : TM.QStore;
  tron_trace : list Tron.Event;
  utxo_trace : list UTXO.Event
}.

Definition in_tm {A} (m : M TM.QStore A) : M Store A :=
  fun s => let (r, q) := m (tm s) in
           (r, {| tm := q; tron_trace := tron_trace s; utxo_trace := utxo_trace s |}).

Definition in_tron {A} (m : M (list Tron.Event) A) : M Store A :=
  fun s => let (r, t) := m (tron_trace s) in
           (r, {| tm := tm s; tron_trace := t; utxo_trace := utxo_trace s |}).

Definition in_utxo {A} (m : M (list UTXO.Event) A) : M Store A :=
  fun s => let (r, t) := m (utxo_trace s) in
           (r, {| tm := tm s; tron_trace := tron_trace s; utxo_trace := t |}).

(** [try { ... } catch (error) { res.status(500).json(on_error) }] *)
Definition handler {R} (m : M Store R) (on_error : Js.Thrown -> R)
  : Store -> R * Store :=
  fun s => match m s with
           | (Ok r, s') => (r, s')
           | (Throw e, s') => (on_error e, s')
           end.

(** *** POST /send *)

Record SendRequest := {
  s_chain : option string;
  s_symbol : option string;
  s_toAddress : option string;
  s_amount : option string;
  s_encryptedPrivateKey : option string;
  s_encryptedXpub : option string;
  s_encryptedWif : option string;
  s_feeLevel : option string;
  s_useQueue : bool
}.

Record SendResponse := {
  sr_status : Z;
  sr_success : bool;
  sr_txHash : option string;
  sr_explorerUrl : option string;
  sr_error : option string;
  sr_retryable : option bool;
  sr_queueId : option string
}.

Definition send_error (status : Z) (msg : string) : SendResponse :=
  {| sr_status := status; sr_success := false; sr_txHash := None;
     sr_explorerUrl := None; sr_error := Some msg; sr_retryable := None;
     sr_queueId := None |}.

(** The [feeLevel] string as the account-model dispatcher reads it: only
    ['fast'] and ['economy'] change the multiplier. *)
Definition evm_feeLevel (f : string) : TM.FeeLevel :=
  if String.eqb f "fast" then TM.fast
  else if String.eqb f "economy" then TM.economy
  else TM.standard.

(** The reply built from a dispatcher's result. *)
Definition send_reply (success : bool) (txHash explorerUrl error : option string)
    (retryable : option bool) (queueId : option string) : SendResponse :=
  if success then
    {| sr_status := 200; sr_success := true; sr_txHash := txHash;
       sr_explorerUrl := explorerUrl; sr_error := None; sr_retryable := None;
       sr_queueId := None |}
  else
    {| sr_status := if bool_decide (retryable = Some true) then 503 else 400;
       sr_success := false; sr_txHash := None; sr_explorerUrl := None;
       sr_error := Some (Js.or_str error "Transaction failed");
       sr_retryable := retryable; sr_queueId := queueId |}.

Definition post_send (w : World) (nonce_now now : Z) (req : SendRequest)
  : Store -> SendResponse * Store :=
  handler
    (if negb (Js.truthy_opt (s_chain req)) || negb (Js.truthy_opt (s_symbol req))
        || negb (Js.truthy_opt (s_toAddress req)) || negb (Js.truthy_opt (s_amount req))
     then ret (send_error 400 "Missing required fields: chain, symbol, toAddress, amount")
     else
     let chain := default "" (s_chain req) in
     let symbol := default "" (s_symbol req) in
     let toAddress := default "" (s_toAddress req) in
     let amount := default "" (s_amount req) in
     let feeLevel := default "standard" (s_feeLevel req) in
     chainType <- lift (getChainType chain) ;;
     match chainType with
     | evm =>
         if negb (Js.truthy_opt (s_encryptedPrivateKey req)) then
           ret (send_error 400 "Missing encryptedPrivateKey")
         else
           let key := default "" (s_encryptedPrivateKey req) in
           result <-
             (if s_useQueue req then
                queueId <- in_tm (TM.queueTransaction now (uuidv4 w)
                                    (Js.toUpperCase chain) "" toAddress amount
                                    (Js.toUpperCase symbol) key 3) ;;
                in_tm (TM.processQueuedTransaction (evm_world w) nonce_now now queueId)
              else
                in_tm (TM.with_inner
                  (TM.sendEVMTransaction (evm_world w) nonce_now
                     (Js.toUpperCase chain) key toAddress amount
                     (Js.toUpperCase symbol) (evm_feeLevel feeLevel)))) ;;
           ret (send_reply (TM.success result) (TM.txHash result)
                  (TM.explorerUrl result) (TM.error result)
                  (TM.retryable result) (TM.queueId result))
     | tron =>
         if negb (Js.truthy_opt (s_encryptedPrivateKey req)) then
           ret (send_error 400 "Missing encryptedPrivateKey")
         else
           let key := default "" (s_encryptedPrivateKey req) in
           result <- in_tron (Tron.sendTronTransaction (tron_world w) key
                                toAddress amount (Js.toUpperCase symbol)) ;;
           ret (send_reply (Tron.success result) (Tron.txHash result)
                  (Tron.explorerUrl result) (Tron.error result)
                  (Tron.retryable result) None)
     | utxo =>
         if negb (Js.truthy_opt (s_encryptedXpub req))
            || negb (Js.truthy_opt (s_encryptedWif req)) then
           ret (send_error 400 "Missing encryptedXpub or encryptedWif")
         else
           result <- in_utxo (UTXO.sendUTXOTransaction (utxo_world w)
                                (Js.toUpperCase chain)
                                (default "" (s_encryptedXpub req))
                                (default "" (s_encryptedWif req))
                                toAddress amount feeLevel) ;;
           ret (send_reply (UTXO.success result) (UTXO.txHash result)
                  (UTXO.explorerUrl result) (UTXO.error result)
                  (UTXO.retryable result) None)
     end)
    (fun error => send_error 500 (Js.or_str (Js.message error) "Transaction failed")).

(** *** POST /balance *)

Record BalanceRequest := {
  b_chain : option string;
  b_address : option string;
  b_symbol : option string
}.

Record BalanceResponse := {
  br_status : Z;
  br_success : bool;
  br_balance : option string;
  br_error : option string
}.

Definition post_balance (w : World) (req : BalanceRequest)
  : Store -> BalanceResponse * Store :=
  handler
    (if negb (Js.truthy_opt (b_chain req)) || negb (Js.truthy_opt (b_address req))
        || negb (Js.truthy_opt (b_symbol req))
     then ret {| br_status := 400; br_success := false; br_balance := None;
                 br_error := Some "Missing required fields: chain, address, symbol" |}
     else
     let chain := default "" (b_chain req) in
     let address := default "" (b_address req) in
     let symbol := default "" (b_symbol req) in
     chainType <- lift (getChainType chain) ;;
     result <-
       match chainType with
       | evm => in_tm (TM.with_inner
                  (TM.getEVMBalanceRobust (evm_world w) (Js.toUpperCase chain)
                     address (Js.toUpperCase symbol)))
       | tron => in_tron (Tron.getTronBalance (tron_world w) address
                            (Js.toUpperCase symbol))
       | utxo => in_utxo (UTXO.getUTXOBalance (utxo_world w)
                            (Js.toUpperCase chain) address)
       end ;;
     ret {| br_status := 200; br_success := true;
            br_balance := Some (Js.or_str (Some (TM.balance result)) "0");
            br_error := None |})
    (fun error => {| br_status := 500; br_success := false;
                     br_balance := Some "0"; br_error := Js.message error |}).

(** *** POST /estimate-fee *)

Record FeeRequest := {
  f_chain : option string;
  f_from : option string;
  f_to : option string;
  f_amount : option string;
  f_symbol : option string
}.

(** [{ success: true, ...estimate }]: a [success] or [error] field of the
    estimate overrides the one written before the spread. *)
Record FeeResponse := {
  fr_status : Z;
  fr_success : bool;
  fr_estimatedFee : option string;
  fr_gasLimit : option string;
  fr_feeRate : option string;
  fr_energyNeeded : option Z;
  fr_bandwidthNeeded : option Z;
  fr_error : option string
}.

Definition fee_error (status : Z) (msg : option string) : FeeResponse :=
  {| fr_status := status; fr_success := false; fr_estimatedFee := None;
     fr_gasLimit := None; fr_feeRate := None; fr_energyNeeded := None;
     fr_bandwidthNeeded := None; fr_error := msg |}.

Definition ZERO_ADDRESS : string := "0x0000000000000000000000000000000000000000".
Definition TRON_PLACEHOLDER : string := "T9yD14Nj9j7xAB4dbGeiX9h8unkKHxuWwb".

Definition post_estimate_fee (w : World) (req : FeeRequest)
  : Store -> FeeResponse * Store :=
  handler
    (if negb (Js.truthy_opt (f_chain req)) || negb (Js.truthy_opt (f_amount req))
     then ret (fee_error 400 (Some "Missing required fields: chain, amount"))
     else
     let chain := default "" (f_chain req) in
     let amount := default "" (f_amount req) in
     chainType <- lift (getChainType chain) ;;
     match chainType with
     | evm =>
         e <- in_tm (TM.with_inner
                (TM.estimateTransactionFee (evm_world w) (Js.toUpperCase chain)
                   (Js.or_str (f_from req) ZERO_ADDRESS)
                   (Js.or_str (f_to req) ZERO_ADDRESS)
                   amount
                   (Js.or_str (Js.toUpperCase <$> f_symbol req)
                              (Js.toUpperCase chain)))) ;;
         ret {| fr_status := 200; fr_success := TM.fe_success e;
                fr_estimatedFee := TM.fe_estimatedFee e;
                fr_gasLimit := TM.fe_gasLimit e;
                fr_feeRate := None; fr_energyNeeded := None;
                fr_bandwidthNeeded := None; fr_error := TM.fe_error e |}
     | tron =>
         e <- in_tron (Tron.estimateTronFee (tron_world w)
                (Js.or_str (f_from req) TRON_PLACEHOLDER)
                (Js.or_str (f_to req) TRON_PLACEHOLDER)
                amount
                (Js.or_str (Js.toUpperCase <$> f_symbol req) "TRX")) ;;
         ret {| fr_status := 200; fr_success := true;
                fr_estimatedFee := Some (Tron.estimatedFee e);
                fr_gasLimit := None; fr_feeRate := None;
                fr_energyNeeded := Tron.energyNeeded e;
                fr_bandwidthNeeded := Tron.bandwidthNeeded e;
                fr_error := None |}
     | utxo =>
         e <- in_utxo (UTXO.estimateUTXOFee (utxo_world w) (Js.toUpperCase chain)
                (Js.or_str (f_from req) "") (Js.or_str (f_to req) "") amount) ;;
         ret {| fr_status := 200; fr_success := true;
                fr_estimatedFee := Some (UTXO.estimatedFee e);
                fr_gasLimit := None;
                fr_feeRate := Some (UTXO.feeRate e);
                fr_energyNeeded := None; fr_bandwidthNeeded := None;
                fr_error := UTXO.fee_error e |}
     end)
    (fun error => fee_error 500 (Js.message error)).

(** *** Queue status *)

(** The fields of a queued transaction that [GET /queue/:id] discloses. *)
Record QueueView := {
  v_id : string;
  v_chain : string;
  v_to : string;
  v_amount : string;
  v_symbol : string;
  v_retryCount : Z;
  v_maxRetries : Z;
  v_lastError : option string;
  v_nextRetryAt : option Z
}.

Inductive QueueResponse :=
| QueueStats (pending retrying : nat)
| QueueEntry (transaction : QueueView)
| QueueNotFound.

(** [GET /queue/stats] *)
Definition get_queue_stats (s : Store) : QueueResponse :=
  let '(pending, retrying) := TM.getQueueStats (tm s) in
  QueueStats pending retrying.

(** [GET /queue/:id] *)
Definition get_queue_entry (id : string) (s : Store) : QueueResponse :=
  match TM.getQueuedTransaction id (tm s) with
  | Some queuedTx =>
      QueueEntry {| v_id := TM.q_id queuedTx; v_chain := TM.q_chain queuedTx;
                    v_to := TM.q_to queuedTx; v_amount := TM.q_amount queuedTx;
                    v_symbol := TM.q_symbol queuedTx;
                    v_retryCount := TM.retryCount queuedTx;
                    v_maxRetries := TM.maxRetries queuedTx;
                    v_lastError := TM.lastError queuedTx;
                    v_nextRetryAt := TM.nextRetryAt queuedTx |}
  | None => QueueNotFound
  end.

(** [POST /queue/:id/retry]: the result is sent as it is. *)
Definition post_queue_retry (w : World) (nonce_now now : Z) (id : string)
  : Store -> outcome TM.SendResult * Store :=
  in_tm (TM.processQueuedTransaction (evm_world w) nonce_now now id).

(** *** POST /webhook/register *)

Record RegisterRequest := {
  r_chain : option string;
  r_address : option string;
  r_callbackUrl : option string
}.

Record RegisterResponse := {
  rr_status : Z;
  rr_success : bool;
  rr_webhookId : option string;
  rr_error : option string;
  rr_message : option string
}.

Definition post_webhook_register (w : World) (req : RegisterRequest)
  : Store -> RegisterResponse * Store :=
  handler
    (if negb (Js.truthy_opt (r_chain req)) || negb (Js.truthy_opt (r_address req))
        || negb (Js.truthy_opt (r_callbackUrl req))
     then ret {| rr_status := 400; rr_success := false; rr_webhookId := None;
                 rr_error := Some "Missing required fields: chain, address, callbackUrl";
                 rr_message := None |}
     else
     let chain := default "" (r_chain req) in
     chainType <- lift (getChainType chain) ;;
     match chainType with
     | utxo =>
         result <- in_utxo (UTXO.registerUTXOWebhook (utxo_world w)
                     (Js.toUpperCase chain) (default "" (r_address req))
                     (default "" (r_callbackUrl req)) UTXO.confirmed) ;;
         ret {| rr_status := 200;
                rr_success := negb (Js.truthy_opt (UTXO.reg_error result));
                rr_webhookId := UTXO.webhookId result;
                rr_error := UTXO.reg_error result;
                rr_message := None |}
     | _ =>
         ret {| rr_status := 200; rr_success := true; rr_webhookId := None;
                rr_error := None;
                rr_message := Some "Webhook registration for EVM/TRON chains should be done via Alchemy/TronGrid dashboard" |}
     end)
    (fun error => {| rr_status := 500; rr_success := false; rr_webhookId := None;
                     rr_error := Js.message error; rr_message := None |}).

End Routes.

(** ** The design's rules, in its own words *)

(** Nonce allocation: within the 30-second TTL the larger of the cached and
    the authoritative value, otherwise the authoritative value. *)
Definition allocate_rule (cached : option TM.NonceEntry) (now authoritative : Z) : Z :=
  match cached with
  | Some c =>
      if bool_decide (now - TM.timestamp c < 30000)
      then Z.max (TM.nonce c) authoritative
      else authoritative
  | None => authoritative
  end.

(** Failure classification: a message that indicates a nonce conflict, a
    replacement-underpriced rejection, a timeout, a network-level
    disconnection or rate limiting is retryable; every other is fatal. *)
Definition transient_by_design (message : string) : bool :=
  Js.includes message "nonce" ||
  Js.includes message "replacement" ||
  (Js.includes message "timeout" || Js.includes message "ETIMEDOUT") ||
  Js.includes message "network" ||
  Js.includes message "rate limit".

(** ** Queue invariant *)

(** Retry counts start at zero and are only incremented. *)
Definition queue_wf (q : gmap string TM.QueuedTransaction) : Prop :=
  map_Forall (fun _ tx => 0 <= TM.retryCount tx) q.

(** ** Runs of the retry queue *)

(** A sequence of [processQueuedTransaction] calls, each with the world and
    the clock readings it meets. *)
Fixpoint process_all (calls : list (TM.World * Z * Z * string)) (qs : TM.QStore)
  : TM.QStore :=
  match calls with
  | [] => qs
  | (w, nonce_now, now, id) :: rest =>
      process_all rest (TM.processQueuedTransaction w nonce_now now id qs).2
  end.

(** How often the entry [id] has been handed to the dispatcher. *)
Definition dispatch_count (id : string) (qs : TM.QStore) : nat :=
  length (filter (fun k => k = id) (TM.dispatched qs)).

(** The entry as rescheduled after a retryable failure. *)
Definition rescheduled (now : Z) (q : TM.QueuedTransaction) (err : option string)
  : TM.QueuedTransaction :=
  {| TM.q_id := TM.q_id q; TM.q_chain := TM.q_chain q; TM.q_from := TM.q_from q;
     TM.q_to := TM.q_to q; TM.q_amount := TM.q_amount q;
     TM.q_symbol := TM.q_symbol q;
     TM.q_encryptedPrivateKey := TM.q_encryptedPrivateKey q;
     TM.retryCount := TM.retryCount q + 1;
     TM.maxRetries := TM.maxRetries q;
     TM.lastError := err;
     TM.createdAt := TM.createdAt q;
     TM.nextRetryAt := Some (now + 2 ^ (TM.retryCount q + 1) * 1000) |}.

(** Dispatches still possible for [id]. *)
Definition budget (id : string) (qs : TM.QStore) : Z :=
  match TM.transactionQueue qs !! id with
  | Some q => Z.max 1 (TM.maxRetries q - TM.retryCount q + 1)
  | None => 0
  end.

(** ** Signing and submission in the dispatcher's trace *)

Definition is_submission (e : TM.Event) : bool :=
  match e with
  | TM.EvSign _ | TM.EvBroadcast _ _ => true
  | _ => false
  end.

(** The signing and broadcast events logged so far. *)
Definition submissions (s : TM.Store) : list TM.Event :=
  List.filter is_submission (TM.trace s).

(** The request as it stands when gas is estimated. *)
Definition native_request (toAddress address : string) (amountWei nonce : Z)
  : TM.TransactionRequest :=
  {| TM.tx_to := Some toAddress; TM.tx_from := Some address;
     TM.tx_value := Some amountWei; TM.tx_data := None;
     TM.tx_nonce := Some nonce; TM.tx_gasLimit := None;
     TM.tx_maxFeePerGas := None; TM.tx_maxPriorityFeePerGas := None;
     TM.tx_chainId := None; TM.tx_type := None |}.

(** ** Further runs *)

(** Successive nonce allocations for one sender, at the given clock
    readings; the nonces in order. *)
Fixpoint allocate_all (w : TM.World) (provider address : string) (nows : list Z)
  : M TM.Store (list Z) :=
  match nows with
  | [] => ret []
  | now :: rest =>
      n <- TM.getNextNonce w now provider address ;;
      ns <- allocate_all w provider address rest ;;
      ret (n :: ns)
  end.

(** Each reading is less than the TTL after the one before. *)
Fixpoint within_ttl (prev : Z) (nows : list Z) : Prop :=
  match nows with
  | [] => True
  | now :: rest => now - prev < TM.NONCE_CACHE_TTL /\ within_ttl now rest
  end.

(** Operations on the retry queue, as a caller issues them. *)
Inductive QueueOp :=
| Enqueue (now : Z) (id chain from to amount symbol key : string) (maxRetries : Z)
| Process (w : TM.World) (nonce_now now : Z) (id : string).

Definition run_op (op : QueueOp) (qs : TM.QStore) : TM.QStore :=
  match op with
  | Enqueue now id chain from to amount symbol key maxRetries =>
      (TM.queueTransaction now id chain from to amount symbol key maxRetries qs).2
  | Process w nonce_now now id =>
      (TM.processQueuedTransaction w nonce_now now id qs).2
  end.

Definition run_ops (ops : list QueueOp) (qs : TM.QStore) : TM.QStore :=
  foldl (fun qs op => run_op op qs) qs ops.

(** Every entry sits under its own id, its retry count is not negative, and
    it does not exceed a non-negative retry limit. *)
Definition queue_inv (q : gmap string TM.QueuedTransaction) : Prop :=
  map_Forall (fun k tx =>
    TM.q_id tx = k /\ 0 <= TM.retryCount tx
    /\ (0 <= TM.maxRetries tx -> TM.retryCount tx <= TM.maxRetries tx)) q.

(** Events of the resource-model dispatcher that build, sign or send a
    transfer. *)
Definition tron_is_submission (e : Tron.Event) : bool :=
  match e with
  | Tron.EvSendTrx _ _ _ | Tron.EvSign _ | Tron.EvSendRawTransaction _
  | Tron.EvTransfer _ _ _ => true
  | _ => false
  end.

Definition utxo_is_broadcast (e : UTXO.Event) : bool :=
  match e with
  | UTXO.EvBroadcast _ _ _ => true
  | _ => false
  end.

(** Two lower-case hexadecimal digits per character: the encoding that
    [Tron.decodeMessage] undoes. *)
Definition hex_digit (n : nat) : ascii :=
  if (n <? 10)%nat then ascii_of_nat (48 + n) else ascii_of_nat (87 + n).

Fixpoint hex_encode (s : string) : string :=
  match s with
  | EmptyString => EmptyString
  | String c r =>
      let n := nat_of_ascii c in
      String (hex_digit (n / 16)) (String (hex_digit (n mod 16)) (hex_encode r))
  end.

Definition is_printable (c : ascii) : bool :=
  let n := nat_of_ascii c in ((32 <=? n) && (n <=? 126))%nat.

Fixpoint all_printable (s : string) : bool :=
  match s with
  | EmptyString => true
  | String c r => is_printable c && all_printable r
  end.

(** The last character of a string, if any. *)
Fixpoint last_char (s : string) : option ascii :=
  match s with
  | EmptyString => None
  | String c EmptyString => Some c
  | String _ r => last_char r
  end.

(** ** Webhook requests seen uniformly *)

(** The environment variable that holds an endpoint's secret and the HMAC
    algorithm it uses; TronGrid has neither. *)
Definition hook_secret (hook : Webhooks.Webhook) : option (string * string) :=
  match hook with
  | Webhooks.Alchemy _ => Some ("ALCHEMY_WEBHOOK_SIGNING_KEY", "sha256")
  | Webhooks.CryptoApis _ => Some ("CRYPTOAPIS_WEBHOOK_SECRET", "sha512")
  | Webhooks.Quidax _ => Some ("QUIDAX_WEBHOOK_SECRET", "sha256")
  | Webhooks.TronGrid _ => None
  end.

Definition hook_signature (hook : Webhooks.Webhook) : option string :=
  match hook with
  | Webhooks.Alchemy req => Webhooks.signature req
  | Webhooks.CryptoApis req => Webhooks.signature req
  | Webhooks.Quidax req => Webhooks.signature req
  | Webhooks.TronGrid req => Webhooks.signature req
  end.

Definition hook_rawBody (hook : Webhooks.Webhook) : string :=
  match hook with
  | Webhooks.Alchemy req => Webhooks.rawBody req
  | Webhooks.CryptoApis req => Webhooks.rawBody req
  | Webhooks.Quidax req => Webhooks.rawBody req
  | Webhooks.TronGrid req => Webhooks.rawBody req
  end.

(** The same environment with [NODE_ENV] unset. *)
Definition outside_production (w : Webhooks.World) : Webhooks.World :=
  {| Webhooks.env := fun v => if String.eqb v "NODE_ENV" then None else Webhooks.env w v;
     Webhooks.hmac_hex := Webhooks.hmac_hex w;
     Webhooks.parseDate := Webhooks.parseDate w |}.

(** The entries of an activity list before its first [null]. *)
Fixpoint entries_before_null (activity : list (option Webhooks.Activity))
  : list Webhooks.Activity :=
  match activity with
  | Some tx :: rest => tx :: entries_before_null rest
  | _ => []
  end.

(** How the address-activity loop ends once a network name is at hand. *)
Fixpoint loop_end (activity : list (option Webhooks.Activity)) : outcome unit :=
  match activity with
  | [] => Ok tt
  | None :: _ =>
      Throw (Webhooks.TypeError "Cannot read properties of null (reading 'hash')")
  | Some _ :: rest => loop_end rest
  end.




(** ** Concrete worlds *)

Module Fixtures.

Definition key64 : string :=
  "00000000000000000000000000000000000000000000000000000000000000aa".

Definition sender : string := "0xAbC0000000000000000000000000000000000001".
Definition recipient : string := "0x0000000000000000000000000000000000000002".
Definition llama : string := "https://eth.llamarpc.com".

Definition fees : TM.FeeData :=
  {| TM.fd_maxFeePerGas := Some (TM.gwei 30);
     TM.fd_maxPriorityFeePerGas := Some (TM.gwei 1) |}.

(** A mainnet node on which every endpoint is up (or down, [up = false]),
    the sender holds [bal0] at the balance check and [bal1] at the gas
    check, every amount parses as 1.5 ether, and the pending count, the
    gas estimate, the fee data and the broadcast answer as given. *)
Definition evm (up : bool) (bal0 bal1 : Z) (count gas : outcome Z)
    (fee : outcome TM.FeeData) (sent : outcome string) : TM.World :=
  {| TM.env := fun _ => None;
     TM.decrypt := fun _ => Ok key64;
     TM.getBlockNumber :=
       fun _ => if up then Ok 19000000 else Throw (Js.Error "connect ECONNREFUSED");
     TM.network_chainId := fun _ => Some 1;
     TM.wallet_address := fun _ => Ok sender;
     TM.amount_positive := fun _ => true;
     TM.parseEther := fun _ => Ok 1500000000000000000;
     TM.parseUnits := fun _ _ => Ok 1500000;
     TM.formatEther := fun z => pretty z +:+ " wei";
     TM.formatUnits := fun z _ => pretty z;
     TM.balanceOf := fun _ _ _ => Ok 0;
     TM.populateTransfer := fun _ _ _ => Ok "0xa9059cbb";
     TM.encodeTransfer := fun _ _ => Ok "0xa9059cbb";
     TM.getBalance := fun i _ _ => Ok (match i with O => bal0 | S _ => bal1 end);
     TM.getTransactionCount := fun _ _ => count;
     TM.estimateGas_rpc := fun _ _ => gas;
     TM.getFeeData := fun _ => fee;
     TM.signTransaction := fun _ _ => Ok "0xsigned";
     TM.broadcastTransaction := fun _ _ => sent |}.

Definition ether (n : Z) : Z := n * 10 ^ 18.

(** The node rejects the broadcast with a nonce error while the pending
    count is 5. *)
Definition nonce_conflict : TM.World :=
  evm true (ether 2) (ether 2) (Ok 5) (Ok 21000) (Ok fees)
      (Throw (Js.Error "nonce too low")).

Definition empty_store : TM.Store := {| TM.nonceCache := ∅; TM.trace := [] |}.

(** The sender's cache entry holds the stale value 9. *)
Definition stale_store : TM.Store :=
  {| TM.nonceCache :=
       {[ "1-0xabc0000000000000000000000000000000000001" :=
            {| TM.nonce := 9; TM.timestamp := 0 |} ]};
     TM.trace := [] |}.

(** A thrown string, as TronWeb throws them. *)
Definition thrown_string (s : string) : Js.Thrown :=
  {| Js.message := None; Js.to_string := s;
     Js.response_message := None; Js.response_status := None |}.

Definition tron_sender : string := "TJRabPrwbZy45sbavfcjinPJC18kjpRTv8".
Definition tron_recipient : string := "TVjsyZ7fYF3qLF6BQgPmTEZy1xrNNyVAAA".

Definition tron (balance : outcome Z) (raw : outcome Tron.RawResult) : Tron.World :=
  {| Tron.decrypt := fun _ => Ok key64;
     Tron.newTronWeb := Ok tt;
     Tron.fromPrivateKey := fun _ => Ok tron_sender;
     Tron.amount_positive := fun _ => true;
     Tron.isAddress := fun _ => true;
     Tron.amountSun := fun _ => 1500000;
     Tron.tokenUnits := fun _ _ => 1500000;
     Tron.show_div := fun n d => pretty n +:+ "/" +:+ pretty d;
     Tron.show_amount := fun a => a;
     Tron.show_burn := fun b => pretty (265 - b) +:+ "e-3";
     Tron.getBalance := fun _ => balance;
     Tron.sendTrx := fun _ _ _ => Ok "tx";
     Tron.sign := fun _ _ => Ok "signed";
     Tron.sendRawTransaction := fun _ => raw;
     Tron.contractAt := fun _ => Ok tt;
     Tron.balanceOf := fun _ _ => Ok 2000000;
     Tron.transfer := fun _ _ _ => Ok "trc20hash";
     Tron.getBandwidth := fun _ => Ok 600 |}.

Definition tron_accepts : outcome Tron.RawResult :=
  Ok {| Tron.raw_result := true; Tron.raw_txid := "trxhash";
        Tron.raw_message := None |}.

Definition utxo (api_key : option string)
    (created : outcome (option UTXO.TxData))
    (broadcast : outcome (option string))
    (fee : outcome (option UTXO.FeeItem)) : UTXO.World :=
  {| UTXO.env := fun v => if String.eqb v "CRYPTOAPIS_API_KEY" then api_key else None;
     UTXO.decrypt := fun s => Ok ("plain:" +:+ s);
     UTXO.createAndSign := fun _ _ _ _ _ _ => created;
     UTXO.broadcast := fun _ _ _ => broadcast;
     UTXO.fetchBalance := fun _ _ _ => Ok (Some "0.25");
     UTXO.fetchFee := fun _ _ _ _ _ => fee;
     UTXO.registerEvent := fun _ _ _ _ _ => Ok (Some "ref-1") |}.

Definition created_tx : outcome (option UTXO.TxData) :=
  Ok (Some {| UTXO.transactionId := Some "txid-1";
              UTXO.signedTransactionHex := Some "0200" |}).

End Fixtures.

Module FeeFixtures.

(** The node cannot estimate gas; fee data is available. *)
Definition no_gas_estimate : TM.World :=
  Fixtures.evm true (Fixtures.ether 2) (Fixtures.ether 2) (Ok 5)
    (Throw (Js.Error "execution reverted")) (Ok Fixtures.fees) (Ok "0xhash").

(** The fee-market query fails. *)
Definition no_fee_data : TM.World :=
  Fixtures.evm true (Fixtures.ether 2) (Fixtures.ether 2) (Ok 5)
    (Ok 21000) (Throw (Js.Error "fee history unavailable")) (Ok "0xhash").

Definition plain_transfer : TM.TransactionRequest :=
  {| TM.tx_to := Some Fixtures.recipient; TM.tx_from := Some Fixtures.sender;
     TM.tx_value := Some (Fixtures.ether 1); TM.tx_data := None;
     TM.tx_nonce := None; TM.tx_gasLimit := None;
     TM.tx_maxFeePerGas := None; TM.tx_maxPriorityFeePerGas := None;
     TM.tx_chainId := None; TM.tx_type := None |}.

End FeeFixtures.

(** ** Sequences of status writes *)

(** A sequence of [set] calls applied to the status map, in order. *)
Definition apply_writes {V} (kvs : list (Webhooks.key * V))
    (m : list (Webhooks.key * V)) : list (Webhooks.key * V) :=
  foldl (fun m kv => Webhooks.map_set kv.1 kv.2 m) m kvs.

(** The value written last under [k], if any. *)
Fixpoint last_write {V} (k : Webhooks.key) (kvs : list (Webhooks.key * V)) : option V :=
  match kvs with
  | [] => None
  | (k', v) :: r =>
      match last_write k r with
      | Some x => Some x
      | None => if decide (k' = k) then Some v else None
      end
  end.


(** The status records a notification hands to [notifyListeners], keyed by
    their hash: read off a run on the empty store. *)
Definition writes_of (w : Webhooks.World) (now : Z) (hook : Webhooks.Webhook)
  : list (Webhooks.key * Webhooks.TransactionStatus) :=
  map (fun st => (Webhooks.txHash st, st))
      (Webhooks.notified (Webhooks.ingest w now hook
         {| Webhooks.transactionStatuses := []; Webhooks.notified := [] |}).2).

Module HookFixtures.

Definition dev : Webhooks.World :=
  {| Webhooks.env := fun _ => None;
     Webhooks.hmac_hex := fun _ _ _ => "";
     Webhooks.parseDate := fun _ => Js.NaN |}.

Definition empty : Webhooks.Store :=
  {| Webhooks.transactionStatuses := []; Webhooks.notified := [] |}.

Definition request {B} (b : B) : Webhooks.Request B :=
  {| Webhooks.signature := None; Webhooks.rawBody := "{}"; Webhooks.body := b |}.

(** An address-activity notification for one mined transfer. *)
Definition activity : Webhooks.Webhook :=
  Webhooks.Alchemy (request
    {| Webhooks.alchemy_type := Some "ADDRESS_ACTIVITY";
       Webhooks.alchemy_event :=
         Some {| Webhooks.e_network := Some "eth_mainnet";
                 Webhooks.e_activity :=
                   Some [ Some {| Webhooks.a_hash := Some "0xabc";
                                  Webhooks.a_blockNum := Some "0x10";
                                  Webhooks.a_fromAddress := Some "0x01";
                                  Webhooks.a_toAddress := Some "0x02";
                                  Webhooks.a_value := Some "1.5";
                                  Webhooks.a_blockHash := Some "0xb10c" |} ];
                 Webhooks.e_transaction := None |} |}).


(** A TronGrid notification of a successful transfer. *)
Definition tron_success (hash : string) : Webhooks.Request Webhooks.TronBody :=
  request
    {| Webhooks.tron_event := Some "transaction";
       Webhooks.tron_transaction :=
         Some {| Webhooks.tt_txID := Some hash;
                 Webhooks.tt_hash := None;
                 Webhooks.tt_contractRet := Some "SUCCESS";
                 Webhooks.tt_timestamp := Some 1700000000000;
                 Webhooks.tt_owner_address := Some "41aa";
                 Webhooks.tt_to_address := Some "41bb";
                 Webhooks.tt_amount := Some "1500000" |} |}.

(** An Alchemy dropped-transaction notification. *)
Definition dropped (hash : string) : Webhooks.Request Webhooks.AlchemyBody :=
  request
    {| Webhooks.alchemy_type := Some "DROPPED_TRANSACTION";
       Webhooks.alchemy_event :=
         Some {| Webhooks.e_network := None;
                 Webhooks.e_activity := None;
                 Webhooks.e_transaction :=
                   Some {| Webhooks.t_hash := Some hash;
                           Webhooks.t_from := Some "0x01";
                           Webhooks.t_to := Some "0x02";
                           Webhooks.t_value := None;
                           Webhooks.t_blockNumber := None;
                           Webhooks.t_blockHash := None |} |} |}.

End HookFixtures.

Module QueueFixtures.

Definition entry (id : string) (retries : Z) : TM.QueuedTransaction :=
  {| TM.q_id := id; TM.q_chain := "ETHEREUM"; TM.q_from := "";
     TM.q_to := Fixtures.recipient; TM.q_amount := "1.5"; TM.q_symbol := "ETH";
     TM.q_encryptedPrivateKey := "enc";
     TM.retryCount := retries; TM.maxRetries := 3;
     TM.lastError := None; TM.createdAt := 0; TM.nextRetryAt := None |}.

(** One fresh entry and one that has been retried twice. *)
Definition two_queued : TM.QStore :=
  {| TM.transactionQueue := <["a" := entry "a" 0]> (<["b" := entry "b" 2]> ∅);
     TM.dispatched := [];
     TM.inner := Fixtures.empty_store |}.

End QueueFixtures.

(** ** Requests seen by their fields *)

(** The status a route gives from the request alone: 400 when a required
    field is missing or empty, 500 when the chain is not supported, 200
    otherwise. *)
Definition request_status (chain : option string) (others : list (option string)) : Z :=
  if negb (Js.truthy_opt chain) || existsb (fun f => negb (Js.truthy_opt f)) others
  then 400
  else match Routes.getChainType (default "" chain) with
       | Ok _ => 200
       | Throw _ => 500
       end.

Module RouteFixtures.

Definition world (evm : TM.World) : Routes.World :=
  {| Routes.evm_world := evm;
     Routes.tron_world := Fixtures.tron (Ok 5000000) Fixtures.tron_accepts;
     Routes.utxo_world :=
       Fixtures.utxo (Some "key") Fixtures.created_tx (Ok (Some "txid-1")) (Ok None);
     Routes.uuidv4 := "3f2b6c1e" |}.

Definition store : Routes.Store :=
  {| Routes.tm := {| TM.transactionQueue := ∅; TM.dispatched := [];
                     TM.inner := Fixtures.empty_store |};
     Routes.tron_trace := [];
     Routes.utxo_trace := [] |}.

(** A send request for 1.5 ETH with the fee level ['fast']. *)
Definition send (useQueue : bool) : Routes.SendRequest :=
  {| Routes.s_chain := Some "ethereum";
     Routes.s_symbol := Some "eth";
     Routes.s_toAddress := Some Fixtures.recipient;
     Routes.s_amount := Some "1.5";
     Routes.s_encryptedPrivateKey := Some "enc";
     Routes.s_encryptedXpub := None;
     Routes.s_encryptedWif := None;
     Routes.s_feeLevel := Some "fast";
     Routes.s_useQueue := useQueue |}.

Definition balance : Routes.BalanceRequest :=
  {| Routes.b_chain := Some "ethereum";
     Routes.b_address := Some Fixtures.sender;
     Routes.b_symbol := Some "eth" |}.

(** Every RPC endpoint refuses the connection. *)
Definition outage : TM.World :=
  Fixtures.evm false (Fixtures.ether 2) (Fixtures.ether 2) (Ok 5) (Ok 21000)
    (Ok Fixtures.fees) (Ok "0xhash").

End RouteFixtures.

(** ** middleware/auth.ts *)

Module Auth.

(** [s.split(' ')] *)
Fixpoint split_space (s : string) : list string :=
  match s with
  | EmptyString => [EmptyString]
  | String c r =>
      if Ascii.eqb c " " then EmptyString :: split_space r
      else match split_space r with
           | h :: t => String c h :: t
           | [] => [String c EmptyString]
           end
  end.

Inductive Answer := Unauthorized401 | Forbidden403 | Next.

(** [env] is [process.env]; [authorization] the request's header. *)
Definition authMiddleware (env : string -> option string)
    (authorization : option string) : Answer :=
  match authorization with
  | None => Unauthorized401
  | Some authHeader =>
      if negb (Js.truthy authHeader) || negb (String.prefix "Bearer " authHeader)
      then Unauthorized401
      else
        let token := split_space authHeader !! 1%nat in
        if negb (bool_decide (token = env "WALLET_BACKEND_TOKEN"))
        then Forbidden403
        else Next
  end.

End Auth.

(** The characters of [s] before its first space. *)
Fixpoint first_word (s : string) : string :=
  match s with
  | EmptyString => EmptyString
  | String c r => if Ascii.eqb c " " then EmptyString else String c (first_word r)
  end.

(** * Properties *)

(** Unfolding of the monad's operations. *)
Ltac run :=
  unfold bind, try_catch, ret, throw, get, modify, lift in *; simpl in *.

(** ** Stepping through monadic code *)

Lemma bind_ok {S A B} (m : M S A) (k : A -> M S B) s a s' :
  m s = (Ok a, s') -> bind m k s = k a s'.
Proof. unfold bind. by intros ->. Qed.

Lemma bind_throw {S A B} (m : M S A) (k : A -> M S B) s e s' :
  m s = (Throw e, s') -> bind m k s = (Throw e, s').
Proof. unfold bind. by intros ->. Qed.

Lemma try_catch_ok {S A} (m : M S A) h s a s' :
  m s = (Ok a, s') -> try_catch m h s = (Ok a, s').
Proof. unfold try_catch. by intros ->. Qed.

Lemma try_catch_throw {S A} (m : M S A) h s e s' :
  m s = (Throw e, s') -> try_catch m h s = h e s'.
Proof. unfold try_catch. by intros ->. Qed.

Lemma lift_eq {S A} (o : outcome A) (s : S) r : o = r -> lift o s = (r, s).
Proof. by intros ->. Qed.

Lemma call_eq {A} e (o : outcome A) s r :
  o = r ->
  TM.call e o s = (r, {| TM.nonceCache := TM.nonceCache s; TM.trace := TM.trace s ++ [e] |}).
Proof. by intros ->. Qed.

(** Advance past the first bound computation using the equation [H]. *)
Ltac step H :=
  first
    [ erewrite bind_ok by (first [exact H | apply lift_eq; exact H | apply call_eq; exact H])
    | erewrite bind_throw by (first [exact H | apply lift_eq; exact H | apply call_eq; exact H]) ];
  cbv beta.

(** ** Nonce allocation *)

Lemma allocate_rule_lower_bound cached now authoritative :
  authoritative <= allocate_rule cached now authoritative.
Proof.
  unfold allocate_rule. destruct cached as [c|]; [|lia].
  case_bool_decide; lia.
Qed.

Lemma getNextNonce_run w now provider address s :
  TM.getNextNonce w now provider address s =
  let k := TM.cacheKey w provider address in
  let queried := TM.trace s ++ [TM.EvGetTransactionCount provider address] in
  match TM.getTransactionCount w provider address with
  | Ok count =>
      let n := allocate_rule (TM.nonceCache s !! k) now count in
      (Ok n, {| TM.nonceCache :=
                  <[k := {| TM.nonce := n + 1; TM.timestamp := now |}]> (TM.nonceCache s);
                TM.trace := queried |})
  | Throw e => (Throw e, {| TM.nonceCache := TM.nonceCache s; TM.trace := queried |})
  end.
Proof.
  unfold TM.getNextNonce, TM.call, TM.log, TM.cache_set. run.
  destruct (TM.getTransactionCount w provider address) as [count|e]; simpl; [|done].
  unfold allocate_rule, TM.NONCE_CACHE_TTL.
  destruct (TM.nonceCache s !! _) as [c|]; simpl; [|done].
  destruct (Z.ltb_spec (now - TM.timestamp c) 30000);
    case_bool_decide; try lia; done.
Qed.

(** C1: every call of [getNextNonce] queries the provider's pending count
    (the query is logged whatever the cache holds); when the query answers
    [count], the call returns the value of the allocation rule, which is at
    least [count], and stores one past it with the current time; when the
    query throws, the call throws and the cache is untouched. *)
Theorem getNextNonce_allocates (w : TM.World) (now : Z) (provider address : string)
    (s : TM.Store) :
  let k := TM.cacheKey w provider address in
  let queried := TM.trace s ++ [TM.EvGetTransactionCount provider address] in
  match TM.getTransactionCount w provider address with
  | Ok count =>
      let n := allocate_rule (TM.nonceCache s !! k) now count in
      TM.getNextNonce w now provider address s =
        (Ok n, {| TM.nonceCache :=
                    <[k := {| TM.nonce := n + 1; TM.timestamp := now |}]> (TM.nonceCache s);
                  TM.trace := queried |})
      /\ count <= n
  | Throw e =>
      TM.getNextNonce w now provider address s =
        (Throw e, {| TM.nonceCache := TM.nonceCache s; TM.trace := queried |})
  end.
Proof.
  intros k queried.
  unfold TM.getNextNonce, TM.call, TM.log, TM.cache_set. run.
  fold k.
  destruct (TM.getTransactionCount w provider address) as [count|e]; simpl; [|done].
  split; [|apply allocate_rule_lower_bound].
  unfold allocate_rule, TM.NONCE_CACHE_TTL.
  destruct (TM.nonceCache s !! k) as [c|]; simpl; [|done].
  destruct (Z.ltb_spec (now - TM.timestamp c) 30000);
    case_bool_decide; try lia; done.
Qed.

(** ** Queue statistics *)

Lemma getQueueStats_counts (qs : TM.QStore) :
  let '(pending, retrying) := TM.getQueueStats qs in
  retrying = size (filter (fun kv => 0 < TM.retryCount kv.2) (TM.transactionQueue qs))
  /\ pending = size (filter (fun kv => ~ 0 < TM.retryCount kv.2) (TM.transactionQueue qs))
  /\ (pending + retrying)%nat = size (TM.transactionQueue qs).
Proof.
  unfold TM.getQueueStats.
  apply (map_fold_weak_ind
    (fun (r : nat * nat) (m : gmap string TM.QueuedTransaction) =>
       let '(pending, retrying) := r in
       retrying = size (filter (fun kv => 0 < TM.retryCount kv.2) m)
       /\ pending = size (filter (fun kv => ~ 0 < TM.retryCount kv.2) m)
       /\ (pending + retrying)%nat = size m)).
  - rewrite !map_filter_empty, map_size_empty. done.
  - intros i x m [p r] Hi (Hr & Hp & Hs).
    rewrite map_size_insert_None by done.
    destruct (Z.ltb_spec 0 (TM.retryCount x)) as [Hlt|Hge].
    + rewrite (map_filter_insert_True (fun kv => 0 < TM.retryCount kv.2)) by done.
      rewrite (map_filter_insert_False (fun kv => ~ 0 < TM.retryCount kv.2))
        by (simpl; tauto).
      rewrite delete_id by done.
      rewrite map_size_insert_None
        by (apply map_lookup_filter_None_2; by left).
      lia.
    + rewrite (map_filter_insert_False (fun kv => 0 < TM.retryCount kv.2))
        by (simpl; lia).
      rewrite (map_filter_insert_True (fun kv => ~ 0 < TM.retryCount kv.2))
        by (simpl; lia).
      rewrite delete_id by done.
      rewrite map_size_insert_None
        by (apply map_lookup_filter_None_2; by left).
      lia.
Qed.

(** C10: the statistics split the queue in two: [retrying] counts exactly
    the entries whose retry count is positive, [pending] exactly those whose
    retry count is zero, and the two add up to the size of the queue. *)
Theorem getQueueStats_partition (qs : TM.QStore) :
  queue_wf (TM.transactionQueue qs) ->
  let '(pending, retrying) := TM.getQueueStats qs in
  retrying = size (filter (fun kv => 0 < TM.retryCount kv.2) (TM.transactionQueue qs))
  /\ pending = size (filter (fun kv => TM.retryCount kv.2 = 0) (TM.transactionQueue qs))
  /\ (pending + retrying)%nat = size (TM.transactionQueue qs).
Proof.
  intros Hwf. pose proof (getQueueStats_counts qs) as H.
  destruct (TM.getQueueStats qs) as [p r]. destruct H as (Hr & Hp & Hs).
  split; [done|]. split; [|done].
  rewrite Hp. f_equal. apply map_filter_strong_ext. intros i x. simpl.
  split; intros [H1 H2]; split; try done.
  - specialize (Hwf i x H2). simpl in Hwf. lia.
  - lia.
Qed.

(** ** Retry queue *)

Lemma sendEVMTransaction_returns w now chain key to amount symbol fee s :
  exists r s', TM.sendEVMTransaction w now chain key to amount symbol fee s = (Ok r, s').
Proof.
  unfold TM.sendEVMTransaction.
  destruct (TM.CHAIN_CONFIG w chain) as [config|]; [|by eexists _, _].
  unfold try_catch.
  destruct (TM.sendEVMTransaction_try _ _ _ _ _ _ _ _ _ s) as [[r|e] s'].
  - by eexists _, _.
  - unfold TM.sendEVMTransaction_catch, TM.invalidateNonceCache, TM.cache_delete.
    destruct (Js.includes _ "nonce"); run; by eexists _, _.
Qed.

Lemma processQueuedTransaction_missing w nonce_now now id qs :
  TM.transactionQueue qs !! id = None ->
  TM.processQueuedTransaction w nonce_now now id qs =
    (Ok (TM.failure "Transaction not found in queue" false), qs).
Proof.
  intros H. unfold TM.processQueuedTransaction. run. by rewrite H.
Qed.

Lemma processQueuedTransaction_found w nonce_now now id qs q :
  TM.transactionQueue qs !! id = Some q ->
  exists result inner',
    TM.sendEVMTransaction w nonce_now (TM.q_chain q) (TM.q_encryptedPrivateKey q)
      (TM.q_to q) (TM.q_amount q) (TM.q_symbol q) TM.standard (TM.inner qs)
      = (Ok result, inner')
    /\ (TM.processQueuedTransaction w nonce_now now id qs).2 =
       {| TM.transactionQueue :=
            if TM.success result then delete id (TM.transactionQueue qs)
            else if bool_decide (TM.retryable result = Some true)
                    && (TM.retryCount q <? TM.maxRetries q)
                 then <[id := rescheduled now q (TM.error result)]> (TM.transactionQueue qs)
                 else delete id (TM.transactionQueue qs);
          TM.dispatched := TM.dispatched qs ++ [id];
          TM.inner := inner' |}.
Proof.
  intros H.
  destruct (sendEVMTransaction_returns w nonce_now (TM.q_chain q)
              (TM.q_encryptedPrivateKey q) (TM.q_to q) (TM.q_amount q)
              (TM.q_symbol q) TM.standard (TM.inner qs)) as (result & inner' & Hs).
  exists result, inner'. split; [done|].
  unfold TM.processQueuedTransaction, TM.note_dispatch, TM.with_inner,
    TM.queue_delete, TM.queue_set. run.
  rewrite H. simpl. rewrite Hs. simpl.
  destruct (TM.success result); [done|].
  destruct (bool_decide _ && _); done.
Qed.

Lemma dispatch_count_app id qs k (q' : gmap string TM.QueuedTransaction) i :
  dispatch_count id {| TM.transactionQueue := q';
                       TM.dispatched := TM.dispatched qs ++ [k];
                       TM.inner := i |}
  = (dispatch_count id qs + if decide (k = id) then 1 else 0)%nat.
Proof.
  unfold dispatch_count. simpl. rewrite filter_app, length_app.
  f_equal. rewrite filter_cons, filter_nil. by destruct (decide (k = id)).
Qed.

(** One call never raises the sum of dispatches made and dispatches left. *)
Lemma process_step_budget w nonce_now now id' id qs :
  let qs' := (TM.processQueuedTransaction w nonce_now now id' qs).2 in
  Z.of_nat (dispatch_count id qs') + budget id qs'
  <= Z.of_nat (dispatch_count id qs) + budget id qs.
Proof.
  intros qs'. subst qs'.
  destruct (TM.transactionQueue qs !! id') as [q|] eqn:Hq.
  2:{ rewrite processQueuedTransaction_missing by done. simpl. lia. }
  destruct (processQueuedTransaction_found w nonce_now now id' qs q Hq)
    as (result & inner' & _ & ->).
  rewrite dispatch_count_app. unfold budget. simpl.
  destruct (decide (id' = id)) as [->|Hne].
  - rewrite Hq.
    destruct (TM.success result).
    { rewrite lookup_delete_eq. lia. }
    destruct (bool_decide _ && _) eqn:Hb.
    + apply andb_true_iff in Hb as [_ Hlt]. apply Z.ltb_lt in Hlt.
      rewrite lookup_insert_eq. simpl. lia.
    + rewrite lookup_delete_eq. lia.
  - assert (forall m : gmap string TM.QueuedTransaction,
              (if TM.success result then delete id' (TM.transactionQueue qs)
               else if bool_decide (TM.retryable result = Some true)
                       && (TM.retryCount q <? TM.maxRetries q)
                    then <[id' := rescheduled now q (TM.error result)]> (TM.transactionQueue qs)
                    else delete id' (TM.transactionQueue qs)) !! id
              = TM.transactionQueue qs !! id) as Heq.
    { intros _. destruct (TM.success result); [by rewrite lookup_delete_ne|].
      destruct (bool_decide _ && _);
        [by rewrite lookup_insert_ne|by rewrite lookup_delete_ne]. }
    rewrite (Heq ∅). lia.
Qed.

Lemma budget_nonneg id qs : 0 <= budget id qs.
Proof. unfold budget. destruct (_ !! _); lia. Qed.

Lemma process_all_budget calls id qs :
  Z.of_nat (dispatch_count id (process_all calls qs))
  <= Z.of_nat (dispatch_count id qs) + budget id qs.
Proof.
  revert qs. induction calls as [|[[[w t1] t2] id'] rest IH]; intros qs; simpl.
  - pose proof (budget_nonneg id qs). lia.
  - etrans; [apply IH|]. apply process_step_budget.
Qed.

(** C2: processing a queued entry dispatches it once; on success the entry
    is removed; on a retryable failure with [retryCount < maxRetries] it
    stays queued with the count incremented by one, the error recorded and
    the next retry at [now + 2^retryCount] seconds (the new count); on any
    other failure it is removed.  Hence whatever calls follow, an entry
    with [0 <= retryCount <= maxRetries] is dispatched at most
    [maxRetries - retryCount + 1] more times: at most [maxRetries + 1]
    times from the moment it is queued. *)
Theorem processQueuedTransaction_bounded_retries
    (w : TM.World) (nonce_now now : Z) (id : string) (qs : TM.QStore)
    (q : TM.QueuedTransaction) :
  TM.transactionQueue qs !! id = Some q ->
  (exists result inner',
    TM.sendEVMTransaction w nonce_now (TM.q_chain q) (TM.q_encryptedPrivateKey q)
      (TM.q_to q) (TM.q_amount q) (TM.q_symbol q) TM.standard (TM.inner qs)
      = (Ok result, inner')
    /\ let qs' := (TM.processQueuedTransaction w nonce_now now id qs).2 in
       TM.dispatched qs' = TM.dispatched qs ++ [id]
       /\ (TM.success result = true ->
           TM.transactionQueue qs' = delete id (TM.transactionQueue qs))
       /\ (TM.success result = false -> TM.retryable result = Some true ->
           TM.retryCount q < TM.maxRetries q ->
           TM.transactionQueue qs' =
             <[id := rescheduled now q (TM.error result)]> (TM.transactionQueue qs))
       /\ (TM.success result = false ->
           TM.retryable result <> Some true \/ TM.maxRetries q <= TM.retryCount q ->
           TM.transactionQueue qs' = delete id (TM.transactionQueue qs)))
  /\ (0 <= TM.retryCount q <= TM.maxRetries q ->
      forall calls,
        Z.of_nat (dispatch_count id (process_all calls qs))
        <= Z.of_nat (dispatch_count id qs) + (TM.maxRetries q - TM.retryCount q + 1)).
Proof.
  intros Hq. split.
  - destruct (processQueuedTransaction_found w nonce_now now id qs q Hq)
      as (result & inner' & Hs & Hp).
    exists result, inner'. split; [done|]. simpl. rewrite Hp. simpl.
    split; [done|]. split; [|split].
    + by intros ->.
    + intros -> Hr Hlt. rewrite bool_decide_true by done.
      apply Z.ltb_lt in Hlt. by rewrite Hlt.
    + intros -> [Hr|Hge].
      * by rewrite bool_decide_false.
      * apply Z.ltb_ge in Hge. rewrite Hge. by rewrite andb_false_r.
  - intros Hrc calls. etrans; [apply process_all_budget|].
    unfold budget. rewrite Hq. lia.
Qed.

(** ** Balance checks of the account-model dispatcher *)

Lemma submissions_log s e :
  is_submission e = false ->
  submissions {| TM.nonceCache := TM.nonceCache s; TM.trace := TM.trace s ++ [e] |}
  = submissions s.
Proof.
  intros He. unfold submissions. simpl.
  rewrite List.filter_app. simpl. rewrite He. apply app_nil_r.
Qed.

Lemma try_endpoints_frame w chain rpcs s r s' :
  TM.try_endpoints w chain rpcs s = (r, s') ->
  submissions s' = submissions s /\ TM.nonceCache s' = TM.nonceCache s.
Proof.
  revert s. induction rpcs as [|u rest IH]; intros s; simpl.
  - unfold throw. by intros [= _ <-].
  - unfold TM.call, TM.log. run.
    destruct (TM.getBlockNumber w u); simpl.
    + intros [= _ <-]. split; [by apply submissions_log|done].
    + intros H. apply IH in H as [H1 H2]. rewrite H1, H2.
      split; [by apply submissions_log|done].
Qed.

Lemma getProvider_frame w chain s r s' :
  TM.getProvider w chain s = (r, s') ->
  submissions s' = submissions s /\ TM.nonceCache s' = TM.nonceCache s.
Proof.
  unfold TM.getProvider. destruct (TM.CHAIN_CONFIG w chain).
  - apply try_endpoints_frame.
  - unfold throw. by intros [= _ <-].
Qed.

Lemma getNextNonce_submissions w now provider address s r s' :
  TM.getNextNonce w now provider address s = (r, s') ->
  submissions s' = submissions s.
Proof.
  rewrite getNextNonce_run. cbv zeta.
  destruct (TM.getTransactionCount w provider address);
    intros [= _ <-]; by apply (submissions_log s).
Qed.

Lemma estimateGas_submissions w provider chain tx s r s' :
  TM.estimateGas w provider chain tx s = (r, s') ->
  submissions s' = submissions s.
Proof.
  unfold TM.estimateGas, TM.call, TM.log. run.
  destruct (TM.estimateGas_rpc w provider tx); simpl;
    [destruct (TM.CHAIN_CONFIG w chain); simpl|];
    destruct (TM.getFeeData w provider); simpl; intros [= _ <-];
    unfold submissions; simpl; rewrite !List.filter_app; simpl;
    by rewrite !app_nil_r.
Qed.

(** C6: a native-asset send that reaches the balance check with a balance
    below the amount returns the insufficient-balance failure with
    [retryable = false]; one that passes it but whose balance at the gas
    check is below amount plus gas limit times fee returns the
    insufficient-for-amount-and-gas failure with [retryable = false].  In
    both cases nothing has been signed or broadcast. *)
Theorem sendEVMTransaction_insufficient_native
    (w : TM.World) (now : Z) (chain encryptedPrivateKey toAddress amount symbol : string)
    (feeLevel : TM.FeeLevel) (s s1 : TM.Store) (config : TM.ChainConfig)
    (privateKey provider address : string) (amountWei : Z) :
  TM.CHAIN_CONFIG w chain = Some config ->
  TM.decrypt w encryptedPrivateKey = Ok privateKey ->
  (64 <= String.length privateKey)%nat ->
  TM.getProvider w chain s = (Ok provider, s1) ->
  TM.wallet_address w privateKey = Ok address ->
  TM.amount_positive w amount = true ->
  TM.ERC20_TOKENS chain symbol = None ->
  TM.parseEther w amount = Ok amountWei ->
  let send := TM.sendEVMTransaction w now chain encryptedPrivateKey toAddress
                amount symbol feeLevel s in
  let s2 := {| TM.nonceCache := TM.nonceCache s1;
               TM.trace := TM.trace s1 ++ [TM.EvGetBalance provider address] |} in
  (forall balance,
      TM.getBalance w 0%nat provider address = Ok balance ->
      balance < amountWei ->
      send.1 = Ok (TM.failure ("Insufficient " +:+ symbol +:+ " balance. Have: " +:+
                               TM.formatEther w balance +:+ ", Need: " +:+ amount) false)
      /\ submissions send.2 = submissions s)
  /\ (forall balance nonce s3 gasEstimate s4 balance',
      TM.getBalance w 0%nat provider address = Ok balance ->
      amountWei <= balance ->
      TM.getNextNonce w now provider address s2 = (Ok nonce, s3) ->
      TM.estimateGas w provider chain (native_request toAddress address amountWei nonce) s3
        = (Ok gasEstimate, s4) ->
      TM.getBalance w 1%nat provider address = Ok balance' ->
      let totalCost :=
        amountWei + TM.gasLimit gasEstimate *
                    Z.quot (TM.maxFeePerGas gasEstimate * TM.feeMultiplier feeLevel) 100 in
      balance' < totalCost ->
      send.1 = Ok (TM.failure ("Insufficient balance for amount + gas. Need: " +:+
                               TM.formatEther w totalCost +:+ " " +:+ symbol) false)
      /\ submissions send.2 = submissions s).
Proof.
  intros Hcfg Hdec Hlen Hprov Hwal Hamt Htok Hparse send s2.
  assert (Hkey : negb (Js.truthy privateKey) || (String.length privateKey <? 64)%nat = false).
  { apply orb_false_iff. split.
    - destruct privateKey; [simpl in Hlen; lia|done].
    - apply Nat.ltb_ge. lia. }
  pose proof (getProvider_frame _ _ _ _ _ Hprov) as [Hsub1 _].
  assert (Hsub2 : submissions s2 = submissions s).
  { unfold s2. by rewrite submissions_log. }
  split.
  - intros balance Hbal Hlt.
    assert (send = (Ok (TM.failure ("Insufficient " +:+ symbol +:+ " balance. Have: " +:+
                               TM.formatEther w balance +:+ ", Need: " +:+ amount) false), s2)) as ->;
      [|done].
    subst send. unfold TM.sendEVMTransaction. rewrite Hcfg.
    apply try_catch_ok. unfold TM.sendEVMTransaction_try.
    step Hdec. rewrite Hkey. step Hprov. step Hwal. rewrite Hamt. simpl (negb true). cbv iota.
    erewrite bind_ok.
    2:{ unfold TM.build_transfer. rewrite Htok. step Hparse. step Hbal.
        apply Z.ltb_lt in Hlt. rewrite Hlt. reflexivity. }
    reflexivity.
  - intros balance nonce s3 gasEstimate s4 balance' Hbal Hge Hnonce Hgas Hbal' totalCost Hlt.
    assert (send = (Ok (TM.failure ("Insufficient balance for amount + gas. Need: " +:+
                               TM.formatEther w totalCost +:+ " " +:+ symbol) false),
                    {| TM.nonceCache := TM.nonceCache s4;
                       TM.trace := TM.trace s4 ++ [TM.EvGetBalance provider address] |})) as ->.
    2:{ split; [done|]. simpl. rewrite submissions_log by done.
        rewrite (estimateGas_submissions _ _ _ _ _ _ _ Hgas).
        by rewrite (getNextNonce_submissions _ _ _ _ _ _ _ Hnonce). }
    subst send. unfold TM.sendEVMTransaction. rewrite Hcfg.
    apply try_catch_ok. unfold TM.sendEVMTransaction_try.
    step Hdec. rewrite Hkey. step Hprov. step Hwal. rewrite Hamt. simpl (negb true). cbv iota.
    erewrite bind_ok.
    2:{ unfold TM.build_transfer. rewrite Htok. step Hparse. step Hbal.
        apply Z.ltb_ge in Hge. rewrite Hge. reflexivity. }
    cbv beta iota. step Hnonce. simpl TM.tx_to. simpl TM.tx_from.
    simpl TM.tx_value. simpl TM.tx_data. step Hgas.
    rewrite Htok. rewrite bool_decide_false by (by intros [? ?]).
    erewrite bind_ok.
    2:{ step Hbal'. reflexivity. }
    cbv beta. change (default 0 (Some amountWei)) with amountWei. fold totalCost.
    apply Z.ltb_lt in Hlt. by rewrite Hlt.
Qed.

(** ** Nonce-cache invalidation after a failed submission *)

(** C5 (the code departs from it): with the stale value 9 cached for the
    sender and a pending count of 5, a send whose broadcast fails with
    "nonce too low" is reported retryable, yet the sender's cache entry is
    still there afterwards (advanced to 10): the catch block deletes the
    key ["1-unknown"].  The next allocation returns 10, not the
    authoritative 5. *)
Theorem nonce_error_keeps_sender_entry :
  let w := Fixtures.nonce_conflict in
  let k := TM.cacheKey w Fixtures.llama Fixtures.sender in
  let sent := TM.sendEVMTransaction w 1000 "ETHEREUM" "enc" Fixtures.recipient
                "1.5" "ETH" TM.standard Fixtures.stale_store in
  sent.1 = Ok (TM.failure "nonce too low" true)
  /\ TM.nonceCache sent.2 !! k = Some {| TM.nonce := 10; TM.timestamp := 1000 |}
  /\ TM.getTransactionCount w Fixtures.llama Fixtures.sender = Ok 5
  /\ (TM.getNextNonce w 2000 Fixtures.llama Fixtures.sender sent.2).1 = Ok 10.
Proof. vm_compute. done. Qed.

(** ** Classification of submission failures *)

Lemma isRetryable_transient message :
  TM.isRetryable message = transient_by_design message.
Proof.
  unfold TM.isRetryable, transient_by_design.
  destruct (Js.includes message "nonce"), (Js.includes message "replacement"),
    (Js.includes message "timeout"), (Js.includes message "network"),
    (Js.includes message "ETIMEDOUT"), (Js.includes message "rate limit"); done.
Qed.

(** C3 as stated fails: the UTXO dispatcher classifies an unrecognised
    failure as retryable, and the resource-model dispatcher classifies a
    rate-limiting failure as fatal. *)
Lemma classification_differs_by_dispatcher :
  let down := Js.Error "Service unavailable" in
  let limited := Fixtures.thrown_string "rate limit exceeded" in
  (UTXO.sendUTXOTransaction
     (Fixtures.utxo (Some "key") (Throw down) (Ok None) (Ok None))
     "BITCOIN" "xpub" "wif" "bc1qrecipient" "0.1" "standard" []).1
    = Ok (UTXO.failure "Service unavailable" true)
  /\ transient_by_design "Service unavailable" = false
  /\ (Tron.sendTronTransaction
        (Fixtures.tron (Throw limited) Fixtures.tron_accepts)
        "enc" Fixtures.tron_recipient "1.5" "TRX" []).1
    = Ok (Tron.failure "rate limit exceeded" false)
  /\ transient_by_design "rate limit exceeded" = true.
Proof. vm_compute. done. Qed.

(** C3, amended: when the [try] block of a dispatcher throws, the result is
    a failure carrying the thrown message, and it is retryable
    - for the account-model dispatcher, exactly when the message indicates
      a nonce conflict, a replacement, a timeout, a network failure or
      rate limiting;
    - for the resource-model dispatcher, exactly when the decoded message
      contains "timeout", "network" or "bandwidth";
    - for the UTXO dispatcher, exactly when the message contains neither
      "insufficient" nor "invalid". *)
Theorem thrown_failure_classification :
  (forall w now chain key to amount symbol fee config s e s',
      TM.CHAIN_CONFIG w chain = Some config ->
      TM.sendEVMTransaction_try w now config chain key to amount symbol fee s
        = (Throw e, s') ->
      let message := Js.or_str (Js.message e) "Unknown error" in
      (TM.sendEVMTransaction w now chain key to amount symbol fee s).1
        = Ok (TM.failure message (transient_by_design message)))
  /\ (forall w key to amount symbol t e t',
      Tron.sendTronTransaction_try w key to amount symbol t = (Throw e, t') ->
      let message := Tron.decodeMessage (Js.or_str (Js.message e) (Js.to_string e)) in
      Tron.sendTronTransaction w key to amount symbol t
        = (Ok (Tron.failure message
                 (Js.includes message "timeout" || Js.includes message "network"
                  || Js.includes message "bandwidth")), t'))
  /\ (forall w chain xpub wif to amount fee config t e t',
      UTXO.CHAIN_CONFIG w chain = Some config ->
      UTXO.sendUTXOTransaction_try w config chain xpub wif to amount fee t
        = (Throw e, t') ->
      let message :=
        Js.or_str (Js.or_opt (Js.response_message e) (Js.message e)) "Unknown error" in
      UTXO.sendUTXOTransaction w chain xpub wif to amount fee t
        = (Ok (UTXO.failure message
                 (negb (Js.includes message "insufficient")
                  && negb (Js.includes message "invalid"))), t')).
Proof.
  split; [|split].
  - intros w now chain key to amount symbol fee config s e s' Hcfg Hthrow message.
    unfold TM.sendEVMTransaction. rewrite Hcfg.
    erewrite try_catch_throw by exact Hthrow.
    unfold TM.sendEVMTransaction_catch. fold message.
    rewrite isRetryable_transient.
    unfold TM.invalidateNonceCache, TM.cache_delete.
    destruct (Js.includes message "nonce"); done.
  - intros w key to amount symbol t e t' Hthrow message.
    unfold Tron.sendTronTransaction.
    by erewrite try_catch_throw by exact Hthrow.
  - intros w chain xpub wif to amount fee config t e t' Hcfg Hthrow message.
    unfold UTXO.sendUTXOTransaction. rewrite Hcfg.
    by erewrite try_catch_throw by exact Hthrow.
Qed.

(** ** Balance queries *)

Lemma try_endpoints_all_down w chain rpcs s :
  (forall u, u ∈ rpcs -> exists e, TM.getBlockNumber w u = Throw e) ->
  (TM.try_endpoints w chain rpcs s).1
  = Throw (Js.Error ("All RPC endpoints failed for " +:+ chain)).
Proof.
  revert s. induction rpcs as [|u rest IH]; intros s Hdown; [done|].
  simpl. destruct (Hdown u) as [e He]; [left|].
  erewrite try_catch_throw.
  2:{ unfold TM.call, TM.log. run. rewrite He. reflexivity. }
  apply IH. intros v Hv. apply Hdown. by right.
Qed.

Lemma getEVMBalanceRobust_try_ok w chain address symbol s r s' :
  TM.getEVMBalanceRobust_try w chain address symbol s = (Ok r, s') ->
  TM.balance_error r = None
  /\ exists provider s1,
       TM.getProvider w chain s = (Ok provider, s1)
       /\ match TM.ERC20_TOKENS chain symbol with
          | Some tokenConfig =>
              exists b,
                TM.balanceOf w provider (TM.token_address tokenConfig) address = Ok b
                /\ TM.balance r = TM.formatUnits w b (TM.decimals tokenConfig)
          | None =>
              exists b,
                TM.getBalance w 0%nat provider address = Ok b
                /\ TM.balance r = TM.formatEther w b
          end.
Proof.
  unfold TM.getEVMBalanceRobust_try, TM.call, TM.log. run.
  destruct (TM.getProvider w chain s) as [[provider|e] s1]; [|done].
  destruct (TM.ERC20_TOKENS chain symbol) as [tc|]; simpl.
  - destruct (TM.balanceOf w provider (TM.token_address tc) address) as [b|] eqn:Hb;
      [|done].
    intros [= <- _]. split; [done|]. exists provider, s1. split; [done|].
    by exists b.
  - destruct (TM.getBalance w 0%nat provider address) as [b|] eqn:Hb; [|done].
    intros [= <- _]. split; [done|]. exists provider, s1. split; [done|].
    by exists b.
Qed.

Lemma getTronBalance_try_ok w address symbol t r t' :
  Tron.getTronBalance_try w address symbol t = (Ok r, t') ->
  if String.eqb symbol "TRX" then
    exists b, Tron.getBalance w address = Ok b
              /\ r = {| TM.balance := Tron.show_div w b 1000000;
                        TM.balance_error := None |}
  else
    match Tron.TRC20_TOKENS symbol with
    | Some tokenConfig =>
        exists b,
          Tron.balanceOf w (Tron.token_address tokenConfig) address = Ok b
          /\ r = {| TM.balance := Tron.show_div w b (10 ^ Tron.decimals tokenConfig);
                    TM.balance_error := None |}
    | None =>
        r = {| TM.balance := "0";
               TM.balance_error := Some ("Unknown token: " +:+ symbol) |}
    end.
Proof.
  unfold Tron.getTronBalance_try, Tron.call. run.
  destruct (Tron.newTronWeb w); [|done].
  destruct (String.eqb symbol "TRX").
  - destruct (Tron.getBalance w address) as [b|] eqn:Hb; [|done].
    intros [= <- _]. by exists b.
  - destruct (Tron.TRC20_TOKENS symbol) as [tc|]; simpl.
    + destruct (Tron.contractAt w _); [|done]. simpl.
      destruct (Tron.balanceOf w _ _) as [b|] eqn:Hb; [|done].
      intros [= <- _]. by exists b.
    + by intros [= <- _].
Qed.

Lemma getUTXOBalance_try_ok w config address t r t' :
  UTXO.getUTXOBalance_try w config address t = (Ok r, t') ->
  exists amount,
    UTXO.fetchBalance w (UTXO.blockchain config) (UTXO.network config) address
      = Ok amount
    /\ r = {| TM.balance := Js.or_str amount "0"; TM.balance_error := None |}.
Proof.
  unfold UTXO.getUTXOBalance_try, UTXO.request, UTXO.getHeaders.
  destruct (Js.truthy (UTXO.CRYPTOAPIS_API_KEY w)); run; [|done].
  destruct (UTXO.fetchBalance w _ _ address) as [amount|] eqn:Hf; [|done].
  intros [= <- _]. by exists amount.
Qed.

(** C7: the balance operation of the resource-model chain does not always
    report an error with the balance "0".  Its [catch] block writes
    [error.message] into the error field; when the value thrown inside the
    [try] block carries no [message] (TronWeb rejects with plain strings),
    the result is the balance "0" with no error field at all. *)
Theorem getTronBalance_loses_thrown_text (w : Tron.World) (address symbol : string)
    (t : list Tron.Event) (e : Js.Thrown) :
  (Tron.getTronBalance_try w address symbol t).1 = Throw e ->
  Js.message e = None ->
  (Tron.getTronBalance w address symbol t).1
  = Ok {| TM.balance := "0"; TM.balance_error := None |}.
Proof.
  intros Htry Hmsg. unfold Tron.getTronBalance, try_catch.
  destruct (Tron.getTronBalance_try w address symbol t) as [o t'].
  simpl in Htry. subst o. unfold ret. simpl. by rewrite Hmsg.
Qed.

(** X26: none of the three balance operations throws, and each reports
    what its provider answered.  When the work inside the [try] block
    succeeds, the result has no error field and its balance is the
    formatted answer of the balance query made to the provider the pool
    returned (account-model), to the node (resource-model) or to the
    data API (UTXO); the resource-model operation answers "0" with
    "Unknown token" for a token it does not know.  When that work throws,
    or every RPC endpoint is down, the result is the balance "0" and the
    error field is the thrown value's [message] property. *)
Theorem balance_never_throws :
  (forall w chain address symbol s,
      match TM.CHAIN_CONFIG w chain with
      | None =>
          TM.getEVMBalanceRobust w chain address symbol s
          = (Ok {| TM.balance := "0";
                   TM.balance_error := Some ("Unsupported chain: " +:+ chain) |}, s)
      | Some config =>
          match TM.getEVMBalanceRobust_try w chain address symbol s with
          | (Ok r, s') =>
              TM.getEVMBalanceRobust w chain address symbol s = (Ok r, s')
              /\ TM.balance_error r = None
              /\ exists provider s1,
                   TM.getProvider w chain s = (Ok provider, s1)
                   /\ match TM.ERC20_TOKENS chain symbol with
                      | Some tokenConfig =>
                          exists b,
                            TM.balanceOf w provider (TM.token_address tokenConfig)
                              address = Ok b
                            /\ TM.balance r
                               = TM.formatUnits w b (TM.decimals tokenConfig)
                      | None =>
                          exists b,
                            TM.getBalance w 0%nat provider address = Ok b
                            /\ TM.balance r = TM.formatEther w b
                      end
          | (Throw e, s') =>
              TM.getEVMBalanceRobust w chain address symbol s
              = (Ok {| TM.balance := "0"; TM.balance_error := Js.message e |}, s')
          end
          /\ ((forall u, u ∈ TM.rpc config -> exists e, TM.getBlockNumber w u = Throw e) ->
              (TM.getEVMBalanceRobust w chain address symbol s).1
              = Ok {| TM.balance := "0";
                      TM.balance_error :=
                        Some ("All RPC endpoints failed for " +:+ chain) |})
      end)
  /\ (forall w address symbol t,
      match Tron.getTronBalance_try w address symbol t with
      | (Ok r, t') =>
          Tron.getTronBalance w address symbol t = (Ok r, t')
          /\ if String.eqb symbol "TRX" then
               exists b, Tron.getBalance w address = Ok b
                         /\ r = {| TM.balance := Tron.show_div w b 1000000;
                                   TM.balance_error := None |}
             else
               match Tron.TRC20_TOKENS symbol with
               | Some tokenConfig =>
                   exists b,
                     Tron.balanceOf w (Tron.token_address tokenConfig) address = Ok b
                     /\ r = {| TM.balance :=
                                 Tron.show_div w b (10 ^ Tron.decimals tokenConfig);
                               TM.balance_error := None |}
               | None =>
                   r = {| TM.balance := "0";
                          TM.balance_error := Some ("Unknown token: " +:+ symbol) |}
               end
      | (Throw e, t') =>
          Tron.getTronBalance w address symbol t
          = (Ok {| TM.balance := "0"; TM.balance_error := Js.message e |}, t')
      end)
  /\ (forall w chain address t,
      match UTXO.CHAIN_CONFIG w chain with
      | None =>
          UTXO.getUTXOBalance w chain address t
          = (Ok {| TM.balance := "0";
                   TM.balance_error := Some ("Unsupported chain: " +:+ chain) |}, t)
      | Some config =>
          match UTXO.getUTXOBalance_try w config address t with
          | (Ok r, t') =>
              UTXO.getUTXOBalance w chain address t = (Ok r, t')
              /\ exists amount,
                   UTXO.fetchBalance w (UTXO.blockchain config) (UTXO.network config)
                     address = Ok amount
                   /\ r = {| TM.balance := Js.or_str amount "0";
                             TM.balance_error := None |}
          | (Throw e, t') =>
              UTXO.getUTXOBalance w chain address t
              = (Ok {| TM.balance := "0"; TM.balance_error := Js.message e |}, t')
          end
      end).
Proof.
  split; [|split].
  - intros w chain address symbol s. unfold TM.getEVMBalanceRobust.
    destruct (TM.CHAIN_CONFIG w chain) as [config|] eqn:Hcfg; [|done].
    split.
    + destruct (TM.getEVMBalanceRobust_try w chain address symbol s)
        as [[r|e] s'] eqn:Htry.
      * split; [by apply try_catch_ok|].
        by apply getEVMBalanceRobust_try_ok in Htry.
      * by erewrite try_catch_throw by exact Htry.
    + intros Hdown.
      pose proof (try_endpoints_all_down w chain (TM.rpc config) s Hdown) as Hp.
      unfold try_catch, TM.getEVMBalanceRobust_try, bind, TM.getProvider.
      rewrite Hcfg.
      destruct (TM.try_endpoints w chain (TM.rpc config) s) as [o s1].
      simpl in Hp. by subst o.
  - intros w address symbol t. unfold Tron.getTronBalance.
    destruct (Tron.getTronBalance_try w address symbol t) as [[r|e] t'] eqn:Htry.
    + split; [by apply try_catch_ok|]. by apply getTronBalance_try_ok in Htry.
    + by erewrite try_catch_throw by exact Htry.
  - intros w chain address t. unfold UTXO.getUTXOBalance.
    destruct (UTXO.CHAIN_CONFIG w chain) as [config|]; [|done].
    destruct (UTXO.getUTXOBalance_try w config address t) as [[r|e] t'] eqn:Htry.
    + split; [by apply try_catch_ok|]. by apply getUTXOBalance_try_ok in Htry.
    + by erewrite try_catch_throw by exact Htry.
Qed.

(** ** Fee estimation *)

(** C8 as stated fails on the account-model chains: the default gas limit
    is returned without the chain's multiplier (21000, not 25200, on
    Ethereum), and a fee-market query that throws is reported to the caller
    as [success = false] with the provider's message. *)
Lemma fee_fallback_not_total :
  (TM.gasMultiplierPct <$> TM.CHAIN_CONFIG FeeFixtures.no_gas_estimate "ETHEREUM") = Some 120
  /\ (TM.gasLimit <$>
        match (TM.estimateGas FeeFixtures.no_gas_estimate Fixtures.llama "ETHEREUM"
                 FeeFixtures.plain_transfer Fixtures.empty_store).1 with
        | Ok g => Some g
        | Throw _ => None
        end) = Some 21000
  /\ (TM.estimateTransactionFee FeeFixtures.no_fee_data "ETHEREUM" Fixtures.sender
        Fixtures.recipient "1.5" "ETH" Fixtures.empty_store).1
     = Ok {| TM.fe_success := false; TM.fe_estimatedFee := None;
             TM.fe_gasLimit := None;
             TM.fe_error := Some "fee history unavailable" |}.
Proof. vm_compute. done. Qed.

Lemma estimateGas_fallback w provider chain tx s e fd :
  TM.estimateGas_rpc w provider tx = Throw e ->
  TM.getFeeData w provider = Ok fd ->
  let g := if Js.truthy_opt (TM.tx_data tx) then 100000 else 21000 in
  let fee := TM.buffered_fee (TM.fd_maxFeePerGas fd) (50 * 10 ^ 9) in
  TM.estimateGas w provider chain tx s
  = (Ok {| TM.gasLimit := g;
           TM.maxFeePerGas := fee;
           TM.maxPriorityFeePerGas :=
             TM.buffered_fee (TM.fd_maxPriorityFeePerGas fd) (2 * 10 ^ 9);
           TM.estimatedCost := TM.formatEther w (g * fee) |},
     {| TM.nonceCache := TM.nonceCache s;
        TM.trace := TM.trace s ++ [TM.EvEstimateGas provider; TM.EvGetFeeData provider] |}).
Proof.
  intros Hgas Hfee g fee. unfold TM.estimateGas.
  erewrite bind_ok.
  2:{ erewrite try_catch_throw; [reflexivity|]. step Hgas. reflexivity. }
  cbv beta. step Hfee. unfold ret. simpl. by rewrite <- app_assoc.
Qed.

Lemma estimateGas_fee_failure w provider chain tx s e :
  TM.getFeeData w provider = Throw e ->
  (TM.estimateGas w provider chain tx s).1 = Throw e.
Proof.
  intros Hfee. unfold TM.estimateGas, TM.call, TM.log. run.
  destruct (TM.estimateGas_rpc w provider tx); simpl;
    [destruct (TM.CHAIN_CONFIG w chain); simpl|]; by rewrite Hfee.
Qed.

Lemma getChainType_utxo_config w chain :
  Routes.getChainType chain = Ok Routes.utxo ->
  exists config, UTXO.CHAIN_CONFIG w (Js.toUpperCase chain) = Some config.
Proof.
  unfold Routes.getChainType, UTXO.CHAIN_CONFIG.
  destruct (String.eqb (Js.toUpperCase chain) "ETHEREUM"
            || String.eqb (Js.toUpperCase chain) "BSC"
            || String.eqb (Js.toUpperCase chain) "POLYGON"); [done|].
  destruct (String.eqb (Js.toUpperCase chain) "TRON"); [done|].
  destruct (String.eqb (Js.toUpperCase chain) "BITCOIN"); [by eexists|].
  destruct (String.eqb (Js.toUpperCase chain) "LITECOIN"); [by eexists|].
  destruct (String.eqb (Js.toUpperCase chain) "DOGECOIN"); [by eexists|done].
Qed.

(** C8, amended: on an account-model chain, when the gas estimate fails
    and fee data is available, the estimate is the default limit of 21000
    (no payload) or 100000 (payload), without the multiplier, priced with
    the buffered fee levels or their defaults of 50 and 2 gwei, and
    [estimateTransactionFee] reports [success = true]; when the fee-market
    query throws, [estimateTransactionFee] reports [success = false] with
    the thrown message.  On a UTXO chain a failed fee request gives the
    chain's default fee with rate "0" and the note "Using default fee
    estimate", and the estimate-fee route answers 200 with
    [success = true]. *)
Theorem fee_estimation_fallbacks :
  (forall w chain from to amount symbol s config provider s1 tx e fd,
      TM.CHAIN_CONFIG w chain = Some config ->
      TM.getProvider w chain s = (Ok provider, s1) ->
      TM.estimate_request w chain from to amount symbol = Ok tx ->
      TM.estimateGas_rpc w provider tx = Throw e ->
      TM.getFeeData w provider = Ok fd ->
      let g := if Js.truthy_opt (TM.tx_data tx) then 100000 else 21000 in
      let fee := match TM.fd_maxFeePerGas fd with
                 | Some v => if v =? 0 then 50 * 10 ^ 9 else Z.quot (v * 120) 100
                 | None => 50 * 10 ^ 9
                 end in
      (TM.estimateTransactionFee w chain from to amount symbol s).1
      = Ok {| TM.fe_success := true;
              TM.fe_estimatedFee := Some (TM.formatEther w (g * fee));
              TM.fe_gasLimit := Some (pretty g);
              TM.fe_error := None |})
  /\ (forall w chain from to amount symbol s config provider s1 tx e,
      TM.CHAIN_CONFIG w chain = Some config ->
      TM.getProvider w chain s = (Ok provider, s1) ->
      TM.estimate_request w chain from to amount symbol = Ok tx ->
      TM.getFeeData w provider = Throw e ->
      (TM.estimateTransactionFee w chain from to amount symbol s).1
      = Ok {| TM.fe_success := false; TM.fe_estimatedFee := None;
              TM.fe_gasLimit := None; TM.fe_error := Js.message e |})
  /\ (forall w req s chain amount config e t',
      Routes.f_chain req = Some chain -> Js.truthy chain = true ->
      Routes.f_amount req = Some amount -> Js.truthy amount = true ->
      Routes.getChainType chain = Ok Routes.utxo ->
      UTXO.CHAIN_CONFIG (Routes.utxo_world w) (Js.toUpperCase chain) = Some config ->
      UTXO.request (Routes.utxo_world w)
        (UTXO.EvEstimateFee (UTXO.blockchain config) (UTXO.network config)
           (Js.or_str (Routes.f_from req) "") (Js.or_str (Routes.f_to req) "") amount)
        (UTXO.fetchFee (Routes.utxo_world w) (UTXO.blockchain config)
           (UTXO.network config) (Js.or_str (Routes.f_from req) "")
           (Js.or_str (Routes.f_to req) "") amount)
        (Routes.utxo_trace s) = (Throw e, t') ->
      (Routes.post_estimate_fee w req s).1
      = {| Routes.fr_status := 200; Routes.fr_success := true;
           Routes.fr_estimatedFee := Some (UTXO.default_fee (Js.toUpperCase chain));
           Routes.fr_gasLimit := None; Routes.fr_feeRate := Some "0";
           Routes.fr_energyNeeded := None; Routes.fr_bandwidthNeeded := None;
           Routes.fr_error := Some "Using default fee estimate" |}).
Proof.
  split; [|split].
  - intros w chain from to amount symbol s config provider s1 tx e fd
      Hcfg Hprov Htx Hgas Hfee g fee.
    unfold TM.estimateTransactionFee. rewrite Hcfg.
    erewrite try_catch_ok; [reflexivity|].
    step Hprov. step Htx.
    erewrite bind_ok by (by eapply estimateGas_fallback).
    reflexivity.
  - intros w chain from to amount symbol s config provider s1 tx e
      Hcfg Hprov Htx Hfee.
    unfold TM.estimateTransactionFee. rewrite Hcfg.
    pose proof (estimateGas_fee_failure w provider chain tx s1 e Hfee) as Hg.
    destruct (TM.estimateGas w provider chain tx s1) as [o s2] eqn:Hest.
    simpl in Hg. subst o.
    erewrite try_catch_throw; [reflexivity|].
    step Hprov. step Htx. step Hest. reflexivity.
  - intros w req s chain amount config e t' Hc Hct Ha Hat Hty Hcfg Hreq.
    unfold Routes.post_estimate_fee, Routes.handler in *.
    rewrite Hc, Ha. unfold Js.truthy_opt. rewrite Hct, Hat.
    cbn [negb orb default from_option id].
    step Hty. unfold Routes.in_utxo, UTXO.estimateUTXOFee.
    rewrite Hcfg.
    erewrite bind_ok.
    2:{ erewrite try_catch_throw; [reflexivity|]. step Hreq. reflexivity. }
    reflexivity.
Qed.

(** ** Status store *)

Lemma map_get_set {V} (h k : Webhooks.key) (v : V) m :
  Webhooks.map_get h (Webhooks.map_set k v m)
  = if decide (h = k) then Some v else Webhooks.map_get h m.
Proof.
  induction m as [|[k' v'] m IH]; simpl.
  - destruct (decide (h = k)); [done|]. by destruct (decide (h = k)).
  - destruct (decide (k = k')) as [->|Hkk']; simpl.
    + destruct (decide (h = k')); done.
    + destruct (decide (h = k')) as [->|].
      * by destruct (decide (k' = k)) as [->|].
      * done.
Qed.

Lemma map_get_apply_writes {V} (h : Webhooks.key) (kvs : list (Webhooks.key * V)) m :
  Webhooks.map_get h (apply_writes kvs m)
  = match last_write h kvs with
    | Some v => Some v
    | None => Webhooks.map_get h m
    end.
Proof.
  revert m. induction kvs as [|[k v] r IH]; intros m; [done|].
  simpl. rewrite IH, map_get_set.
  destruct (last_write h r); [done|].
  destruct (decide (h = k)), (decide (k = h)); congruence.
Qed.








Lemma address_activity_writes now network activity s :
  Webhooks.address_activity now network activity s
  = match network with
    | None =>
        (match activity with
         | [] => Ok tt
         | None :: _ =>
             Throw (Webhooks.TypeError "Cannot read properties of null (reading 'hash')")
         | Some _ :: _ =>
             Throw (Webhooks.TypeError
                      "Cannot read properties of undefined (reading 'toUpperCase')")
         end, s)
    | Some n =>
        (loop_end activity,
         {| Webhooks.transactionStatuses :=
              apply_writes
                (map (fun tx => (Webhooks.a_hash tx, Webhooks.activity_status now n tx))
                     (entries_before_null activity))
                (Webhooks.transactionStatuses s);
            Webhooks.notified :=
              Webhooks.notified s
              ++ map (Webhooks.activity_status now n) (entries_before_null activity) |})
    end.
Proof.
  destruct network as [n|]; [|by destruct activity as [|[tx|] rest]].
  revert s. induction activity as [|[tx|] rest IH]; intros s.
  - destruct s. simpl. by rewrite app_nil_r.
  - simpl. unfold Webhooks.upsert. run. rewrite IH. simpl.
    by rewrite <- app_assoc.
  - destruct s. simpl. by rewrite app_nil_r.
Qed.

Lemma activity_keys now1 now2 n (activity : list Webhooks.Activity) :
  (map (fun tx => (Webhooks.a_hash tx, Webhooks.activity_status now1 n tx)) activity).*1
  = (map (fun tx => (Webhooks.a_hash tx, Webhooks.activity_status now2 n tx)) activity).*1.
Proof. induction activity as [|tx rest IH]; [done|]. csimpl. by rewrite IH. Qed.

Lemma keyed_activity now n (activity : list Webhooks.Activity) :
  map (fun st => (Webhooks.txHash st, st)) (map (Webhooks.activity_status now n) activity)
  = map (fun tx => (Webhooks.a_hash tx, Webhooks.activity_status now n tx)) activity.
Proof. induction activity as [|tx rest IH]; [done|]. simpl. by rewrite IH. Qed.

Lemma activity_values now n (activity : list Webhooks.Activity) :
  list_fmap _ _ snd
    (map (fun tx => (Webhooks.a_hash tx, Webhooks.activity_status now n tx)) activity)
  = map (Webhooks.activity_status now n) activity.
Proof. induction activity as [|tx rest IH]; [done|]. simpl. by rewrite IH. Qed.

(** What a handler does to the store does not depend on what the store
    holds: it applies its writes in order and notifies of each. *)
Lemma ingest_writes w now hook s :
  (Webhooks.ingest w now hook s).2
  = {| Webhooks.transactionStatuses :=
         apply_writes (writes_of w now hook) (Webhooks.transactionStatuses s);
       Webhooks.notified :=
         Webhooks.notified s ++ (writes_of w now hook).*2 |}.
Proof.
  destruct s as [m n]. unfold writes_of.
  destruct hook as [req|req|req|req]; destruct req as [sg raw b]; simpl;
    unfold Webhooks.post_alchemy, Webhooks.post_cryptoapis, Webhooks.post_quidax,
      Webhooks.post_trongrid, Webhooks.respond, Webhooks.alchemy_switch,
      Webhooks.cryptoapis_switch, Webhooks.quidax_switch, Webhooks.upsert,
      Webhooks.need_item, Webhooks.need_data;
    run; rewrite ?address_activity_writes.
  all: repeat (match goal with
               | |- context [match ?x with _ => _ end] =>
                   lazymatch type of x with
                   | bool => destruct x
                   | option _ => destruct x
                   | outcome _ => destruct x
                   | list _ => destruct x
                   | sumbool _ _ => destruct x
                   end
               end; simpl; rewrite ?address_activity_writes; simpl).
  all: rewrite ?app_nil_r, ?keyed_activity, ?activity_values; try done.
Qed.









(** ** Resource-model confirmation followed by a drop *)

(** C9: a TronGrid notification whose transaction reports the contract
    return code SUCCESS stores the hash as confirmed with one confirmation
    on chain TRON; a dropped-transaction notification for the same hash
    that passes the signature gate then replaces the whole record: failed,
    zero confirmations, and only the fields of the drop notification. *)
Theorem trongrid_confirmed_then_dropped
    (w : Webhooks.World) (now1 now2 : Z) (hash : string) (s : Webhooks.Store)
    (req1 : Webhooks.Request Webhooks.TronBody)
    (req2 : Webhooks.Request Webhooks.AlchemyBody)
    (tx : Webhooks.TronTransaction) (ev : Webhooks.AlchemyEvent)
    (dropped : Webhooks.AlchemyTransaction) :
  Js.truthy hash = true ->
  Webhooks.tron_transaction (Webhooks.body req1) = Some tx ->
  Webhooks.tt_txID tx = Some hash ->
  Webhooks.tt_contractRet tx = Some "SUCCESS" ->
  Webhooks.production w = false
    \/ Webhooks.verifyAlchemySignature w (Webhooks.rawBody req2) (Webhooks.signature req2)
       = Ok true ->
  Webhooks.alchemy_type (Webhooks.body req2) = Some "DROPPED_TRANSACTION" ->
  Webhooks.alchemy_event (Webhooks.body req2) = Some ev ->
  Webhooks.e_transaction ev = Some dropped ->
  Webhooks.t_hash dropped = Some hash ->
  let s1 := (Webhooks.post_trongrid now1 req1 s).2 in
  let s2 := (Webhooks.post_alchemy w now2 req2 s1).2 in
  Webhooks.get_status hash s1
  = Webhooks.Data200
      {| Webhooks.txHash := Some hash;
         Webhooks.status := Webhooks.confirmed;
         Webhooks.confirmations := 1;
         Webhooks.chain := "TRON";
         Webhooks.timestamp := Js.Num (Js.or_num (Webhooks.tt_timestamp tx) now1);
         Webhooks.fromAddress := Webhooks.tt_owner_address tx;
         Webhooks.toAddress := Webhooks.tt_to_address tx;
         Webhooks.amount := Webhooks.tt_amount tx;
         Webhooks.blockNumber := None;
         Webhooks.blockHash := None |}
  /\ Webhooks.get_status hash s2
     = Webhooks.Data200
         {| Webhooks.txHash := Some hash;
            Webhooks.status := Webhooks.failed;
            Webhooks.confirmations := 0;
            Webhooks.chain := Webhooks.network_or_ethereum ev;
            Webhooks.timestamp := Js.Num now2;
            Webhooks.fromAddress := Webhooks.t_from dropped;
            Webhooks.toAddress := Webhooks.t_to dropped;
            Webhooks.amount := None;
            Webhooks.blockNumber := None;
            Webhooks.blockHash := None |}.
Proof.
  intros Hhash Htx Hid Hret Hsig Hty Hev Hdrop Hdh s1 s2.
  assert (Hs1 : Webhooks.transactionStatuses s1
    = Webhooks.map_set (Some hash)
        {| Webhooks.txHash := Some hash;
           Webhooks.status := Webhooks.confirmed;
           Webhooks.confirmations := 1;
           Webhooks.chain := "TRON";
           Webhooks.timestamp := Js.Num (Js.or_num (Webhooks.tt_timestamp tx) now1);
           Webhooks.fromAddress := Webhooks.tt_owner_address tx;
           Webhooks.toAddress := Webhooks.tt_to_address tx;
           Webhooks.amount := Webhooks.tt_amount tx;
           Webhooks.blockNumber := None;
           Webhooks.blockHash := None |}
        (Webhooks.transactionStatuses s)).
  { subst s1. unfold Webhooks.post_trongrid, Webhooks.respond, Webhooks.upsert. run.
    rewrite Htx. simpl. rewrite Hid, Hret. unfold Js.or_opt. simpl.
    rewrite Hhash. rewrite ?bool_decide_true by done. done. }
  assert (Hs2 : Webhooks.transactionStatuses s2
    = Webhooks.map_set (Some hash)
        {| Webhooks.txHash := Some hash;
           Webhooks.status := Webhooks.failed;
           Webhooks.confirmations := 0;
           Webhooks.chain := Webhooks.network_or_ethereum ev;
           Webhooks.timestamp := Js.Num now2;
           Webhooks.fromAddress := Webhooks.t_from dropped;
           Webhooks.toAddress := Webhooks.t_to dropped;
           Webhooks.amount := None;
           Webhooks.blockNumber := None;
           Webhooks.blockHash := None |}
        (Webhooks.transactionStatuses s1)).
  { subst s2. unfold Webhooks.post_alchemy, Webhooks.respond, Webhooks.alchemy_switch,
      Webhooks.upsert. run.
    rewrite Hty, Hev. simpl. rewrite Hdrop, Hdh.
    destruct Hsig as [-> | Hv]; [done|].
    rewrite Hv. by destruct (Webhooks.production w). }
  unfold Webhooks.get_status. rewrite Hs2, Hs1, !map_get_set.
  by rewrite !decide_True.
Qed.

(** ** Instances on concrete worlds *)

Lemma getQueueStats_partition_witness :
  let '(pending, retrying) := TM.getQueueStats QueueFixtures.two_queued in
  retrying = size (filter (fun kv => 0 < TM.retryCount kv.2)
                     (TM.transactionQueue QueueFixtures.two_queued))
  /\ pending = size (filter (fun kv => TM.retryCount kv.2 = 0)
                       (TM.transactionQueue QueueFixtures.two_queued))
  /\ (pending + retrying)%nat = size (TM.transactionQueue QueueFixtures.two_queued).
Proof.
  apply getQueueStats_partition.
  apply map_Forall_insert_2; [simpl; lia|].
  apply map_Forall_insert_2; [simpl; lia|].
  apply map_Forall_empty.
Defined.

Lemma processQueuedTransaction_bounded_retries_witness :
  Z.of_nat (dispatch_count "a"
              (process_all (replicate 6 (Fixtures.nonce_conflict, 1000, 1000, "a"))
                 QueueFixtures.two_queued)) <= 4.
Proof.
  pose proof (processQueuedTransaction_bounded_retries Fixtures.nonce_conflict
                1000 1000 "a" QueueFixtures.two_queued (QueueFixtures.entry "a" 0)
                eq_refl) as [_ H].
  apply (H ltac:(simpl; lia)).
Defined.

Lemma sendEVMTransaction_insufficient_native_witness :
  let w := Fixtures.evm true (Fixtures.ether 1) (Fixtures.ether 1) (Ok 5) (Ok 21000)
             (Ok Fixtures.fees) (Ok "0xhash") in
  let send := TM.sendEVMTransaction w 1000 "ETHEREUM" "enc" Fixtures.recipient
                "1.5" "ETH" TM.standard Fixtures.empty_store in
  send.1 = Ok (TM.failure
                 "Insufficient ETH balance. Have: 1000000000000000000 wei, Need: 1.5"
                 false)
  /\ submissions send.2 = [].
Proof.
  intros w send.
  pose proof (sendEVMTransaction_insufficient_native w 1000 "ETHEREUM" "enc"
                Fixtures.recipient "1.5" "ETH" TM.standard Fixtures.empty_store
                {| TM.nonceCache := ∅; TM.trace := [TM.EvGetBlockNumber Fixtures.llama] |}
                {| TM.rpc := [Fixtures.llama; "https://rpc.ankr.com/eth";
                              "https://cloudflare-eth.com"];
                   TM.chainId := 1; TM.nativeCurrency := "ETH";
                   TM.explorer := "https://etherscan.io/tx/";
                   TM.gasMultiplierPct := 120 |}
                Fixtures.key64 Fixtures.llama Fixtures.sender 1500000000000000000
                eq_refl eq_refl ltac:(vm_compute; lia) eq_refl eq_refl eq_refl
                eq_refl eq_refl) as [H _].
  apply (H (Fixtures.ether 1) eq_refl ltac:(vm_compute; reflexivity)).
Defined.

Lemma thrown_failure_classification_witness :
  (TM.sendEVMTransaction Fixtures.nonce_conflict 1000 "ETHEREUM" "enc"
     Fixtures.recipient "1.5" "ETH" TM.standard Fixtures.stale_store).1
  = Ok (TM.failure "nonce too low" true).
Proof.
  eapply (proj1 thrown_failure_classification Fixtures.nonce_conflict 1000 "ETHEREUM"
            "enc" Fixtures.recipient "1.5" "ETH" TM.standard _ Fixtures.stale_store
            (Js.Error "nonce too low")).
  - reflexivity.
  - vm_compute. reflexivity.
Defined.


Lemma balance_never_throws_witness :
  (TM.getEVMBalanceRobust
     (Fixtures.evm false 0 0 (Ok 0) (Ok 21000) (Ok Fixtures.fees) (Ok "0xhash"))
     "ETHEREUM" Fixtures.sender "ETH" Fixtures.empty_store).1
  = Ok {| TM.balance := "0";
          TM.balance_error := Some "All RPC endpoints failed for ETHEREUM" |}.
Proof.
  pose proof (proj1 balance_never_throws
                (Fixtures.evm false 0 0 (Ok 0) (Ok 21000) (Ok Fixtures.fees) (Ok "0xhash"))
                "ETHEREUM" Fixtures.sender "ETH" Fixtures.empty_store) as H.
  simpl in H. apply (proj2 H).
  intros u _. eexists. reflexivity.
Defined.

Lemma getTronBalance_loses_thrown_text_witness :
  (Tron.getTronBalance
     (Fixtures.tron (Throw (Fixtures.thrown_string "Invalid address provided"))
        Fixtures.tron_accepts)
     "not-an-address" "TRX" []).1
  = Ok {| TM.balance := "0"; TM.balance_error := None |}.
Proof.
  apply (getTronBalance_loses_thrown_text
           (Fixtures.tron (Throw (Fixtures.thrown_string "Invalid address provided"))
              Fixtures.tron_accepts)
           "not-an-address" "TRX" []
           (Fixtures.thrown_string "Invalid address provided")).
  - reflexivity.
  - reflexivity.
Defined.

Lemma fee_estimation_fallbacks_witness :
  exists r,
    (TM.estimateTransactionFee FeeFixtures.no_gas_estimate "ETHEREUM" Fixtures.sender
       Fixtures.recipient "1.5" "ETH" Fixtures.empty_store).1 = Ok r
    /\ TM.fe_success r = true /\ TM.fe_gasLimit r = Some (pretty 21000).
Proof.
  eexists. split; [|split].
  - apply (proj1 fee_estimation_fallbacks FeeFixtures.no_gas_estimate "ETHEREUM"
             Fixtures.sender Fixtures.recipient "1.5" "ETH" Fixtures.empty_store
             {| TM.rpc := [Fixtures.llama; "https://rpc.ankr.com/eth";
                           "https://cloudflare-eth.com"];
                TM.chainId := 1; TM.nativeCurrency := "ETH";
                TM.explorer := "https://etherscan.io/tx/";
                TM.gasMultiplierPct := 120 |}
             Fixtures.llama
             {| TM.nonceCache := ∅; TM.trace := [TM.EvGetBlockNumber Fixtures.llama] |}
             {| TM.tx_to := Some Fixtures.recipient; TM.tx_from := Some Fixtures.sender;
                TM.tx_value := Some 1500000000000000000; TM.tx_data := None;
                TM.tx_nonce := None; TM.tx_gasLimit := None;
                TM.tx_maxFeePerGas := None; TM.tx_maxPriorityFeePerGas := None;
                TM.tx_chainId := None; TM.tx_type := None |}
             (Js.Error "execution reverted") Fixtures.fees
             eq_refl eq_refl eq_refl eq_refl eq_refl).
  - reflexivity.
  - reflexivity.
Defined.

Lemma trongrid_confirmed_then_dropped_witness :
  let s1 := (Webhooks.post_trongrid 1000 (HookFixtures.tron_success "f00d")
               HookFixtures.empty).2 in
  let s2 := (Webhooks.post_alchemy HookFixtures.dev 2000 (HookFixtures.dropped "f00d") s1).2 in
  (exists st, Webhooks.get_status "f00d" s1 = Webhooks.Data200 st
              /\ Webhooks.status st = Webhooks.confirmed
              /\ Webhooks.confirmations st = 1)
  /\ (exists st, Webhooks.get_status "f00d" s2 = Webhooks.Data200 st
                 /\ Webhooks.status st = Webhooks.failed
                 /\ Webhooks.confirmations st = 0
                 /\ Webhooks.amount st = None).
Proof.
  intros s1 s2.
  destruct (trongrid_confirmed_then_dropped HookFixtures.dev 1000 2000 "f00d"
              HookFixtures.empty (HookFixtures.tron_success "f00d")
              (HookFixtures.dropped "f00d") _ _ _
              eq_refl eq_refl eq_refl eq_refl (or_introl eq_refl)
              eq_refl eq_refl eq_refl eq_refl) as [H1 H2].
  split; eexists; (split; [eassumption|by simpl]).
Defined.

(** * Further properties *)

(** ** Endpoint failover *)

(** X1: the provider pool returns the first endpoint, in configured order,
    whose liveness probe answers; the endpoints before it are each probed
    once, those after it are not contacted, and the nonce cache is left
    alone. *)
Theorem getProvider_first_live (w : TM.World) (chain : string) (config : TM.ChainConfig)
    (down : list string) (live : string) (rest : list string) (height : Z) (s : TM.Store) :
  TM.CHAIN_CONFIG w chain = Some config ->
  TM.rpc config = down ++ live :: rest ->
  (forall u, u ∈ down -> exists e, TM.getBlockNumber w u = Throw e) ->
  TM.getBlockNumber w live = Ok height ->
  TM.getProvider w chain s
  = (Ok live, {| TM.nonceCache := TM.nonceCache s;
                 TM.trace := TM.trace s ++ map TM.EvGetBlockNumber (down ++ [live]) |}).
Proof.
  intros Hcfg Hrpc Hdown Hlive. unfold TM.getProvider. rewrite Hcfg, Hrpc.
  clear Hcfg Hrpc. revert s.
  induction down as [|u down IH]; intros s; simpl.
  - erewrite try_catch_ok; [reflexivity|]. step Hlive. reflexivity.
  - destruct (Hdown u) as [e He]; [left|].
    erewrite try_catch_throw by (step He; reflexivity).
    rewrite IH by (intros v Hv; apply Hdown; by right).
    simpl. by rewrite <- app_assoc.
Qed.

Lemma getProvider_first_live_witness :
  (TM.getProvider
     {| TM.env := fun _ => None;
        TM.decrypt := fun _ => Ok Fixtures.key64;
        TM.getBlockNumber :=
          fun u => if String.eqb u "https://rpc.ankr.com/eth" then Ok 19000000
                   else Throw (Js.Error "connect ECONNREFUSED");
        TM.network_chainId := fun _ => Some 1;
        TM.wallet_address := fun _ => Ok Fixtures.sender;
        TM.amount_positive := fun _ => true;
        TM.parseEther := fun _ => Ok 1;
        TM.parseUnits := fun _ _ => Ok 1;
        TM.formatEther := fun z => pretty z;
        TM.formatUnits := fun z _ => pretty z;
        TM.balanceOf := fun _ _ _ => Ok 0;
        TM.populateTransfer := fun _ _ _ => Ok "";
        TM.encodeTransfer := fun _ _ => Ok "";
        TM.getBalance := fun _ _ _ => Ok 0;
        TM.getTransactionCount := fun _ _ => Ok 0;
        TM.estimateGas_rpc := fun _ _ => Ok 21000;
        TM.getFeeData := fun _ => Ok Fixtures.fees;
        TM.signTransaction := fun _ _ => Ok "";
        TM.broadcastTransaction := fun _ _ => Ok "" |}
     "ETHEREUM" Fixtures.empty_store).1
  = Ok "https://rpc.ankr.com/eth".
Proof.
  erewrite (getProvider_first_live _ "ETHEREUM" _ [Fixtures.llama]
              "https://rpc.ankr.com/eth" ["https://cloudflare-eth.com"] 19000000).
  - reflexivity.
  - reflexivity.
  - reflexivity.
  - intros u Hu. apply list_elem_of_singleton in Hu as ->. eexists. reflexivity.
  - reflexivity.
Defined.

(** ** Nonce arbitration *)

Lemma cacheKey_invalidate w provider address c :
  TM.network_chainId w provider = Some c -> c <> 0 ->
  TM.cacheKey w provider address = pretty c +:+ "-" +:+ Js.toLowerCase address.
Proof.
  intros Hc Hne. unfold TM.cacheKey, TM.network_tag. rewrite Hc.
  by apply Z.eqb_neq in Hne as ->.
Qed.

(** X2: after [invalidateNonceCache] for the provider's chain id and the
    sender's address, the next allocation for that sender returns the
    provider's pending count, whatever the cache held before. *)
Theorem invalidate_then_allocate (w : TM.World) (now c count : Z)
    (provider address : string) (s : TM.Store) :
  TM.network_chainId w provider = Some c -> c <> 0 ->
  TM.getTransactionCount w provider address = Ok count ->
  (TM.getNextNonce w now provider address (TM.invalidateNonceCache c address s).2).1
  = Ok count.
Proof.
  intros Hc Hne Hcount.
  set (s1 := (TM.invalidateNonceCache c address s).2).
  assert (Hs1 : TM.nonceCache s1 !! TM.cacheKey w provider address = None).
  { rewrite (cacheKey_invalidate _ _ _ c) by done. apply lookup_delete_eq. }
  rewrite getNextNonce_run. cbv zeta. by rewrite Hcount, Hs1.
Qed.

Lemma invalidate_then_allocate_witness :
  (TM.getNextNonce Fixtures.nonce_conflict 1000 Fixtures.llama Fixtures.sender
     (TM.invalidateNonceCache 1 Fixtures.sender Fixtures.stale_store).2).1 = Ok 5.
Proof.
  apply (invalidate_then_allocate Fixtures.nonce_conflict 1000 1 5).
  - reflexivity.
  - lia.
  - reflexivity.
Defined.

Lemma run_cons (start : Z) (n : nat) :
  (fun i => start + i) <$> seqZ 0 (Z.of_nat (S n))
  = start :: ((fun i => start + 1 + i) <$> seqZ 0 (Z.of_nat n)).
Proof.
  rewrite Nat2Z.inj_succ, seqZ_cons by lia. rewrite Z.pred_succ.
  rewrite fmap_cons. rewrite Z.add_0_r. f_equal.
  replace (Z.succ 0) with (1 + 0) by lia.
  rewrite <- fmap_add_seqZ, <- list_fmap_compose.
  apply list_fmap_ext. intros ? i ?. simpl. lia.
Qed.

Lemma allocate_all_run w provider address count nows :
  TM.getTransactionCount w provider address = Ok count ->
  forall prev cached s,
    TM.nonceCache s !! TM.cacheKey w provider address
      = Some {| TM.nonce := cached; TM.timestamp := prev |} ->
    count <= cached ->
    within_ttl prev nows ->
    (allocate_all w provider address nows s).1
    = Ok ((fun i => cached + i) <$> seqZ 0 (Z.of_nat (length nows))).
Proof.
  intros Hcount. induction nows as [|now rest IH]; intros prev cached s Hs Hle Hok.
  - done.
  - destruct Hok as [Hgap Hrest]. simpl allocate_all.
    pose proof (getNextNonce_run w now provider address s) as H.
    simpl in H. rewrite Hcount, Hs in H.
    unfold allocate_rule in H. simpl in H.
    unfold TM.NONCE_CACHE_TTL in Hgap.
    rewrite bool_decide_true in H by done.
    rewrite Z.max_l in H by done.
    step H.
    specialize (IH now (cached + 1)
      {| TM.nonceCache :=
           <[TM.cacheKey w provider address :=
               {| TM.nonce := cached + 1; TM.timestamp := now |}]> (TM.nonceCache s);
         TM.trace := TM.trace s ++ [TM.EvGetTransactionCount provider address] |}).
    cbn [TM.nonceCache] in IH. rewrite lookup_insert_eq in IH.
    specialize (IH eq_refl ltac:(lia) Hrest).
    destruct (allocate_all w provider address rest _) as [o s'] eqn:Hrun.
    simpl in IH. subst o. step Hrun.
    change (length (now :: rest)) with (S (length rest)).
    by rewrite run_cons.
Qed.

(** X3: while the provider keeps reporting the same pending count and each
    call comes less than 30 seconds after the one before, successive
    sequential allocations for one sender are pairwise distinct and form a
    contiguous ascending run starting at the first allocation. *)
Theorem sequential_allocations_contiguous (w : TM.World) (provider address : string)
    (count first : Z) (nows : list Z) (s : TM.Store) :
  TM.getTransactionCount w provider address = Ok count ->
  within_ttl first nows ->
  let start := allocate_rule (TM.nonceCache s !! TM.cacheKey w provider address)
                 first count in
  (allocate_all w provider address (first :: nows) s).1
  = Ok ((fun i => start + i) <$> seqZ 0 (Z.of_nat (S (length nows)))).
Proof.
  intros Hcount Hok start. simpl allocate_all.
  pose proof (getNextNonce_run w first provider address s) as H.
  simpl in H. rewrite Hcount in H. fold start in H.
  pose proof (allocate_rule_lower_bound
                (TM.nonceCache s !! TM.cacheKey w provider address) first count)
    as Hle.
  fold start in Hle.
  step H.
  pose proof (allocate_all_run w provider address count nows Hcount first (start + 1)
    {| TM.nonceCache :=
         <[TM.cacheKey w provider address :=
             {| TM.nonce := start + 1; TM.timestamp := first |}]> (TM.nonceCache s);
       TM.trace := TM.trace s ++ [TM.EvGetTransactionCount provider address] |}) as Hrun.
  cbn [TM.nonceCache] in Hrun. rewrite lookup_insert_eq in Hrun.
  specialize (Hrun eq_refl ltac:(lia) Hok).
  destruct (allocate_all w provider address nows _) as [o s'] eqn:Hall.
  simpl in Hrun. subst o. step Hall.
  by rewrite run_cons.
Qed.

Lemma sequential_allocations_contiguous_witness :
  (allocate_all Fixtures.nonce_conflict Fixtures.llama Fixtures.sender
     [1000; 2000; 3000] Fixtures.empty_store).1 = Ok [5; 6; 7].
Proof.
  apply (sequential_allocations_contiguous Fixtures.nonce_conflict Fixtures.llama
           Fixtures.sender 5 1000 [2000; 3000] Fixtures.empty_store eq_refl).
  simpl. unfold TM.NONCE_CACHE_TTL. lia.
Defined.

(** ** Gas and fee buffers *)

Lemma CHAIN_CONFIG_multiplier w chain config :
  TM.CHAIN_CONFIG w chain = Some config ->
  110 <= TM.gasMultiplierPct config <= 130.
Proof.
  unfold TM.CHAIN_CONFIG.
  destruct (String.eqb chain "ETHEREUM"); [intros [= <-]; simpl; lia|].
  destruct (String.eqb chain "BSC"); [intros [= <-]; simpl; lia|].
  destruct (String.eqb chain "POLYGON"); [intros [= <-]; simpl; lia|done].
Qed.

Lemma quot_buffer (v pct : Z) : 0 <= v -> 100 <= pct -> v <= Z.quot (v * pct) 100.
Proof.
  intros Hv Hp. rewrite Z.quot_div_nonneg by nia.
  apply Z.div_le_lower_bound; nia.
Qed.

(** X4: on a supported chain a successful gas estimate is only ever raised
    by the buffers.  The returned limit is the provider's estimate times
    the chain's multiplier (between 110% and 130%), truncated; each fee
    level the provider reports is returned times 120 over 100, truncated,
    so with 20% added and never lowered; a level the provider does not
    report (or reports as zero) is replaced by 50 gwei, or 2 gwei for the
    priority fee; the cost shown is the limit times the buffered fee. *)
Theorem estimateGas_never_lowers (w : TM.World) (provider chain : string)
    (tx : TM.TransactionRequest) (s : TM.Store) (config : TM.ChainConfig)
    (g : Z) (fd : TM.FeeData) :
  TM.CHAIN_CONFIG w chain = Some config ->
  TM.estimateGas_rpc w provider tx = Ok g -> 0 <= g ->
  TM.getFeeData w provider = Ok fd ->
  exists r s',
    TM.estimateGas w provider chain tx s = (Ok r, s')
    /\ 110 <= TM.gasMultiplierPct config <= 130
    /\ TM.gasLimit r = Z.quot (g * TM.gasMultiplierPct config) 100
    /\ g <= TM.gasLimit r
    /\ TM.maxFeePerGas r
       = match TM.fd_maxFeePerGas fd with
         | Some v => if v =? 0 then 50 * 10 ^ 9 else Z.quot (v * 120) 100
         | None => 50 * 10 ^ 9
         end
    /\ TM.maxPriorityFeePerGas r
       = match TM.fd_maxPriorityFeePerGas fd with
         | Some v => if v =? 0 then 2 * 10 ^ 9 else Z.quot (v * 120) 100
         | None => 2 * 10 ^ 9
         end
    /\ (forall v, TM.fd_maxFeePerGas fd = Some v -> 0 < v -> v <= TM.maxFeePerGas r)
    /\ (forall v, TM.fd_maxPriorityFeePerGas fd = Some v -> 0 < v ->
                  v <= TM.maxPriorityFeePerGas r)
    /\ TM.estimatedCost r = TM.formatEther w (TM.gasLimit r * TM.maxFeePerGas r).
Proof.
  intros Hcfg Hgas Hg Hfee. eexists _, _. split.
  - unfold TM.estimateGas. rewrite Hcfg.
    erewrite bind_ok.
    2:{ erewrite try_catch_ok; [reflexivity|]. step Hgas. reflexivity. }
    cbv beta. step Hfee. reflexivity.
  - simpl. pose proof (CHAIN_CONFIG_multiplier _ _ _ Hcfg).
    split; [done|]. split; [done|]. split; [apply quot_buffer; lia|].
    unfold TM.buffered_fee, TM.gwei.
    split; [done|]. split; [done|]. split; [|split; [|done]];
      intros v -> Hv; (destruct (Z.eqb_spec v 0); [lia|]);
      apply quot_buffer; lia.
Qed.

Lemma estimateGas_never_lowers_witness :
  exists r s',
    TM.estimateGas Fixtures.nonce_conflict Fixtures.llama "ETHEREUM"
      FeeFixtures.plain_transfer Fixtures.empty_store = (Ok r, s')
    /\ TM.gasLimit r = 25200.
Proof.
  destruct (estimateGas_never_lowers Fixtures.nonce_conflict Fixtures.llama "ETHEREUM"
              FeeFixtures.plain_transfer Fixtures.empty_store _ 21000 Fixtures.fees
              eq_refl eq_refl ltac:(lia) eq_refl) as (r & s' & H & _ & Hl & _).
  exists r, s'. split; [exact H|]. rewrite Hl. reflexivity.
Defined.

(** ** Dispatcher boundary *)

Lemma sendTronTransaction_returns w key to amount symbol t :
  exists r t', Tron.sendTronTransaction w key to amount symbol t = (Ok r, t').
Proof.
  unfold Tron.sendTronTransaction, try_catch.
  destruct (Tron.sendTronTransaction_try _ _ _ _ _ t) as [[r|e] t']; by eexists _, _.
Qed.

Lemma sendUTXOTransaction_returns w chain xpub wif to amount fee t :
  exists r t', UTXO.sendUTXOTransaction w chain xpub wif to amount fee t = (Ok r, t').
Proof.
  unfold UTXO.sendUTXOTransaction.
  destruct (UTXO.CHAIN_CONFIG w chain); [|by eexists _, _].
  unfold try_catch.
  destruct (UTXO.sendUTXOTransaction_try _ _ _ _ _ _ _ _ t) as [[r|e] t'];
    by eexists _, _.
Qed.

(** X5: no dispatcher throws: whatever the environment answers, each of
    the three send operations returns a result record. *)
Theorem dispatchers_never_throw :
  (forall w now chain key to amount symbol fee s,
      exists r s', TM.sendEVMTransaction w now chain key to amount symbol fee s = (Ok r, s'))
  /\ (forall w key to amount symbol t,
      exists r t', Tron.sendTronTransaction w key to amount symbol t = (Ok r, t'))
  /\ (forall w chain xpub wif to amount fee t,
      exists r t', UTXO.sendUTXOTransaction w chain xpub wif to amount fee t = (Ok r, t')).
Proof.
  split; [|split]; intros.
  - apply sendEVMTransaction_returns.
  - apply sendTronTransaction_returns.
  - apply sendUTXOTransaction_returns.
Qed.

(** ** Nothing is submitted before the balance checks pass *)

Lemma build_transfer_frame w provider address chain to amount symbol s r s' :
  TM.build_transfer w provider address chain to amount symbol s = (r, s') ->
  submissions s' = submissions s /\ TM.nonceCache s' = TM.nonceCache s.
Proof.
  unfold TM.build_transfer, TM.call, TM.log. run.
  destruct (TM.ERC20_TOKENS chain symbol) as [tc|].
  - destruct (TM.parseUnits w amount _); simpl; [|by intros [= _ <-]].
    destruct (TM.balanceOf w provider _ address) as [b|]; simpl;
      [|intros [= _ <-]; split; [by apply submissions_log|done]].
    destruct (b <? _); simpl;
      [intros [= _ <-]; split; [by apply submissions_log|done]|].
    destruct (TM.populateTransfer w _ to _); simpl;
      intros [= _ <-]; (split; [by apply submissions_log|done]).
  - destruct (TM.parseEther w amount); simpl; [|by intros [= _ <-]].
    destruct (TM.getBalance w 0%nat provider address) as [b|]; simpl;
      [|intros [= _ <-]; split; [by apply submissions_log|done]].
    destruct (b <? _); simpl;
      intros [= _ <-]; (split; [by apply submissions_log|done]).
Qed.

Lemma build_transfer_checked w provider address chain to amount symbol s tx s' :
  TM.build_transfer w provider address chain to amount symbol s = (Ok (inr tx), s') ->
  match TM.ERC20_TOKENS chain symbol with
  | Some tokenConfig =>
      exists tokenAmount balance,
        TM.parseUnits w amount (TM.decimals tokenConfig) = Ok tokenAmount
        /\ TM.balanceOf w provider (TM.token_address tokenConfig) address = Ok balance
        /\ tokenAmount <= balance
  | None =>
      exists amountWei balance,
        TM.parseEther w amount = Ok amountWei
        /\ TM.getBalance w 0%nat provider address = Ok balance
        /\ amountWei <= balance
        /\ TM.tx_value tx = Some amountWei
  end.
Proof.
  unfold TM.build_transfer, TM.call, TM.log. run.
  destruct (TM.ERC20_TOKENS chain symbol) as [tc|].
  - destruct (TM.parseUnits w amount _) as [ta|]; simpl; [|done].
    destruct (TM.balanceOf w provider _ address) as [b|]; simpl; [|done].
    destruct (Z.ltb_spec b ta); simpl; [done|].
    destruct (TM.populateTransfer w _ to _); simpl; [|done].
    intros _. by exists ta, b.
  - destruct (TM.parseEther w amount) as [wei|]; simpl; [|done].
    destruct (TM.getBalance w 0%nat provider address) as [b|]; simpl; [|done].
    destruct (Z.ltb_spec b wei); simpl; [done|].
    intros [= <- _]. by exists wei, b.
Qed.

(** X6: whenever a run of the account-model dispatcher adds a signing or
    broadcast event to the trace, every step before it succeeded and the
    balance checks passed for the sender's own address: the key decrypted,
    the pool returned a provider, the address is the one derived from the
    key, the nonce was allocated and the gas estimated for the request
    with that nonce.  For a native asset the balance the provider reported
    first covered the amount, and the balance it reported at the gas check
    covered the amount plus the estimated gas limit times the estimated
    fee at the requested fee level; for a token the token balance of the
    sender covered the token amount. *)
Theorem submission_implies_checks (w : TM.World) (now : Z)
    (chain encryptedPrivateKey toAddress amount symbol : string)
    (feeLevel : TM.FeeLevel) (s : TM.Store) :
  submissions (TM.sendEVMTransaction w now chain encryptedPrivateKey toAddress
                 amount symbol feeLevel s).2 <> submissions s ->
  exists config privateKey provider s1 address tx0 s2 nonce s3 gasEstimate s4,
    TM.CHAIN_CONFIG w chain = Some config
    /\ TM.decrypt w encryptedPrivateKey = Ok privateKey
    /\ TM.getProvider w chain s = (Ok provider, s1)
    /\ TM.wallet_address w privateKey = Ok address
    /\ TM.build_transfer w provider address chain toAddress amount symbol s1
       = (Ok (inr tx0), s2)
    /\ TM.getNextNonce w now provider address s2 = (Ok nonce, s3)
    /\ TM.estimateGas w provider chain
         {| TM.tx_to := TM.tx_to tx0; TM.tx_from := TM.tx_from tx0;
            TM.tx_value := TM.tx_value tx0; TM.tx_data := TM.tx_data tx0;
            TM.tx_nonce := Some nonce; TM.tx_gasLimit := None;
            TM.tx_maxFeePerGas := None; TM.tx_maxPriorityFeePerGas := None;
            TM.tx_chainId := None; TM.tx_type := None |} s3
       = (Ok gasEstimate, s4)
    /\ match TM.ERC20_TOKENS chain symbol with
       | Some tokenConfig =>
           exists tokenAmount balance,
             TM.parseUnits w amount (TM.decimals tokenConfig) = Ok tokenAmount
             /\ TM.balanceOf w provider (TM.token_address tokenConfig) address
                = Ok balance
             /\ tokenAmount <= balance
       | None =>
           exists amountWei balance balance',
             TM.parseEther w amount = Ok amountWei
             /\ TM.getBalance w 0%nat provider address = Ok balance
             /\ amountWei <= balance
             /\ TM.getBalance w 1%nat provider address = Ok balance'
             /\ amountWei + TM.gasLimit gasEstimate *
                  Z.quot (TM.maxFeePerGas gasEstimate * TM.feeMultiplier feeLevel) 100
                <= balance'
       end.
Proof.
  unfold TM.sendEVMTransaction.
  destruct (TM.CHAIN_CONFIG w chain) as [config|]; [|done].
  assert (Hcatch : forall e s0, submissions (TM.sendEVMTransaction_catch config e s0).2
                                = submissions s0).
  { intros e s0. unfold TM.sendEVMTransaction_catch, TM.invalidateNonceCache,
      TM.cache_delete. by destruct (Js.includes _ "nonce"). }
  unfold try_catch, TM.sendEVMTransaction_try.
  unfold bind at 1, lift at 1.
  destruct (TM.decrypt w encryptedPrivateKey) as [privateKey|e] eqn:Hkey;
    [|by rewrite Hcatch].
  destruct (negb (Js.truthy privateKey) || (String.length privateKey <? 64)%nat);
    [done|].
  unfold bind at 1.
  destruct (TM.getProvider w chain s) as [[provider|e] s1] eqn:Hprov;
    pose proof (getProvider_frame _ _ _ _ _ Hprov) as [Hf1 _];
    [|by rewrite Hcatch].
  unfold bind at 1, lift at 1.
  destruct (TM.wallet_address w privateKey) as [address|e] eqn:Haddr;
    [|by rewrite Hcatch].
  destruct (negb (TM.amount_positive w amount)); [done|].
  unfold bind at 1.
  destruct (TM.build_transfer w provider address chain toAddress amount symbol s1)
    as [[[early|tx0]|e] s2] eqn:Hbuild;
    pose proof (build_transfer_frame _ _ _ _ _ _ _ _ _ _ Hbuild) as [Hf2 _];
    [unfold ret; simpl; congruence | | rewrite Hcatch; congruence].
  pose proof (build_transfer_checked _ _ _ _ _ _ _ _ _ _ Hbuild) as Hchk.
  unfold bind at 1.
  destruct (TM.getNextNonce w now provider address s2) as [[nonce|e] s3] eqn:Hnonce;
    pose proof (getNextNonce_submissions _ _ _ _ _ _ _ Hnonce) as Hf3;
    [|rewrite Hcatch; congruence].
  unfold bind at 1.
  destruct (TM.estimateGas w provider chain _ s3) as [[ge|e] s4] eqn:Hgas;
    pose proof (estimateGas_submissions _ _ _ _ _ _ _ Hgas) as Hf4;
    [|rewrite Hcatch; congruence].
  intros Hsub.
  exists config, privateKey, provider, s1, address, tx0, s2, nonce, s3, ge, s4.
  do 7 (split; [done|]).
  destruct (TM.ERC20_TOKENS chain symbol) as [tc|]; [exact Hchk|].
  destruct Hchk as (wei & b0 & Hparse & Hb0 & Hle & Hval).
  rewrite bool_decide_false in Hsub by (by intros [? ?]).
  revert Hsub. unfold TM.call, TM.log. run.
  destruct (TM.getBalance w 1%nat provider address) as [b1|e] eqn:Hb1; simpl.
  2:{ rewrite Hcatch. rewrite submissions_log by done. congruence. }
  rewrite Hval. simpl.
  destruct (Z.ltb_spec b1 (wei + TM.gasLimit ge *
              Z.quot (TM.maxFeePerGas ge * TM.feeMultiplier feeLevel) 100)); simpl.
  { intros Hsub. exfalso. apply Hsub.
    rewrite submissions_log by done. congruence. }
  intros _. by exists wei, b0, b1.
Qed.

Lemma submission_implies_checks_witness :
  exists gasEstimate s3 s4 tx,
    TM.estimateGas
      (Fixtures.evm true (Fixtures.ether 2) (Fixtures.ether 2) (Ok 5) (Ok 21000)
         (Ok Fixtures.fees) (Ok "0xhash"))
      Fixtures.llama "ETHEREUM" tx s3 = (Ok gasEstimate, s4)
    /\ Fixtures.ether 1 + Fixtures.ether 1 / 2
       + TM.gasLimit gasEstimate *
           Z.quot (TM.maxFeePerGas gasEstimate * TM.feeMultiplier TM.standard) 100
       <= Fixtures.ether 2.
Proof.
  destruct (submission_implies_checks
              (Fixtures.evm true (Fixtures.ether 2) (Fixtures.ether 2) (Ok 5) (Ok 21000)
                 (Ok Fixtures.fees) (Ok "0xhash"))
              1000 "ETHEREUM" "enc" Fixtures.recipient "1.5" "ETH" TM.standard
              Fixtures.empty_store)
    as (config & privateKey & provider & s1 & address & tx0 & s2 & nonce & s3
        & ge & s4 & Hcfg & Hkey & Hprov & Haddr & Hbuild & Hnonce & Hgas & Hchk).
  - vm_compute. discriminate.
  - vm_compute in Hprov. injection Hprov as <- <-.
    simpl in Hchk. destruct Hchk as (wei & b0 & b1 & Hwei & Hb0 & Hle & Hb1 & Hcost).
    injection Hwei as <-. injection Hb1 as <-.
    eexists ge, s3, s4, _. split; [exact Hgas|]. exact Hcost.
Defined.

(** ** Retry queue: invariants and replies *)

Lemma queue_inv_step op qs :
  queue_inv (TM.transactionQueue qs) -> queue_inv (TM.transactionQueue (run_op op qs)).
Proof.
  intros Hinv. destruct op as [now id chain from to amount symbol key maxRetries
                              | w nonce_now now id]; simpl.
  - unfold TM.queueTransaction, TM.queue_set. run.
    apply map_Forall_insert_2; [|done]. simpl. split; [done|]. lia.
  - destruct (TM.transactionQueue qs !! id) as [q|] eqn:Hq.
    2:{ by rewrite processQueuedTransaction_missing. }
    destruct (processQueuedTransaction_found w nonce_now now id qs q Hq)
      as (result & inner' & _ & ->). simpl.
    destruct (Hinv id q Hq) as (Hid & Hrc & Hmax).
    destruct (TM.success result); [by apply map_Forall_delete|].
    destruct (bool_decide _ && _) eqn:Hb; [|by apply map_Forall_delete].
    apply andb_true_iff in Hb as [_ Hlt]. apply Z.ltb_lt in Hlt.
    apply map_Forall_insert_2; [|done]. simpl. split; [done|]. lia.
Qed.

(** X7: starting from an empty queue, whatever sequence of
    [queueTransaction] and [processQueuedTransaction] calls is issued,
    every queued entry is stored under its own id, has a non-negative
    retry count, and never exceeds a non-negative retry limit. *)
Theorem queue_invariant (ops : list QueueOp) (qs : TM.QStore) :
  TM.transactionQueue qs = ∅ ->
  queue_inv (TM.transactionQueue (run_ops ops qs)).
Proof.
  intros Hempty.
  assert (Hinv : queue_inv (TM.transactionQueue qs)).
  { rewrite Hempty. apply map_Forall_empty. }
  clear Hempty. revert qs Hinv. unfold run_ops.
  induction ops as [|op ops IH]; intros qs Hinv; [done|].
  simpl. apply IH. by apply queue_inv_step.
Qed.

Lemma queue_invariant_witness :
  queue_inv (TM.transactionQueue
    (run_ops [Enqueue 0 "a" "ETHEREUM" "" Fixtures.recipient "1.5" "ETH" "enc" 3;
              Process Fixtures.nonce_conflict 1000 1000 "a"]
       {| TM.transactionQueue := ∅; TM.dispatched := [];
          TM.inner := Fixtures.empty_store |})).
Proof. apply queue_invariant. reflexivity. Defined.

Lemma dispatch_count_mono w nonce_now now id' id qs :
  (dispatch_count id qs
   <= dispatch_count id (TM.processQueuedTransaction w nonce_now now id' qs).2)%nat.
Proof.
  destruct (TM.transactionQueue qs !! id') as [q|] eqn:Hq.
  2:{ by rewrite processQueuedTransaction_missing. }
  destruct (processQueuedTransaction_found w nonce_now now id' qs q Hq)
    as (result & inner' & _ & ->).
  rewrite dispatch_count_app. lia.
Qed.

(** X8: once an id is absent from the queue (never queued, or removed
    after success or a terminal failure), no sequence of
    [processQueuedTransaction] calls dispatches it again, and a call for
    it answers "Transaction not found in queue", not retryable, leaving
    the store as it was. *)
Theorem removed_entry_never_dispatched (id : string) (qs : TM.QStore)
    (calls : list (TM.World * Z * Z * string)) (w : TM.World) (nonce_now now : Z) :
  TM.transactionQueue qs !! id = None ->
  dispatch_count id (process_all calls qs) = dispatch_count id qs
  /\ TM.processQueuedTransaction w nonce_now now id qs
     = (Ok (TM.failure "Transaction not found in queue" false), qs).
Proof.
  intros Hq. split; [|by apply processQueuedTransaction_missing].
  apply Nat.le_antisymm.
  - pose proof (process_all_budget calls id qs) as H.
    unfold budget in H. rewrite Hq in H. lia.
  - clear Hq. revert qs. induction calls as [|[[[w' t1] t2] id'] rest IH]; intros qs.
    + done.
    + simpl. etrans; [|apply IH]. apply dispatch_count_mono.
Qed.

Lemma removed_entry_never_dispatched_witness :
  dispatch_count "zz"
    (process_all (replicate 3 (Fixtures.nonce_conflict, 1000, 1000, "zz"))
       QueueFixtures.two_queued)
  = dispatch_count "zz" QueueFixtures.two_queued.
Proof.
  apply (removed_entry_never_dispatched "zz" QueueFixtures.two_queued _
           Fixtures.nonce_conflict 0 0 eq_refl).
Defined.

(** X9: the reply of [processQueuedTransaction] for a queued entry: when
    the dispatch fails retryably and retries remain, the reply keeps the
    dispatcher's fields, names the queue id and appends the retry that was
    scheduled to the error text; in every other case the dispatcher's
    result is passed on unchanged. *)
Theorem processQueuedTransaction_reply (w : TM.World) (nonce_now now : Z)
    (id : string) (qs : TM.QStore) (q : TM.QueuedTransaction) :
  TM.transactionQueue qs !! id = Some q ->
  exists result inner',
    TM.sendEVMTransaction w nonce_now (TM.q_chain q) (TM.q_encryptedPrivateKey q)
      (TM.q_to q) (TM.q_amount q) (TM.q_symbol q) TM.standard (TM.inner qs)
      = (Ok result, inner')
    /\ (TM.processQueuedTransaction w nonce_now now id qs).1
       = Ok (if negb (TM.success result)
                && bool_decide (TM.retryable result = Some true)
                && (TM.retryCount q <? TM.maxRetries q)
             then {| TM.success := false; TM.txHash := TM.txHash result;
                     TM.explorerUrl := TM.explorerUrl result;
                     TM.error :=
                       Some (Js.show_opt (TM.error result) +:+ " (retry " +:+
                             pretty (TM.retryCount q + 1) +:+ "/" +:+
                             pretty (TM.maxRetries q) +:+ " scheduled)");
                     TM.retryable := Some true;
                     TM.queueId := Some id |}
             else result).
Proof.
  intros Hq.
  destruct (sendEVMTransaction_returns w nonce_now (TM.q_chain q)
              (TM.q_encryptedPrivateKey q) (TM.q_to q) (TM.q_amount q)
              (TM.q_symbol q) TM.standard (TM.inner qs)) as (result & inner' & Hs).
  exists result, inner'. split; [done|].
  unfold TM.processQueuedTransaction, TM.note_dispatch, TM.with_inner,
    TM.queue_delete, TM.queue_set. run.
  rewrite Hq. simpl. rewrite Hs. simpl.
  destruct (TM.success result) eqn:Hsucc; [done|]. simpl.
  case_bool_decide as Hr; simpl; [|done].
  destruct (TM.retryCount q <? TM.maxRetries q); simpl; [|done].
  by rewrite Hr.
Qed.

Lemma processQueuedTransaction_reply_witness :
  exists r,
    (TM.processQueuedTransaction Fixtures.nonce_conflict 1000 1000 "a"
       QueueFixtures.two_queued).1 = Ok r
    /\ TM.queueId r = Some "a".
Proof.
  destruct (processQueuedTransaction_reply Fixtures.nonce_conflict 1000 1000 "a"
              QueueFixtures.two_queued (QueueFixtures.entry "a" 0) eq_refl)
    as (result & inner' & Hs & Hr).
  eexists. split; [exact Hr|].
  vm_compute in Hs. injection Hs as <- _. reflexivity.
Defined.

(** ** Resource-model dispatcher *)

(** X10: whenever a run of the resource-model dispatcher adds a
    transaction-building, signing or sending event to the trace, the
    balance checks had passed for the sender's own address, the one derived
    from the decrypted key: for TRX the node reported a balance of that
    address that covered the amount; for a token it reported a TRX balance
    of at least 15 TRX and a token balance of that address that covered
    the token amount. *)
Theorem tron_submission_implies_checks (w : Tron.World)
    (encryptedPrivateKey toAddress amount symbol : string) (t : list Tron.Event) :
  List.filter tron_is_submission
    (Tron.sendTronTransaction w encryptedPrivateKey toAddress amount symbol t).2
    <> List.filter tron_is_submission t ->
  exists privateKey fromAddress balance,
    Tron.decrypt w encryptedPrivateKey = Ok privateKey
    /\ Tron.fromPrivateKey w privateKey = Ok fromAddress
    /\ Tron.getBalance w fromAddress = Ok balance
    /\ if String.eqb symbol "TRX" then Tron.amountSun w amount <= balance
       else exists tokenConfig tokenBalance,
           Tron.TRC20_TOKENS symbol = Some tokenConfig
           /\ 15000000 <= balance
           /\ Tron.balanceOf w (Tron.token_address tokenConfig) fromAddress
              = Ok tokenBalance
           /\ Tron.tokenUnits w amount (Tron.decimals tokenConfig) <= tokenBalance.
Proof.
  unfold Tron.sendTronTransaction, Tron.sendTronTransaction_try,
    Tron.sendTronTransaction_catch, Tron.call. run.
  destruct (Tron.decrypt w encryptedPrivateKey) as [privateKey|]; simpl; [|done].
  destruct (negb (Js.truthy privateKey) || (String.length privateKey <? 64)%nat);
    simpl; [done|].
  destruct (Tron.newTronWeb w); simpl; [|done].
  destruct (Tron.fromPrivateKey w privateKey) as [fromAddress|] eqn:Hfrom;
    simpl; [|done].
  destruct (negb (Tron.amount_positive w amount)); simpl; [done|].
  destruct (negb (Tron.isAddress w fromAddress) || negb (Tron.isAddress w toAddress));
    simpl; [done|].
  destruct (String.eqb symbol "TRX").
  - destruct (Tron.getBalance w fromAddress) as [balance|] eqn:Hb; simpl.
    2:{ intros Hne. exfalso. apply Hne. rewrite List.filter_app. simpl. apply app_nil_r. }
    destruct (Z.ltb_spec balance (Tron.amountSun w amount)); simpl.
    { intros Hne. exfalso. apply Hne. rewrite List.filter_app. simpl. apply app_nil_r. }
    intros _. by exists privateKey, fromAddress, balance.
  - destruct (Tron.TRC20_TOKENS symbol) as [tc|]; simpl; [|done].
    destruct (Tron.getBalance w fromAddress) as [balance|] eqn:Hb; simpl.
    2:{ intros Hne. exfalso. apply Hne. rewrite List.filter_app. simpl. apply app_nil_r. }
    destruct (Z.ltb_spec balance (15 * 1000000)); simpl.
    { intros Hne. exfalso. apply Hne. rewrite List.filter_app. simpl. apply app_nil_r. }
    destruct (Tron.contractAt w (Tron.token_address tc)); simpl.
    2:{ intros Hne. exfalso. apply Hne. rewrite !List.filter_app. simpl.
        by rewrite !app_nil_r. }
    destruct (Tron.balanceOf w (Tron.token_address tc) fromAddress) as [tb|] eqn:Htb;
      simpl.
    2:{ intros Hne. exfalso. apply Hne. rewrite !List.filter_app. simpl.
        by rewrite !app_nil_r. }
    destruct (Z.ltb_spec tb (Tron.tokenUnits w amount (Tron.decimals tc))); simpl.
    { intros Hne. exfalso. apply Hne. rewrite !List.filter_app. simpl.
      by rewrite !app_nil_r. }
    intros _. exists privateKey, fromAddress, balance. do 3 (split; [done|]).
    exists tc, tb. repeat split; try done; lia.
Qed.

Lemma tron_submission_implies_checks_witness :
  exists balance,
    Tron.getBalance (Fixtures.tron (Ok 2000000) Fixtures.tron_accepts)
      Fixtures.tron_sender = Ok balance
    /\ 1500000 <= balance.
Proof.
  destruct (tron_submission_implies_checks
              (Fixtures.tron (Ok 2000000) Fixtures.tron_accepts)
              "enc" Fixtures.tron_recipient "1.5" "TRX" [])
    as (key & from & balance & Hkey & Hfrom & Hb & Hle).
  - vm_compute. discriminate.
  - injection Hkey as <-. injection Hfrom as <-.
    exists balance. split; [exact Hb|exact Hle].
Defined.

(** X11: a provider that answers without throwing but does not accept the
    transfer is classified retryable: a TRON node whose [sendRawTransaction]
    answer has [result] false gives the node's message (or "Transaction
    failed") with [retryable = true]; a create-and-sign answer without a
    transaction id gives "Failed to create transaction", retryable, and the
    broadcast is not attempted; a broadcast answer without a transaction id
    gives "Failed to broadcast transaction", retryable. *)
Theorem soft_rejections_retryable :
  (forall w key to amount t privateKey from balance tx signed result,
      Tron.decrypt w key = Ok privateKey ->
      (64 <= String.length privateKey)%nat ->
      Tron.newTronWeb w = Ok tt ->
      Tron.fromPrivateKey w privateKey = Ok from ->
      Tron.amount_positive w amount = true ->
      Tron.isAddress w from = true -> Tron.isAddress w to = true ->
      Tron.getBalance w from = Ok balance -> Tron.amountSun w amount <= balance ->
      Tron.sendTrx w to (Tron.amountSun w amount) from = Ok tx ->
      Tron.sign w tx privateKey = Ok signed ->
      Tron.sendRawTransaction w signed = Ok result ->
      Tron.raw_result result = false ->
      (Tron.sendTronTransaction w key to amount "TRX" t).1
      = Ok (Tron.failure (Js.or_str (Tron.raw_message result) "Transaction failed") true))
  /\ (forall w chain xpub wif to amount fee t config px pw created,
      UTXO.CHAIN_CONFIG w chain = Some config ->
      UTXO.decrypt w xpub = Ok px -> UTXO.decrypt w wif = Ok pw ->
      Js.truthy px = true -> Js.truthy pw = true ->
      Js.truthy (UTXO.CRYPTOAPIS_API_KEY w) = true ->
      UTXO.createAndSign w (UTXO.blockchain config) (UTXO.network config) px to amount fee
        = Ok created ->
      Js.truthy_opt (created ≫= UTXO.transactionId) = false ->
      UTXO.sendUTXOTransaction w chain xpub wif to amount fee t
      = (Ok (UTXO.failure "Failed to create transaction" true),
         t ++ [UTXO.EvCreateAndSign (UTXO.blockchain config) (UTXO.network config)
                 px to amount fee]))
  /\ (forall w chain xpub wif to amount fee t config px pw created sent,
      UTXO.CHAIN_CONFIG w chain = Some config ->
      UTXO.decrypt w xpub = Ok px -> UTXO.decrypt w wif = Ok pw ->
      Js.truthy px = true -> Js.truthy pw = true ->
      Js.truthy (UTXO.CRYPTOAPIS_API_KEY w) = true ->
      UTXO.createAndSign w (UTXO.blockchain config) (UTXO.network config) px to amount fee
        = Ok created ->
      Js.truthy_opt (created ≫= UTXO.transactionId) = true ->
      UTXO.broadcast w (UTXO.blockchain config) (UTXO.network config)
        (created ≫= UTXO.signedTransactionHex) = Ok sent ->
      Js.truthy_opt sent = false ->
      (UTXO.sendUTXOTransaction w chain xpub wif to amount fee t).1
      = Ok (UTXO.failure "Failed to broadcast transaction" true)).
Proof.
  split; [|split].
  - intros w key to amount t privateKey from balance tx signed result
      Hdec Hlen Hweb Hfrom Hamt Hf Ht Hbal Hle Htx Hsign Hraw Hres.
    unfold Tron.sendTronTransaction, Tron.sendTronTransaction_try, Tron.call. run.
    rewrite Hdec. simpl.
    assert (negb (Js.truthy privateKey) || (String.length privateKey <? 64)%nat = false)
      as ->.
    { apply orb_false_iff. split.
      - destruct privateKey; [simpl in Hlen; lia|done].
      - apply Nat.ltb_ge. lia. }
    rewrite Hweb. simpl. rewrite Hfrom. simpl. rewrite Hamt, Hf, Ht. simpl.
    rewrite Hbal. simpl. apply Z.ltb_ge in Hle. rewrite Hle. simpl.
    rewrite Htx. simpl. rewrite Hsign. simpl. rewrite Hraw. simpl.
    by rewrite Hres.
  - intros w chain xpub wif to amount fee t config px pw created
      Hcfg Hx Hw Htx Htw Hkey Hcreate Hid.
    unfold UTXO.sendUTXOTransaction, UTXO.sendUTXOTransaction_try, UTXO.request,
      UTXO.getHeaders. rewrite Hcfg, Hkey. run.
    rewrite Hx. simpl. rewrite Hw. simpl. rewrite Htx, Htw. simpl.
    rewrite Hcreate. simpl. by rewrite Hid.
  - intros w chain xpub wif to amount fee t config px pw created sent
      Hcfg Hx Hw Htx Htw Hkey Hcreate Hid Hsent Hnone.
    unfold UTXO.sendUTXOTransaction, UTXO.sendUTXOTransaction_try, UTXO.request,
      UTXO.getHeaders. rewrite Hcfg, Hkey. run.
    rewrite Hx. simpl. rewrite Hw. simpl. rewrite Htx, Htw. simpl.
    rewrite Hcreate. simpl. rewrite Hid. simpl. rewrite Hsent. simpl.
    destruct sent as [h|]; [|done]. simpl in Hnone. by rewrite Hnone.
Qed.

Lemma soft_rejections_retryable_witness :
  UTXO.sendUTXOTransaction
    (Fixtures.utxo (Some "key") (Ok None) (Ok None) (Ok None))
    "BITCOIN" "xpub" "wif" "bc1qrecipient" "0.1" "standard" []
  = (Ok (UTXO.failure "Failed to create transaction" true),
     [UTXO.EvCreateAndSign "bitcoin" "mainnet" "plain:xpub" "bc1qrecipient" "0.1"
        "standard"]).
Proof.
  apply (proj1 (proj2 soft_rejections_retryable)
           (Fixtures.utxo (Some "key") (Ok None) (Ok None) (Ok None))
           "BITCOIN" "xpub" "wif" "bc1qrecipient" "0.1" "standard" []
           {| UTXO.blockchain := "bitcoin"; UTXO.network := "mainnet";
              UTXO.explorer := "https://blockstream.info/tx/";
              UTXO.minConfirmations := 2 |}
           "plain:xpub" "plain:wif" None
           eq_refl eq_refl eq_refl eq_refl eq_refl eq_refl eq_refl eq_refl).
Defined.

(** ** UTXO dispatcher *)

(** X12: without a CryptoAPIs key no request leaves the process.  The send
    operation reports "CRYPTOAPIS_API_KEY not configured" as a retryable
    failure, the balance operation answers "0" with that error, and the
    fee estimate falls back to the chain's default; the trace is unchanged
    in all three. *)
Theorem utxo_without_api_key (w : UTXO.World) (chain : string) (config : UTXO.ChainConfig)
    (t : list UTXO.Event) :
  UTXO.CHAIN_CONFIG w chain = Some config ->
  Js.truthy (UTXO.CRYPTOAPIS_API_KEY w) = false ->
  (forall xpub wif to amount fee px pw,
      UTXO.decrypt w xpub = Ok px -> UTXO.decrypt w wif = Ok pw ->
      Js.truthy px = true -> Js.truthy pw = true ->
      UTXO.sendUTXOTransaction w chain xpub wif to amount fee t
      = (Ok (UTXO.failure "CRYPTOAPIS_API_KEY not configured" true), t))
  /\ (forall address,
      UTXO.getUTXOBalance w chain address t
      = (Ok {| TM.balance := "0";
               TM.balance_error := Some "CRYPTOAPIS_API_KEY not configured" |}, t))
  /\ (forall from to amount,
      UTXO.estimateUTXOFee w chain from to amount t
      = (Ok {| UTXO.estimatedFee := UTXO.default_fee chain; UTXO.feeRate := "0";
               UTXO.fee_error := Some "Using default fee estimate" |}, t)).
Proof.
  intros Hcfg Hkey. split; [|split].
  - intros xpub wif to amount fee px pw Hx Hw Htx Htw.
    unfold UTXO.sendUTXOTransaction, UTXO.sendUTXOTransaction_try, UTXO.request,
      UTXO.getHeaders. rewrite Hcfg, Hkey. run.
    rewrite Hx. simpl. rewrite Hw. simpl. by rewrite Htx, Htw.
  - intros address.
    unfold UTXO.getUTXOBalance, UTXO.getUTXOBalance_try, UTXO.request,
      UTXO.getHeaders. by rewrite Hcfg, Hkey.
  - intros from to amount.
    unfold UTXO.estimateUTXOFee, UTXO.request, UTXO.getHeaders.
    by rewrite Hcfg, Hkey.
Qed.

Lemma utxo_without_api_key_witness :
  UTXO.getUTXOBalance (Fixtures.utxo None Fixtures.created_tx (Ok (Some "h")) (Ok None))
    "BITCOIN" "bc1qaddress" []
  = (Ok {| TM.balance := "0";
           TM.balance_error := Some "CRYPTOAPIS_API_KEY not configured" |}, []).
Proof.
  apply (proj1 (proj2 (utxo_without_api_key
           (Fixtures.utxo None Fixtures.created_tx (Ok (Some "h")) (Ok None))
           "BITCOIN" _ [] eq_refl eq_refl))).
Defined.

(** X13: the UTXO dispatcher broadcasts only what the provider built: a
    broadcast request appears in the trace only after the create-and-sign
    call answered with a transaction id, and the hex then broadcast is
    the one that answer carried. *)
Theorem utxo_broadcast_implies_created (w : UTXO.World)
    (chain xpub wif to amount fee : string) (t : list UTXO.Event) :
  List.filter utxo_is_broadcast
    (UTXO.sendUTXOTransaction w chain xpub wif to amount fee t).2
    <> List.filter utxo_is_broadcast t ->
  exists config px created id,
    UTXO.CHAIN_CONFIG w chain = Some config
    /\ UTXO.decrypt w xpub = Ok px
    /\ UTXO.createAndSign w (UTXO.blockchain config) (UTXO.network config)
         px to amount fee = Ok (Some created)
    /\ UTXO.transactionId created = Some id /\ Js.truthy id = true
    /\ List.filter utxo_is_broadcast
         (UTXO.sendUTXOTransaction w chain xpub wif to amount fee t).2
       = List.filter utxo_is_broadcast t
         ++ [UTXO.EvBroadcast (UTXO.blockchain config) (UTXO.network config)
               (UTXO.signedTransactionHex created)].
Proof.
  unfold UTXO.sendUTXOTransaction.
  destruct (UTXO.CHAIN_CONFIG w chain) as [config|]; [|done].
  unfold UTXO.sendUTXOTransaction_try, UTXO.sendUTXOTransaction_catch, UTXO.request,
    UTXO.getHeaders. run.
  destruct (UTXO.decrypt w xpub) as [px|]; simpl; [|done].
  destruct (UTXO.decrypt w wif) as [pw|]; simpl; [|done].
  destruct (negb (Js.truthy px) || negb (Js.truthy pw)); simpl; [done|].
  destruct (Js.truthy (UTXO.CRYPTOAPIS_API_KEY w)); simpl; [|done].
  destruct (UTXO.createAndSign w _ _ px to amount fee) as [[created|]|] eqn:Hc; simpl.
  2,3: intros Hne; exfalso; apply Hne; rewrite List.filter_app; simpl;
       apply app_nil_r.
  destruct (UTXO.transactionId created) as [id|] eqn:Hid; simpl.
  2:{ intros Hne. exfalso. apply Hne. rewrite List.filter_app. simpl. apply app_nil_r. }
  destruct (Js.truthy id) eqn:Htid; simpl.
  2:{ intros Hne. exfalso. apply Hne. rewrite List.filter_app. simpl. apply app_nil_r. }
  intros _. exists config, px, created, id. repeat split; try done.
  destruct (UTXO.broadcast w _ _ _) as [[h|]|]; simpl;
    [destruct (Js.truthy h); simpl| |];
    rewrite !List.filter_app; simpl; by rewrite app_nil_r.
Qed.

Lemma utxo_broadcast_implies_created_witness :
  exists config px created id,
    UTXO.CHAIN_CONFIG
      (Fixtures.utxo (Some "key") Fixtures.created_tx (Ok (Some "h")) (Ok None))
      "BITCOIN" = Some config
    /\ UTXO.decrypt
         (Fixtures.utxo (Some "key") Fixtures.created_tx (Ok (Some "h")) (Ok None))
         "xpub" = Ok px
    /\ UTXO.transactionId created = Some id.
Proof.
  destruct (utxo_broadcast_implies_created
              (Fixtures.utxo (Some "key") Fixtures.created_tx (Ok (Some "h")) (Ok None))
              "BITCOIN" "xpub" "wif" "bc1qrecipient" "0.1" "standard" [])
    as (config & px & created & id & H1 & H2 & _ & H4 & _).
  - vm_compute. discriminate.
  - exists config, px, created, id. split; [exact H1|]. split; [exact H2|exact H4].
Defined.

(** ** Hexadecimal error messages *)

Lemma hex_pair_decodes (c : ascii) :
  Js.hex_value (hex_digit (nat_of_ascii c / 16)) = Some (nat_of_ascii c / 16)%nat
  /\ Js.hex_value (hex_digit (nat_of_ascii c mod 16)) = Some (nat_of_ascii c mod 16)%nat
  /\ ascii_of_nat (16 * (nat_of_ascii c / 16) + nat_of_ascii c mod 16) = c.
Proof.
  destruct c as [[] [] [] [] [] [] [] []]; vm_compute; done.
Qed.

Lemma hex_encode_cons c r :
  hex_encode (String c r)
  = String (hex_digit (nat_of_ascii c / 16))
      (String (hex_digit (nat_of_ascii c mod 16)) (hex_encode r)).
Proof. reflexivity. Qed.

Lemma decode_pairs_step a b r :
  Tron.decode_pairs (String a (String b r))
  = match Js.hex_value a, Js.hex_value b with
    | Some h, Some l => String (ascii_of_nat (16 * h + l)) (Tron.decode_pairs r)
    | _, _ => Tron.decode_pairs r
    end.
Proof. reflexivity. Qed.

Lemma all_hex_step a r :
  Tron.all_hex (String a r)
  = bool_decide (is_Some (Js.hex_value a)) && Tron.all_hex r.
Proof. reflexivity. Qed.

Lemma decode_pairs_encode s : Tron.decode_pairs (hex_encode s) = s.
Proof.
  induction s as [|c r IH]; [done|].
  rewrite hex_encode_cons, decode_pairs_step.
  destruct (hex_pair_decodes c) as (-> & -> & ->). by rewrite IH.
Qed.

Lemma all_hex_encode s : Tron.all_hex (hex_encode s) = true.
Proof.
  induction s as [|c r IH]; [done|].
  rewrite hex_encode_cons, !all_hex_step.
  destruct (hex_pair_decodes c) as (-> & -> & _).
  rewrite !bool_decide_true by (by eexists). by rewrite IH.
Qed.

Lemma even_length_encode s : Nat.even (String.length (hex_encode s)) = true.
Proof. induction s as [|c r IH]; [done|]. simpl. exact IH. Qed.

Lemma printable_step c r :
  Tron.printable (String c r)
  = if is_printable c then String c (Tron.printable r) else Tron.printable r.
Proof. reflexivity. Qed.

Lemma printable_id s : all_printable s = true -> Tron.printable s = s.
Proof.
  induction s as [|c r IH]; [done|].
  intros H. change (is_printable c && all_printable r = true) in H.
  apply andb_true_iff in H as [Hc Hr].
  by rewrite printable_step, Hc, IH.
Qed.

Lemma trim_end_id s :
  last_char s <> Some " "%char -> Tron.trim_end s = s.
Proof.
  induction s as [|c r IH]; [done|].
  intros Hlast. simpl.
  destruct r as [|c' r'].
  - simpl. destruct (Ascii.eqb_spec c " "); [by subst|done].
  - rewrite IH by exact Hlast. done.
Qed.

(** X14: a failure message that arrives hex-encoded is shown decoded: for
    every non-empty message of printable ASCII characters that neither
    starts nor ends with a space, decoding its two-digit-per-character
    hexadecimal form gives the message back. *)
Theorem decodeMessage_hex_roundtrip (m : string) :
  m <> "" ->
  all_printable m = true ->
  (forall r, m <> String " " r) ->
  last_char m <> Some " "%char ->
  Tron.decodeMessage (hex_encode m) = m.
Proof.
  intros Hne Hp Hfirst Hlast. unfold Tron.decodeMessage, Tron.is_hex.
  rewrite all_hex_encode, even_length_encode.
  assert (String.eqb (hex_encode m) "" = false) as ->.
  { destruct m; [done|]. done. }
  simpl. rewrite decode_pairs_encode, printable_id by done.
  unfold Tron.trim.
  assert (Tron.trim_start m = m) as ->.
  { destruct m as [|c r]; [done|]. simpl.
    destruct (Ascii.eqb_spec c " "); [|done]. subst. by destruct (Hfirst r). }
  by apply trim_end_id.
Qed.

Lemma decodeMessage_hex_roundtrip_witness :
  Tron.decodeMessage (hex_encode "REVERT opcode executed") = "REVERT opcode executed".
Proof.
  apply decodeMessage_hex_roundtrip.
  - discriminate.
  - reflexivity.
  - intros r. discriminate.
  - simpl. discriminate.
Defined.

(** ** Status store: invariants *)

















(** ** Signature gate *)

(** X17: in production, with the endpoint's secret configured, a
    notification whose signature header is not the HMAC of the raw body is
    never processed: the Alchemy, CryptoAPIs and Quidax endpoints answer
    401 (the Alchemy endpoint answers 500 instead when the header is
    missing or has the wrong length) and the store is untouched. *)
Theorem signature_gate_rejects (w : Webhooks.World) (now : Z) (hook : Webhooks.Webhook)
    (s : Webhooks.Store) (var alg secret : string) :
  hook_secret hook = Some (var, alg) ->
  Webhooks.env w "NODE_ENV" = Some "production" ->
  Webhooks.env w var = Some secret -> Js.truthy secret = true ->
  hook_signature hook <> Some (Webhooks.hmac_hex w alg secret (hook_rawBody hook)) ->
  ((Webhooks.ingest w now hook s).1 = Webhooks.Unauthorized401
   \/ exists m, (Webhooks.ingest w now hook s).1 = Webhooks.Error500 m)
  /\ (Webhooks.ingest w now hook s).2 = s.
Proof.
  intros Hsec Hprod Hkey Htruthy Hsig.
  assert (Hresp : Webhooks.ingest w now hook s = (Webhooks.Unauthorized401, s)
                  \/ exists m, Webhooks.ingest w now hook s = (Webhooks.Error500 m, s)).
  { destruct hook as [req|req|req|req]; destruct req as [sg raw b];
      simpl in *; simplify_eq.
    - unfold Webhooks.post_alchemy, Webhooks.respond, Webhooks.production,
        Webhooks.verifyAlchemySignature. rewrite Hprod, Hkey, Htruthy.
      rewrite bool_decide_true by done. run.
      destruct sg as [sg|]; simpl; [|right; by eexists].
      destruct (Nat.eqb _ _); simpl; [|right; by eexists].
      destruct (String.eqb_spec sg (Webhooks.hmac_hex w "sha256" secret raw));
        simpl; [by subst|by left].
    - unfold Webhooks.post_cryptoapis, Webhooks.respond, Webhooks.production,
        Webhooks.verifyCryptoApisSignature. rewrite Hprod, Hkey, Htruthy.
      rewrite bool_decide_true by done. rewrite bool_decide_false by done.
      by left.
    - unfold Webhooks.post_quidax, Webhooks.respond, Webhooks.production,
        Webhooks.verifyQuidaxSignature. rewrite Hprod, Hkey, Htruthy.
      rewrite bool_decide_true by done. rewrite bool_decide_false by done.
      by left. }
  destruct Hresp as [->|[m ->]]; (split; [|done]); [by left|right; by eexists].
Qed.

Lemma signature_gate_rejects_witness :
  (Webhooks.ingest
     {| Webhooks.env :=
          fun v => if String.eqb v "NODE_ENV" then Some "production"
                   else if String.eqb v "CRYPTOAPIS_WEBHOOK_SECRET" then Some "s3cret"
                   else None;
        Webhooks.hmac_hex := fun _ _ _ => "c0ffee";
        Webhooks.parseDate := fun _ => Js.NaN |}
     1000
     (Webhooks.CryptoApis
        {| Webhooks.signature := Some "deadbeef"; Webhooks.rawBody := "{}";
           Webhooks.body := {| Webhooks.crypto_data := None |} |})
     HookFixtures.empty).2 = HookFixtures.empty.
Proof.
  eapply signature_gate_rejects.
  - reflexivity.
  - reflexivity.
  - reflexivity.
  - reflexivity.
  - simpl. discriminate.
Defined.

Lemma production_outside w : Webhooks.production (outside_production w) = false.
Proof. done. Qed.

(** X18: the gate is permissive by default: when the endpoint's secret is
    not configured (unset or empty), a notification is processed in
    production exactly as it is outside production, whatever its
    signature header. *)
Theorem missing_secret_skips_verification (w : Webhooks.World) (now : Z)
    (hook : Webhooks.Webhook) (s : Webhooks.Store) (var alg : string) :
  hook_secret hook = Some (var, alg) ->
  Js.truthy_opt (Webhooks.env w var) = false ->
  Webhooks.ingest w now hook s = Webhooks.ingest (outside_production w) now hook s.
Proof.
  intros Hsec Hkey.
  destruct hook as [req|req|req|req]; destruct req as [sg raw b];
    simpl in *; simplify_eq.
  - unfold Webhooks.post_alchemy. rewrite production_outside.
    unfold Webhooks.verifyAlchemySignature.
    destruct (Webhooks.env w "ALCHEMY_WEBHOOK_SIGNING_KEY") as [k|]; simpl in *.
    + rewrite Hkey. by destruct (Webhooks.production w).
    + by destruct (Webhooks.production w).
  - unfold Webhooks.post_cryptoapis. rewrite production_outside.
    unfold Webhooks.verifyCryptoApisSignature.
    destruct (Webhooks.env w "CRYPTOAPIS_WEBHOOK_SECRET") as [k|]; simpl in *.
    + rewrite Hkey. by rewrite andb_false_r.
    + by rewrite andb_false_r.
  - unfold Webhooks.post_quidax. rewrite production_outside.
    unfold Webhooks.verifyQuidaxSignature, Webhooks.quidax_switch, Webhooks.date_or_now.
    destruct (Webhooks.env w "QUIDAX_WEBHOOK_SECRET") as [k|]; simpl in *.
    + rewrite Hkey. by rewrite andb_false_r.
    + by rewrite andb_false_r.
Qed.

Lemma missing_secret_skips_verification_witness :
  Webhooks.ingest
    {| Webhooks.env := fun v => if String.eqb v "NODE_ENV" then Some "production" else None;
       Webhooks.hmac_hex := fun _ _ _ => "c0ffee";
       Webhooks.parseDate := fun _ => Js.NaN |}
    1000 HookFixtures.activity HookFixtures.empty
  = Webhooks.ingest
      (outside_production
         {| Webhooks.env :=
              fun v => if String.eqb v "NODE_ENV" then Some "production" else None;
            Webhooks.hmac_hex := fun _ _ _ => "c0ffee";
            Webhooks.parseDate := fun _ => Js.NaN |})
      1000 HookFixtures.activity HookFixtures.empty.
Proof.
  eapply missing_secret_skips_verification.
  - reflexivity.
  - reflexivity.
Defined.

(** ** Lookups after ingestion *)

Lemma map_get_writes_empty {V} (h : Webhooks.key) (kvs : list (Webhooks.key * V)) :
  Webhooks.map_get h (apply_writes kvs []) = last_write h kvs.
Proof. rewrite map_get_apply_writes. by destruct (last_write h kvs). Qed.

(** X19: what a lookup returns after an ingestion: the record that the
    same notification would leave under that hash in an empty store, if
    any, and otherwise the record that was there before.  In particular
    ingestion never removes a hash: a point query that found a record
    keeps finding one. *)
Theorem lookup_after_ingest (w : Webhooks.World) (now : Z) (hook : Webhooks.Webhook)
    (s : Webhooks.Store) (h : Webhooks.key) :
  let fresh := (Webhooks.ingest w now hook
                  {| Webhooks.transactionStatuses := []; Webhooks.notified := [] |}).2 in
  let s' := (Webhooks.ingest w now hook s).2 in
  Webhooks.map_get h (Webhooks.transactionStatuses s')
  = match Webhooks.map_get h (Webhooks.transactionStatuses fresh) with
    | Some st => Some st
    | None => Webhooks.map_get h (Webhooks.transactionStatuses s)
    end
  /\ (is_Some (Webhooks.map_get h (Webhooks.transactionStatuses s)) ->
      is_Some (Webhooks.map_get h (Webhooks.transactionStatuses s'))).
Proof.
  intros fresh s'. subst fresh s'.
  assert (Heq : Webhooks.map_get h
                  (Webhooks.transactionStatuses (Webhooks.ingest w now hook s).2)
                = match Webhooks.map_get h
                          (Webhooks.transactionStatuses
                             (Webhooks.ingest w now hook
                                {| Webhooks.transactionStatuses := [];
                                   Webhooks.notified := [] |}).2) with
                  | Some st => Some st
                  | None => Webhooks.map_get h (Webhooks.transactionStatuses s)
                  end).
  { rewrite !ingest_writes. simpl.
    by rewrite map_get_writes_empty, map_get_apply_writes. }
  split; [exact Heq|].
  rewrite Heq. intros Hs. case_match; [by eexists|done].
Qed.

Lemma lookup_after_ingest_witness :
  is_Some (Webhooks.map_get (Some "0xabc")
             (Webhooks.transactionStatuses
                (Webhooks.post_trongrid 2000 (HookFixtures.tron_success "f00d")
                   (Webhooks.ingest HookFixtures.dev 1000 HookFixtures.activity
                      HookFixtures.empty).2).2)).
Proof.
  apply (proj2 (lookup_after_ingest HookFixtures.dev 2000
                  (Webhooks.TronGrid (HookFixtures.tron_success "f00d"))
                  (Webhooks.ingest HookFixtures.dev 1000 HookFixtures.activity
                     HookFixtures.empty).2 (Some "0xabc"))).
  vm_compute. by eexists.
Defined.

(** ** Request surface *)

Lemma processQueuedTransaction_returns w nonce_now now id qs :
  exists r qs', TM.processQueuedTransaction w nonce_now now id qs = (Ok r, qs').
Proof.
  destruct (TM.transactionQueue qs !! id) as [q|] eqn:Hq.
  2:{ rewrite processQueuedTransaction_missing by done. by eexists _, _. }
  destruct (sendEVMTransaction_returns w nonce_now (TM.q_chain q)
              (TM.q_encryptedPrivateKey q) (TM.q_to q) (TM.q_amount q)
              (TM.q_symbol q) TM.standard (TM.inner qs)) as (result & inner' & Hs).
  unfold TM.processQueuedTransaction, TM.note_dispatch, TM.with_inner,
    TM.queue_delete, TM.queue_set. run.
  rewrite Hq. simpl. rewrite Hs. simpl.
  destruct (TM.success result); [by eexists _, _|].
  destruct (bool_decide _ && _); by eexists _, _.
Qed.

(** Every reply of the send route is one of three shapes. *)
Lemma post_send_cases w nonce_now now req s (P : Routes.SendResponse -> Prop) :
  (forall msg, P (Routes.send_error 400 msg)) ->
  (forall chain e msg, Routes.s_chain req = Some chain ->
                       Routes.getChainType chain = Throw e ->
                       P (Routes.send_error 500 msg)) ->
  (forall success txHash explorerUrl error retryable queueId,
      P (Routes.send_reply success txHash explorerUrl error retryable queueId)) ->
  P (Routes.post_send w nonce_now now req s).1.
Proof.
  intros H400 H500 Hreply.
  unfold Routes.post_send, Routes.handler.
  destruct (negb (Js.truthy_opt (Routes.s_chain req)) || _ || _ || _) eqn:Hfields.
  { apply H400. }
  apply orb_false_iff in Hfields as [Hfields _].
  apply orb_false_iff in Hfields as [Hfields _].
  apply orb_false_iff in Hfields as [Hchain _].
  destruct (Routes.s_chain req) as [chain|] eqn:Hc; [|done].
  simpl default. unfold bind at 1, lift at 1.
  destruct (Routes.getChainType chain) as [[| |]|e] eqn:Hty.
  4:{ by eapply H500. }
  - destruct (negb (Js.truthy_opt (Routes.s_encryptedPrivateKey req))).
    { apply H400. }
    destruct (Routes.s_useQueue req).
    + unfold Routes.in_tm, TM.queueTransaction, TM.queue_set, bind, ret, modify.
      cbv beta iota zeta.
      match goal with
      | |- context [TM.processQueuedTransaction ?a ?b ?c ?d ?e] =>
          destruct (processQueuedTransaction_returns a b c d e) as (r & q' & ->)
      end.
      apply Hreply.
    + unfold bind at 1. unfold Routes.in_tm, TM.with_inner.
      match goal with
      | |- context [TM.sendEVMTransaction ?a ?b ?c ?d ?e ?f ?g ?h ?i] =>
          destruct (sendEVMTransaction_returns a b c d e f g h i) as (r & q' & ->)
      end.
      apply Hreply.
  - destruct (negb (Js.truthy_opt (Routes.s_encryptedPrivateKey req))).
    { apply H400. }
    unfold bind at 1. unfold Routes.in_tron.
    match goal with
    | |- context [Tron.sendTronTransaction ?a ?b ?c ?d ?e ?f] =>
        destruct (sendTronTransaction_returns a b c d e f) as (r & q' & ->)
    end.
    apply Hreply.
  - destruct (negb (Js.truthy_opt (Routes.s_encryptedXpub req)) || _).
    { apply H400. }
    unfold bind at 1. unfold Routes.in_utxo.
    match goal with
    | |- context [UTXO.sendUTXOTransaction ?a ?b ?c ?d ?e ?f ?g ?h] =>
        destruct (sendUTXOTransaction_returns a b c d e f g h) as (r & q' & ->)
    end.
    apply Hreply.
Qed.

(** X20: the send route answers 200 exactly when the transfer succeeded;
    a failure is 400, 500 or 503, and 503 is used only for a failure the
    dispatcher marked retryable.  With the four required fields present
    and a supported chain the route never answers 500: dispatcher failures
    arrive as results, not as exceptions. *)
Theorem post_send_status (w : Routes.World) (nonce_now now : Z)
    (req : Routes.SendRequest) (s : Routes.Store) :
  let r := (Routes.post_send w nonce_now now req s).1 in
  (Routes.sr_status r = 200 \/ Routes.sr_status r = 400
   \/ Routes.sr_status r = 500 \/ Routes.sr_status r = 503)
  /\ (Routes.sr_status r = 200 <-> Routes.sr_success r = true)
  /\ (Routes.sr_status r = 503 -> Routes.sr_retryable r = Some true)
  /\ (Routes.sr_status r = 500 ->
      exists chain e, Routes.s_chain req = Some chain
                      /\ Routes.getChainType chain = Throw e).
Proof.
  cbv zeta. pattern ((Routes.post_send w nonce_now now req s).1).
  apply post_send_cases.
  - intros msg. simpl. repeat split; try done; auto.
  - intros chain e msg Hc Hty. simpl. repeat split; try done; auto.
    intros _. by exists chain, e.
  - intros success txHash explorerUrl error retryable queueId.
    unfold Routes.send_reply. destruct success; simpl.
    + repeat split; try done; auto.
    + case_bool_decide; simpl; repeat split; try done; auto.
Qed.

(** ** Services behind the routes *)

Lemma try_catch_returns {S A} (m : M S A) (h : Js.Thrown -> M S A) :
  (forall e s, exists a s', h e s = (Ok a, s')) ->
  forall s, exists a s', try_catch m h s = (Ok a, s').
Proof.
  intros Hh s. unfold try_catch.
  destruct (m s) as [[a|e] s']; [by eexists _, _|apply Hh].
Qed.

Lemma getEVMBalanceRobust_returns w chain address symbol s :
  exists r s', TM.getEVMBalanceRobust w chain address symbol s = (Ok r, s').
Proof.
  unfold TM.getEVMBalanceRobust.
  destruct (TM.CHAIN_CONFIG w chain); [|by eexists _, _].
  apply try_catch_returns. intros. by eexists _, _.
Qed.

Lemma getTronBalance_returns w address symbol t :
  exists r t', Tron.getTronBalance w address symbol t = (Ok r, t').
Proof. apply try_catch_returns. intros. by eexists _, _. Qed.

Lemma getUTXOBalance_returns w chain address t :
  exists r t', UTXO.getUTXOBalance w chain address t = (Ok r, t').
Proof.
  unfold UTXO.getUTXOBalance.
  destruct (UTXO.CHAIN_CONFIG w chain); [|by eexists _, _].
  apply try_catch_returns. intros. by eexists _, _.
Qed.

Lemma estimateTransactionFee_returns w chain from to amount symbol s :
  exists r s', TM.estimateTransactionFee w chain from to amount symbol s = (Ok r, s').
Proof.
  unfold TM.estimateTransactionFee.
  destruct (TM.CHAIN_CONFIG w chain); [|by eexists _, _].
  apply try_catch_returns. intros. by eexists _, _.
Qed.

Lemma estimateTronFee_returns w from to amount symbol t :
  exists r t', Tron.estimateTronFee w from to amount symbol t = (Ok r, t').
Proof. apply try_catch_returns. intros. by eexists _, _. Qed.

Lemma estimateUTXOFee_returns w chain from to amount t :
  exists r t', UTXO.estimateUTXOFee w chain from to amount t = (Ok r, t').
Proof.
  unfold UTXO.estimateUTXOFee.
  destruct (UTXO.CHAIN_CONFIG w chain); [|by eexists _, _].
  apply try_catch_returns. intros. by eexists _, _.
Qed.

Lemma registerUTXOWebhook_returns w chain address callbackUrl eventType t :
  exists r t',
    UTXO.registerUTXOWebhook w chain address callbackUrl eventType t = (Ok r, t').
Proof.
  unfold UTXO.registerUTXOWebhook.
  destruct (UTXO.CHAIN_CONFIG w chain); [|by eexists _, _].
  apply try_catch_returns. intros. case_bool_decide; by eexists _, _.
Qed.

(** X21: the status of the balance, estimate-fee and webhook-register
    routes is decided by the request alone: 400 when a required field is
    missing or empty, 500 when the chain is not supported, 200 otherwise.
    No answer of a provider, and no failure of one, changes the status:
    the seven services behind these routes never throw. *)
Theorem route_status_from_request (w : Routes.World) (s : Routes.Store) :
  (forall req,
      Routes.br_status (Routes.post_balance w req s).1
      = request_status (Routes.b_chain req)
          [Routes.b_address req; Routes.b_symbol req])
  /\ (forall req,
      Routes.fr_status (Routes.post_estimate_fee w req s).1
      = request_status (Routes.f_chain req) [Routes.f_amount req])
  /\ (forall req,
      Routes.rr_status (Routes.post_webhook_register w req s).1
      = request_status (Routes.r_chain req)
          [Routes.r_address req; Routes.r_callbackUrl req]).
Proof.
  split; [|split]; intros req.
  - unfold Routes.post_balance, Routes.handler, request_status. cbn [existsb].
    destruct (Js.truthy_opt (Routes.b_chain req)),
      (Js.truthy_opt (Routes.b_address req)),
      (Js.truthy_opt (Routes.b_symbol req)); cbn [negb orb]; try done.
    unfold bind at 1, lift at 1.
    destruct (Routes.getChainType _) as [[| |]|e]; [| | |done].
    + unfold bind, Routes.in_tm, TM.with_inner.
      match goal with
      | |- context [TM.getEVMBalanceRobust ?a ?b ?c ?d ?e] =>
          destruct (getEVMBalanceRobust_returns a b c d e) as (r & q' & ->)
      end. done.
    + unfold bind, Routes.in_tron.
      match goal with
      | |- context [Tron.getTronBalance ?a ?b ?c ?d] =>
          destruct (getTronBalance_returns a b c d) as (r & q' & ->)
      end. done.
    + unfold bind, Routes.in_utxo.
      match goal with
      | |- context [UTXO.getUTXOBalance ?a ?b ?c ?d] =>
          destruct (getUTXOBalance_returns a b c d) as (r & q' & ->)
      end. done.
  - unfold Routes.post_estimate_fee, Routes.handler, request_status. cbn [existsb].
    destruct (Js.truthy_opt (Routes.f_chain req)),
      (Js.truthy_opt (Routes.f_amount req)); cbn [negb orb]; try done.
    unfold bind at 1, lift at 1.
    destruct (Routes.getChainType _) as [[| |]|e]; [| | |done].
    + unfold bind, Routes.in_tm, TM.with_inner.
      match goal with
      | |- context [TM.estimateTransactionFee ?a ?b ?c ?d ?e ?f ?g] =>
          destruct (estimateTransactionFee_returns a b c d e f g) as (r & q' & ->)
      end. done.
    + unfold bind, Routes.in_tron.
      match goal with
      | |- context [Tron.estimateTronFee ?a ?b ?c ?d ?e ?f] =>
          destruct (estimateTronFee_returns a b c d e f) as (r & q' & ->)
      end. done.
    + unfold bind, Routes.in_utxo.
      match goal with
      | |- context [UTXO.estimateUTXOFee ?a ?b ?c ?d ?e ?f] =>
          destruct (estimateUTXOFee_returns a b c d e f) as (r & q' & ->)
      end. done.
  - unfold Routes.post_webhook_register, Routes.handler, request_status.
    cbn [existsb].
    destruct (Js.truthy_opt (Routes.r_chain req)),
      (Js.truthy_opt (Routes.r_address req)),
      (Js.truthy_opt (Routes.r_callbackUrl req)); cbn [negb orb]; try done.
    unfold bind at 1, lift at 1.
    destruct (Routes.getChainType _) as [[| |]|e]; [done|done| |done].
    unfold bind, Routes.in_utxo.
    match goal with
    | |- context [UTXO.registerUTXOWebhook ?a ?b ?c ?d ?e ?f] =>
        destruct (registerUTXOWebhook_returns a b c d e f) as (r & q' & ->)
    end. done.
Qed.

(** X22: an outage reads as an empty wallet.  When every RPC endpoint of
    an account-model chain is down, the balance route still answers 200
    with [success = true] and the balance "0"; the service's error text
    is not part of the reply. *)
Theorem post_balance_outage_reads_zero (w : Routes.World) (req : Routes.BalanceRequest)
    (s : Routes.Store) (config : TM.ChainConfig) :
  Js.truthy_opt (Routes.b_chain req) = true ->
  Js.truthy_opt (Routes.b_address req) = true ->
  Js.truthy_opt (Routes.b_symbol req) = true ->
  Routes.getChainType (default "" (Routes.b_chain req)) = Ok Routes.evm ->
  TM.CHAIN_CONFIG (Routes.evm_world w)
    (Js.toUpperCase (default "" (Routes.b_chain req))) = Some config ->
  (forall u, u ∈ TM.rpc config ->
             exists e, TM.getBlockNumber (Routes.evm_world w) u = Throw e) ->
  (Routes.post_balance w req s).1
  = {| Routes.br_status := 200; Routes.br_success := true;
       Routes.br_balance := Some "0"; Routes.br_error := None |}.
Proof.
  intros Hc Ha Hs Hty Hcfg Hdown.
  unfold Routes.post_balance, Routes.handler.
  rewrite Hc, Ha, Hs. cbn [negb orb].
  step Hty.
  pose proof (try_endpoints_all_down (Routes.evm_world w)
                (Js.toUpperCase (default "" (Routes.b_chain req)))
                (TM.rpc config) (TM.inner (Routes.tm s)) Hdown) as Hp.
  unfold bind, Routes.in_tm, TM.with_inner, TM.getEVMBalanceRobust.
  rewrite Hcfg.
  unfold try_catch, TM.getEVMBalanceRobust_try, bind, TM.getProvider.
  rewrite Hcfg.
  destruct (TM.try_endpoints _ _ _ _) as [o s1].
  simpl in Hp. subst o. reflexivity.
Qed.

Lemma post_balance_outage_reads_zero_witness :
  (Routes.post_balance (RouteFixtures.world RouteFixtures.outage)
     RouteFixtures.balance RouteFixtures.store).1
  = {| Routes.br_status := 200; Routes.br_success := true;
       Routes.br_balance := Some "0"; Routes.br_error := None |}.
Proof.
  eapply post_balance_outage_reads_zero.
  - reflexivity.
  - reflexivity.
  - reflexivity.
  - reflexivity.
  - reflexivity.
  - intros u _. by eexists.
Defined.

(** ** Queued sends *)

Lemma processQueuedTransaction_run w nonce_now now id qs q result inner' :
  TM.transactionQueue qs !! id = Some q ->
  TM.sendEVMTransaction w nonce_now (TM.q_chain q) (TM.q_encryptedPrivateKey q)
    (TM.q_to q) (TM.q_amount q) (TM.q_symbol q) TM.standard (TM.inner qs)
    = (Ok result, inner') ->
  TM.processQueuedTransaction w nonce_now now id qs =
  if negb (TM.success result) && bool_decide (TM.retryable result = Some true)
     && (TM.retryCount q <? TM.maxRetries q)
  then (Ok {| TM.success := false; TM.txHash := TM.txHash result;
              TM.explorerUrl := TM.explorerUrl result;
              TM.error :=
                Some (Js.show_opt (TM.error result) +:+ " (retry " +:+
                      pretty (TM.retryCount q + 1) +:+ "/" +:+
                      pretty (TM.maxRetries q) +:+ " scheduled)");
              TM.retryable := Some true;
              TM.queueId := Some id |},
        {| TM.transactionQueue :=
             <[id := rescheduled now q (TM.error result)]> (TM.transactionQueue qs);
           TM.dispatched := TM.dispatched qs ++ [id];
           TM.inner := inner' |})
  else (Ok result,
        {| TM.transactionQueue := delete id (TM.transactionQueue qs);
           TM.dispatched := TM.dispatched qs ++ [id];
           TM.inner := inner' |}).
Proof.
  intros Hq Hs.
  unfold TM.processQueuedTransaction, TM.note_dispatch, TM.with_inner,
    TM.queue_delete, TM.queue_set. run.
  rewrite Hq. simpl. rewrite Hs. simpl.
  destruct (TM.success result) eqn:Hsucc; [done|]. simpl.
  case_bool_decide as Hr; simpl; [|done].
  destruct (TM.retryCount q <? TM.maxRetries q); simpl; [|done].
  by rewrite Hr.
Qed.

(** X23: a send with [useQueue] on an account-model chain enqueues the
    transfer under the id [uuidv4()] gives and dispatches it at once, always at the
    standard fee level whatever the request's [feeLevel].  The route
    answers 503 exactly when the transfer is still in the queue
    afterwards; the reply then names the queue id, and the entry records
    one retry out of three, due 2 seconds later.  In every other case no
    entry is left under that id.  Entries under other ids are not
    touched. *)
Theorem queued_send_outcome (w : Routes.World) (nonce_now now : Z)
    (req : Routes.SendRequest) (s : Routes.Store) :
  Js.truthy_opt (Routes.s_chain req) = true ->
  Js.truthy_opt (Routes.s_symbol req) = true ->
  Js.truthy_opt (Routes.s_toAddress req) = true ->
  Js.truthy_opt (Routes.s_amount req) = true ->
  Js.truthy_opt (Routes.s_encryptedPrivateKey req) = true ->
  Routes.getChainType (default "" (Routes.s_chain req)) = Ok Routes.evm ->
  Routes.s_useQueue req = true ->
  exists result inner',
    TM.sendEVMTransaction (Routes.evm_world w) nonce_now
      (Js.toUpperCase (default "" (Routes.s_chain req)))
      (default "" (Routes.s_encryptedPrivateKey req))
      (default "" (Routes.s_toAddress req))
      (default "" (Routes.s_amount req))
      (Js.toUpperCase (default "" (Routes.s_symbol req)))
      TM.standard (TM.inner (Routes.tm s)) = (Ok result, inner')
    /\ Routes.sr_success (Routes.post_send w nonce_now now req s).1
       = TM.success result
    /\ (forall k, k <> Routes.uuidv4 w ->
          TM.transactionQueue (Routes.tm (Routes.post_send w nonce_now now req s).2) !! k
          = TM.transactionQueue (Routes.tm s) !! k)
    /\ (is_Some (TM.transactionQueue
                   (Routes.tm (Routes.post_send w nonce_now now req s).2)
                 !! Routes.uuidv4 w)
        <-> Routes.sr_status (Routes.post_send w nonce_now now req s).1 = 503)
    /\ (Routes.sr_status (Routes.post_send w nonce_now now req s).1 = 503 ->
        Routes.sr_queueId (Routes.post_send w nonce_now now req s).1
        = Some (Routes.uuidv4 w)
        /\ exists q,
             TM.transactionQueue
               (Routes.tm (Routes.post_send w nonce_now now req s).2)
             !! Routes.uuidv4 w = Some q
             /\ TM.retryCount q = 1 /\ TM.maxRetries q = 3
             /\ TM.nextRetryAt q = Some (now + 2000)
             /\ TM.lastError q = TM.error result)
    /\ TM.dispatched (Routes.tm (Routes.post_send w nonce_now now req s).2)
       = TM.dispatched (Routes.tm s) ++ [Routes.uuidv4 w].
Proof.
  intros Hc Hsym Hto Ham Hkey Hty Hq.
  destruct (sendEVMTransaction_returns (Routes.evm_world w) nonce_now
              (Js.toUpperCase (default "" (Routes.s_chain req)))
              (default "" (Routes.s_encryptedPrivateKey req))
              (default "" (Routes.s_toAddress req))
              (default "" (Routes.s_amount req))
              (Js.toUpperCase (default "" (Routes.s_symbol req)))
              TM.standard (TM.inner (Routes.tm s))) as (result & inner' & Hs).
  exists result, inner'. split; [exact Hs|].
  set (id := Routes.uuidv4 w).
  set (q0 := {| TM.q_id := id;
                TM.q_chain := Js.toUpperCase (default "" (Routes.s_chain req));
                TM.q_from := "";
                TM.q_to := default "" (Routes.s_toAddress req);
                TM.q_amount := default "" (Routes.s_amount req);
                TM.q_symbol := Js.toUpperCase (default "" (Routes.s_symbol req));
                TM.q_encryptedPrivateKey :=
                  default "" (Routes.s_encryptedPrivateKey req);
                TM.retryCount := 0; TM.maxRetries := 3;
                TM.lastError := None; TM.createdAt := now;
                TM.nextRetryAt := None |}).
  set (qs1 := {| TM.transactionQueue := <[id := q0]> (TM.transactionQueue (Routes.tm s));
                 TM.dispatched := TM.dispatched (Routes.tm s);
                 TM.inner := TM.inner (Routes.tm s) |}).
  assert (Hrun : Routes.post_send w nonce_now now req s =
    let (o, qs2) := TM.processQueuedTransaction (Routes.evm_world w)
                      nonce_now now id qs1 in
    (match o with
     | Ok r => Routes.send_reply (TM.success r) (TM.txHash r) (TM.explorerUrl r)
                 (TM.error r) (TM.retryable r) (TM.queueId r)
     | Throw e => Routes.send_error 500
                    (Js.or_str (Js.message e) "Transaction failed")
     end,
     {| Routes.tm := qs2; Routes.tron_trace := Routes.tron_trace s;
        Routes.utxo_trace := Routes.utxo_trace s |})).
  { unfold Routes.post_send, Routes.handler.
    rewrite Hc, Hsym, Hto, Ham. cbn [negb orb].
    step Hty. rewrite Hkey, Hq. cbn [negb].
    unfold Routes.in_tm, TM.queueTransaction, TM.queue_set, bind, ret, modify.
    cbv beta iota zeta. fold id. fold q0. cbn [Routes.tm]. fold qs1.
    destruct (TM.processQueuedTransaction _ _ _ id qs1) as [[r|e] qs2]; reflexivity. }
  rewrite Hrun.
  assert (Hq0 : TM.transactionQueue qs1 !! id = Some q0)
    by apply lookup_insert_eq.
  rewrite (processQueuedTransaction_run (Routes.evm_world w) nonce_now now id qs1
             q0 result inner' Hq0 Hs).
  cbn [TM.retryCount TM.maxRetries q0]. change (0 <? 3) with true.
  rewrite andb_true_r.
  destruct (TM.success result) eqn:Hsucc; cbn [negb andb].
  - unfold Routes.send_reply. rewrite Hsucc. cbn.
    split; [done|]. split.
    { intros k Hk. by rewrite lookup_delete_ne, lookup_insert_ne. }
    split.
    { rewrite lookup_delete_eq. split; [by intros [? ?]|done]. }
    split; [done|done].
  - case_bool_decide as Hr.
    + unfold Routes.send_reply. cbn.
      split; [done|]. split.
      { intros k Hk. by rewrite !lookup_insert_ne. }
      split.
      { rewrite lookup_insert_eq. split; [done|by eexists]. }
      split; [|done].
      intros _. split; [done|].
      eexists. rewrite lookup_insert_eq. split; [done|]. cbn.
      repeat split; done.
    + unfold Routes.send_reply. rewrite Hsucc. cbn.
      rewrite bool_decide_false by done.
      split; [done|]. split.
      { intros k Hk. by rewrite lookup_delete_ne, lookup_insert_ne. }
      split.
      { rewrite lookup_delete_eq. split; [by intros [? ?]|done]. }
      split; [done|done].
Qed.

Lemma queued_send_outcome_witness :
  exists result inner',
    TM.sendEVMTransaction Fixtures.nonce_conflict 1000 "ETHEREUM" "enc"
      Fixtures.recipient "1.5" "ETH" TM.standard Fixtures.empty_store
      = (Ok result, inner')
    /\ Routes.sr_success
         (Routes.post_send (RouteFixtures.world Fixtures.nonce_conflict) 1000 1000
            (RouteFixtures.send true) RouteFixtures.store).1
       = TM.success result.
Proof.
  destruct (queued_send_outcome (RouteFixtures.world Fixtures.nonce_conflict)
              1000 1000 (RouteFixtures.send true) RouteFixtures.store
              eq_refl eq_refl eq_refl eq_refl eq_refl eq_refl eq_refl)
    as (result & inner' & Hs & Hr & _).
  exists result, inner'. split; [exact Hs|exact Hr].
Defined.

(** ** Chain tables *)

Lemma upper_ascii_idemp (c : ascii) : Js.upper_ascii (Js.upper_ascii c) = Js.upper_ascii c.
Proof. destruct c as [[] [] [] [] [] [] [] []]; reflexivity. Qed.

Lemma toUpperCase_idemp (s : string) : Js.toUpperCase (Js.toUpperCase s) = Js.toUpperCase s.
Proof.
  induction s as [|c r IH]; [done|].
  cbn [Js.toUpperCase]. by rewrite upper_ascii_idemp, IH.
Qed.

(** X24: the route's chain table and the services' tables agree.  A chain
    name is classified by its upper-case form only; it is classified as
    account-model exactly when the account-model service has a
    configuration for the upper-case name the route passes on, as UTXO
    exactly when the UTXO service has one, and as resource-model exactly
    when the upper-case name is TRON.  So no route hands a service a chain
    the service answers with [Unsupported chain]. *)
Theorem chain_tables_agree (w : TM.World) (wu : UTXO.World) (chain : string) :
  (Routes.getChainType chain = Ok Routes.evm
   <-> is_Some (TM.CHAIN_CONFIG w (Js.toUpperCase chain)))
  /\ (Routes.getChainType chain = Ok Routes.utxo
      <-> is_Some (UTXO.CHAIN_CONFIG wu (Js.toUpperCase chain)))
  /\ (Routes.getChainType chain = Ok Routes.tron
      <-> Js.toUpperCase chain = "TRON")
  /\ (forall ty, Routes.getChainType chain = Ok ty
                 <-> Routes.getChainType (Js.toUpperCase chain) = Ok ty).
Proof.
  unfold Routes.getChainType, TM.CHAIN_CONFIG, UTXO.CHAIN_CONFIG.
  rewrite toUpperCase_idemp. cbv zeta.
  generalize (Js.toUpperCase chain). intros u.
  destruct (String.eqb_spec u "ETHEREUM") as [->|_].
  { cbn. repeat split; try done; by eauto. }
  destruct (String.eqb_spec u "BSC") as [->|_].
  { cbn. repeat split; try done; by eauto. }
  destruct (String.eqb_spec u "POLYGON") as [->|_].
  { cbn. repeat split; try done; by eauto. }
  cbn [orb].
  destruct (String.eqb_spec u "TRON") as [->|Htron].
  { cbn. repeat split; try done; by intros []. }
  destruct (String.eqb_spec u "BITCOIN") as [->|_].
  { cbn. repeat split; try done; by eauto. }
  destruct (String.eqb_spec u "LITECOIN") as [->|_].
  { cbn. repeat split; try done; by eauto. }
  destruct (String.eqb_spec u "DOGECOIN") as [->|_].
  { cbn. repeat split; try done; by eauto. }
  cbn [orb]. repeat split; try done; by intros [].
Qed.

(** ** Bearer-token gate *)

Lemma split_space_head (x : string) : Auth.split_space x !! 0%nat = Some (first_word x).
Proof.
  induction x as [|c r IH]; [done|].
  cbn [Auth.split_space first_word]. destruct (Ascii.eqb c " "); [done|].
  destruct (Auth.split_space r) as [|h t]; [done|].
  simpl in *. by injection IH as ->.
Qed.

Lemma split_space_bearer (x : string) :
  Auth.split_space ("Bearer " +:+ x) !! 1%nat = Some (first_word x).
Proof. cbn. apply split_space_head. Qed.

Lemma prefix_append (p s : string) :
  String.prefix p s = true <-> exists x, s = p +:+ x.
Proof.
  revert s. induction p as [|a p IH]; intros s.
  - destruct s; simpl; split; try done; intros _; by eexists.
  - destruct s as [|b s]; simpl.
    + split; [done|]. by intros [x ?].
    + destruct (Ascii.ascii_dec a b) as [->|Hne].
      * rewrite IH. split; intros [x Hx]; exists x; [by rewrite Hx|].
        by injection Hx.
      * split; [done|]. intros [x Hx]. injection Hx as ? ?. by subst.
Qed.

Lemma first_word_no_space (x a b : string) : first_word x <> a +:+ " " +:+ b.
Proof.
  revert x. induction a as [|c a IH]; intros x.
  - destruct x as [|d r]; [done|]. cbn [first_word].
    destruct (Ascii.eqb_spec d " ") as [->|Hd]; [done|].
    simpl. intros [= ? _]. by subst.
  - destruct x as [|d r]; [done|]. cbn [first_word].
    destruct (Ascii.eqb d " "); [done|].
    simpl. intros [= _ Hr]. by apply (IH r).
Qed.

(** X25: the bearer-token gate.  A request passes exactly when its
    authorization header is ["Bearer "] followed by some text whose part
    before the first space is the configured token; whatever follows that
    space is ignored.  The gate answers 401 exactly when the header is
    absent or does not start with ["Bearer "], and 403 otherwise.  So
    with no token configured nothing passes, and a configured token that
    contains a space can never be presented. *)
Theorem authMiddleware_accepts (env : string -> option string)
    (authorization : option string) :
  (Auth.authMiddleware env authorization = Auth.Next
   <-> exists x, authorization = Some ("Bearer " +:+ x)
                 /\ env "WALLET_BACKEND_TOKEN" = Some (first_word x))
  /\ (Auth.authMiddleware env authorization = Auth.Unauthorized401
      <-> forall x, authorization <> Some ("Bearer " +:+ x))
  /\ (env "WALLET_BACKEND_TOKEN" = None ->
      Auth.authMiddleware env authorization <> Auth.Next)
  /\ (forall a b, env "WALLET_BACKEND_TOKEN" = Some (a +:+ " " +:+ b) ->
                  Auth.authMiddleware env authorization <> Auth.Next).
Proof.
  assert (Hnext : Auth.authMiddleware env authorization = Auth.Next
                  <-> exists x, authorization = Some ("Bearer " +:+ x)
                                /\ env "WALLET_BACKEND_TOKEN" = Some (first_word x)).
  { unfold Auth.authMiddleware. destruct authorization as [h|].
    2:{ split; [done|]. by intros (x & ? & _). }
    destruct (String.prefix "Bearer " h) eqn:Hp.
    - apply prefix_append in Hp as [x ->].
      change (Js.truthy ("Bearer " +:+ x)) with true. cbn [negb orb].
      rewrite split_space_bearer.
      case_bool_decide as Ht; cbn [negb].
      + split; [|done]. intros _. by exists x.
      + split; [done|]. intros (y & Hy & Hy'). by simplify_eq/=.
    - rewrite orb_true_r. split; [done|].
      intros (x & [= ->] & _).
      assert (String.prefix "Bearer " ("Bearer " +:+ x) = true)
        by (apply prefix_append; by eexists).
      congruence. }
  split; [exact Hnext|]. split.
  - unfold Auth.authMiddleware. destruct authorization as [h|]; [|done].
    destruct (String.prefix "Bearer " h) eqn:Hp.
    + apply prefix_append in Hp as [x ->].
      change (Js.truthy ("Bearer " +:+ x)) with true. cbn [negb orb].
      split; [by destruct (negb _)|]. intros H. by destruct (H x).
    + rewrite orb_true_r. split; [|done]. intros _ x [= ->].
      assert (String.prefix "Bearer " ("Bearer " +:+ x) = true)
        by (apply prefix_append; by eexists).
      congruence.
  - split.
    + intros Hnone Hn. apply Hnext in Hn as (x & _ & Hx). congruence.
    + intros a b Ht Hn. apply Hnext in Hn as (x & _ & Hx).
      rewrite Ht in Hx. injection Hx as Hx.
      by apply (first_word_no_space x a b).
Qed.

Lemma authMiddleware_accepts_witness :
  Auth.authMiddleware
    (fun v => if String.eqb v "WALLET_BACKEND_TOKEN" then Some "s3cret" else None)
    (Some "Bearer s3cret and more") = Auth.Next.
Proof.
  apply (proj1 (authMiddleware_accepts _ _)).
  exists "s3cret and more". split; reflexivity.
Defined.
